(** * HexBright FLEX firmware: mode/timing state machine and sensor monitors

    Shallow embedding of the three firmware revisions of the repository:
    - [Jrt]     : hexbright_jrt/hexbright_jrt.ino (EEPROM last-on memory,
                  delayed physical power-off);
    - [Part000] : the revision with [setLight] but no EEPROM (blink exit
                  after 3000 ms);
    - [Part001] : the oldest revision (inline pin writes in [loop], no
                  motion shutoff, medium brightness on a quick double press);
    - [Accel]   : [readAccel], identical in the two older revisions.

    The firmware globals and the board (clock, driver lines, EEPROM byte)
    are one record that every function threads explicitly.  Serial output
    and the accelerometer configuration writes have no effect on that state
    and are left out. *)

From Stdlib Require Import ZArith List Bool Lia.
Import ListNotations.
Local Open Scope Z_scope.

(** ** Integer types of the target

    The sketch is built for the ATmega of the HexBright FLEX, where [int]
    is 16 bits, [unsigned long] is 32 bits and [byte]/[char] are 8 bits.
    Values are kept in [Z]; each conversion writes its wrap-around out. *)

Definition wrap_unsigned (bits x : Z) : Z := x mod 2 ^ bits.

Definition wrap_signed (bits x : Z) : Z :=
  (x + 2 ^ (bits - 1)) mod 2 ^ bits - 2 ^ (bits - 1).

Definition INT_BITS : Z := 16.

Definition to_int (x : Z) : Z := wrap_signed INT_BITS x.
Definition to_ulong (x : Z) : Z := wrap_unsigned 32 x.
Definition to_byte (x : Z) : Z := wrap_unsigned 8 x.
Definition to_char (x : Z) : Z := wrap_signed 8 x.

(** [a - b] on [unsigned long], the idiom of every elapsed-time test. *)
Definition elapsed (a b : Z) : Z := to_ulong (a - b).

(** ** Modes *)

Definition MODE_OFF : Z := 0.
Definition MODE_LOW : Z := 1.
Definition MODE_MED : Z := 2.
Definition MODE_HIGH : Z := 3.
Definition MODE_BLINKING : Z := 4.
Definition MODE_BLINKING_PREVIEW : Z := 5.

Definition OVERTEMP : Z := 340.
Definition EEPROM_LAST_ON_MODE : Z := 0.

(** ** Board *)

Inductive Pin : Type :=
| DPIN_RLED_SW | DPIN_GLED | DPIN_PWR | DPIN_DRV_MODE | DPIN_DRV_EN.

Inductive Event : Type :=
| EvPinMode (p : Pin) (output : bool)
| EvDigitalWrite (p : Pin) (level : bool)
| EvAnalogWrite (p : Pin) (duty : Z)
| EvDelay (ms : Z)
| EvEepromWrite (addr val : Z).

Definition LOW : bool := false.
Definition HIGH : bool := true.
Definition INPUT : bool := false.
Definition OUTPUT : bool := true.

(** Firmware globals (first nine fields) and board state.  [drv_en] is the
    duty of the enable line, 0..255; a digital write is duty 0 or 255.
    [eeprom] is the byte at [EEPROM_LAST_ON_MODE]; [eeprom_writes] counts
    the calls of [EEPROM.write]; [trace] logs pin writes and delays, oldest
    first. *)
Record State : Type := mkState {
  mode : Z;
  lastOnMode : Z;
  btnTime : Z;
  btnDown : bool;
  lastModeTime : Z;
  oneSecondLoopTime : Z;
  lastAccelTime : Z;
  noAccelShutoffTime : Z;
  poweringOffTime : Z;
  clock : Z;
  pwr : bool;
  drv_mode : bool;
  drv_en : Z;
  gled : bool;
  eeprom : Z;
  eeprom_writes : nat;
  trace : list Event
}.

Definition set_mode (v : Z) (s : State) : State :=
  mkState v (lastOnMode s) (btnTime s) (btnDown s) (lastModeTime s)
    (oneSecondLoopTime s) (lastAccelTime s) (noAccelShutoffTime s)
    (poweringOffTime s) (clock s) (pwr s) (drv_mode s) (drv_en s) (gled s)
    (eeprom s) (eeprom_writes s) (trace s).

Definition set_lastOnMode (v : Z) (s : State) : State :=
  mkState (mode s) v (btnTime s) (btnDown s) (lastModeTime s)
    (oneSecondLoopTime s) (lastAccelTime s) (noAccelShutoffTime s)
    (poweringOffTime s) (clock s) (pwr s) (drv_mode s) (drv_en s) (gled s)
    (eeprom s) (eeprom_writes s) (trace s).

Definition set_btnTime (v : Z) (s : State) : State :=
  mkState (mode s) (lastOnMode s) v (btnDown s) (lastModeTime s)
    (oneSecondLoopTime s) (lastAccelTime s) (noAccelShutoffTime s)
    (poweringOffTime s) (clock s) (pwr s) (drv_mode s) (drv_en s) (gled s)
    (eeprom s) (eeprom_writes s) (trace s).

Definition set_btnDown (v : bool) (s : State) : State :=
  mkState (mode s) (lastOnMode s) (btnTime s) v (lastModeTime s)
    (oneSecondLoopTime s) (lastAccelTime s) (noAccelShutoffTime s)
    (poweringOffTime s) (clock s) (pwr s) (drv_mode s) (drv_en s) (gled s)
    (eeprom s) (eeprom_writes s) (trace s).

Definition set_lastModeTime (v : Z) (s : State) : State :=
  mkState (mode s) (lastOnMode s) (btnTime s) (btnDown s) v
    (oneSecondLoopTime s) (lastAccelTime s) (noAccelShutoffTime s)
    (poweringOffTime s) (clock s) (pwr s) (drv_mode s) (drv_en s) (gled s)
    (eeprom s) (eeprom_writes s) (trace s).

Definition set_oneSecondLoopTime (v : Z) (s : State) : State :=
  mkState (mode s) (lastOnMode s) (btnTime s) (btnDown s) (lastModeTime s) v
    (lastAccelTime s) (noAccelShutoffTime s) (poweringOffTime s) (clock s)
    (pwr s) (drv_mode s) (drv_en s) (gled s) (eeprom s) (eeprom_writes s)
    (trace s).

Definition set_lastAccelTime (v : Z) (s : State) : State :=
  mkState (mode s) (lastOnMode s) (btnTime s) (btnDown s) (lastModeTime s)
    (oneSecondLoopTime s) v (noAccelShutoffTime s) (poweringOffTime s)
    (clock s) (pwr s) (drv_mode s) (drv_en s) (gled s) (eeprom s)
    (eeprom_writes s) (trace s).

Definition set_noAccelShutoffTime (v : Z) (s : State) : State :=
  mkState (mode s) (lastOnMode s) (btnTime s) (btnDown s) (lastModeTime s)
    (oneSecondLoopTime s) (lastAccelTime s) v (poweringOffTime s) (clock s)
    (pwr s) (drv_mode s) (drv_en s) (gled s) (eeprom s) (eeprom_writes s)
    (trace s).

Definition set_poweringOffTime (v : Z) (s : State) : State :=
  mkState (mode s) (lastOnMode s) (btnTime s) (btnDown s) (lastModeTime s)
    (oneSecondLoopTime s) (lastAccelTime s) (noAccelShutoffTime s) v (clock
    s) (pwr s) (drv_mode s) (drv_en s) (gled s) (eeprom s) (eeprom_writes s)
    (trace s).

Definition set_clock (v : Z) (s : State) : State :=
  mkState (mode s) (lastOnMode s) (btnTime s) (btnDown s) (lastModeTime s)
    (oneSecondLoopTime s) (lastAccelTime s) (noAccelShutoffTime s)
    (poweringOffTime s) v (pwr s) (drv_mode s) (drv_en s) (gled s) (eeprom
    s) (eeprom_writes s) (trace s).

Definition set_pwr (v : bool) (s : State) : State :=
  mkState (mode s) (lastOnMode s) (btnTime s) (btnDown s) (lastModeTime s)
    (oneSecondLoopTime s) (lastAccelTime s) (noAccelShutoffTime s)
    (poweringOffTime s) (clock s) v (drv_mode s) (drv_en s) (gled s) (eeprom
    s) (eeprom_writes s) (trace s).

Definition set_drv_mode (v : bool) (s : State) : State :=
  mkState (mode s) (lastOnMode s) (btnTime s) (btnDown s) (lastModeTime s)
    (oneSecondLoopTime s) (lastAccelTime s) (noAccelShutoffTime s)
    (poweringOffTime s) (clock s) (pwr s) v (drv_en s) (gled s) (eeprom s)
    (eeprom_writes s) (trace s).

Definition set_drv_en (v : Z) (s : State) : State :=
  mkState (mode s) (lastOnMode s) (btnTime s) (btnDown s) (lastModeTime s)
    (oneSecondLoopTime s) (lastAccelTime s) (noAccelShutoffTime s)
    (poweringOffTime s) (clock s) (pwr s) (drv_mode s) v (gled s) (eeprom s)
    (eeprom_writes s) (trace s).

Definition set_gled (v : bool) (s : State) : State :=
  mkState (mode s) (lastOnMode s) (btnTime s) (btnDown s) (lastModeTime s)
    (oneSecondLoopTime s) (lastAccelTime s) (noAccelShutoffTime s)
    (poweringOffTime s) (clock s) (pwr s) (drv_mode s) (drv_en s) v (eeprom
    s) (eeprom_writes s) (trace s).

Definition set_eeprom (v : Z) (s : State) : State :=
  mkState (mode s) (lastOnMode s) (btnTime s) (btnDown s) (lastModeTime s)
    (oneSecondLoopTime s) (lastAccelTime s) (noAccelShutoffTime s)
    (poweringOffTime s) (clock s) (pwr s) (drv_mode s) (drv_en s) (gled s) v
    (eeprom_writes s) (trace s).

Definition set_eeprom_writes (v : nat) (s : State) : State :=
  mkState (mode s) (lastOnMode s) (btnTime s) (btnDown s) (lastModeTime s)
    (oneSecondLoopTime s) (lastAccelTime s) (noAccelShutoffTime s)
    (poweringOffTime s) (clock s) (pwr s) (drv_mode s) (drv_en s) (gled s)
    (eeprom s) v (trace s).

Definition set_trace (v : list Event) (s : State) : State :=
  mkState (mode s) (lastOnMode s) (btnTime s) (btnDown s) (lastModeTime s)
    (oneSecondLoopTime s) (lastAccelTime s) (noAccelShutoffTime s)
    (poweringOffTime s) (clock s) (pwr s) (drv_mode s) (drv_en s) (gled s)
    (eeprom s) (eeprom_writes s) v.

(** What the environment presents during one pass of [loop]. *)
Record Inputs : Type := mkInputs {
  in_button : bool;   (* digitalRead(DPIN_RLED_SW) *)
  in_charge : Z;      (* analogRead(APIN_CHARGE) *)
  in_temp : Z;        (* analogRead(APIN_TEMP) *)
  in_acc_int : bool;  (* digitalRead(DPIN_ACC_INT) *)
  in_tilt : Z         (* byte read from ACC_REG_TILT *)
}.

Definition emit (e : Event) (s : State) : State :=
  set_trace (trace s ++ [e]) s.

Definition millis (s : State) : Z := clock s.

Definition delay (ms : Z) (s : State) : State :=
  emit (EvDelay ms) (set_clock (to_ulong (clock s + ms)) s).

Definition pinMode (p : Pin) (dir : bool) (s : State) : State :=
  emit (EvPinMode p dir) s.

Definition drive (p : Pin) (duty : Z) (s : State) : State :=
  match p with
  | DPIN_PWR => set_pwr (negb (duty =? 0)) s
  | DPIN_DRV_MODE => set_drv_mode (negb (duty =? 0)) s
  | DPIN_DRV_EN => set_drv_en duty s
  | DPIN_GLED => set_gled (negb (duty =? 0)) s
  | DPIN_RLED_SW => s
  end.

Definition digitalWrite (p : Pin) (level : bool) (s : State) : State :=
  emit (EvDigitalWrite p level) (drive p (if level then 255 else 0) s).

Definition analogWrite (p : Pin) (duty : Z) (s : State) : State :=
  emit (EvAnalogWrite p duty) (drive p duty s).

Definition EEPROM_read (s : State) : Z := eeprom s.

Definition EEPROM_write (v : Z) (s : State) : State :=
  emit (EvEepromWrite EEPROM_LAST_ON_MODE v)
    (set_eeprom_writes (S (eeprom_writes s)) (set_eeprom (to_byte v) s)).

(** Time passing between two passes of [loop]. *)
Definition tick (dt : Z) (s : State) : State :=
  set_clock (to_ulong (clock s + dt)) s.

(** Memory and board right after reset: every global holds its static
    initialiser, the EEPROM keeps [rom], the millisecond counter shows [t0]. *)
Definition power_on (lastOn0 rom t0 : Z) : State :=
  mkState 0 lastOn0 0 false 0 0 0 0 0 (to_ulong t0) false false 0 false
    (to_byte rom) 0%nat [].

(** Sequencing of calls that may fail to return. *)
Definition bind {A B : Type} (m : option A) (k : A -> option B) : option B :=
  match m with
  | Some a => k a
  | None => None
  end.

Notation "x <- m ;; k" := (bind m (fun x => k))
  (at level 61, m at next level, right associativity).

(** [LastOnMode] is one of Low, Medium, High. *)
Definition valid_lastOn (m : Z) : Prop := MODE_LOW <= m <= MODE_HIGH.

(** * Code shared by the revisions

    The constants and the functions of this module have the same text in
    hexbright_jrt.ino and in the [setLight] revision without EEPROM;
    [checkChargeState], [blinkOutput] and [rememberButton] are also the text
    of the oldest revision (which names the first one [chargeState]). *)

Module Common.

Definition defaultMode : Z := to_int MODE_HIGH.
Definition buttonTimeoutToOffMilliseconds : Z := to_int 2000.
Definition noAccelShutoffMilliseconds : Z := to_int (30 * 60 * 1000).

Definition resetAccelTimeout (s : State) : State :=
  let time := millis s in
  set_noAccelShutoffTime (to_ulong (time + noAccelShutoffMilliseconds))
    (set_lastAccelTime time s).

Definition checkChargeState (inp : Inputs) (s : State) : State :=
  let time := millis s in
  let chargeState := in_charge inp in
  if chargeState <? 128 then
    digitalWrite DPIN_GLED (if Z.land time 256 =? 0 then HIGH else LOW) s
  else if chargeState >? 768 then digitalWrite DPIN_GLED HIGH s
  else digitalWrite DPIN_GLED LOW s.

Definition checkAccel (inp : Inputs) (s : State) : State :=
  let time := millis s in
  if negb (in_acc_int inp) then
    let tilt := to_byte (in_tilt inp) in
    let tapped := negb (Z.land tilt 32 =? 0) in
    let shaked := negb (Z.land tilt 128 =? 0) in
    let s := if tapped
             then resetAccelTimeout (set_lastAccelTime time s) else s in
    if shaked then resetAccelTimeout (set_lastAccelTime time s) else s
  else s.

(** "Do whatever this mode does". *)
Definition blinkOutput (time : Z) (s : State) : State :=
  if (mode s =? MODE_BLINKING) || (mode s =? MODE_BLINKING_PREVIEW)
  then digitalWrite DPIN_DRV_EN (time mod 600 <? 450) s
  else s.

(** "Remember button state so we can detect transitions". *)
Definition rememberButton (time : Z) (newBtnDown : bool) (s : State) : State :=
  if negb (Bool.eqb newBtnDown (btnDown s))
  then delay 50 (set_btnDown newBtnDown (set_btnTime time s))
  else s.

(** Pin set-up at the head of [setup].  The accelerometer interrupt and
    power-good pins, which are only ever read, have no field in [State] and
    their two [pinMode] calls and pull-up write are left out. *)
Definition initGpio (s : State) : State :=
  let s := pinMode DPIN_PWR INPUT s in
  let s := digitalWrite DPIN_PWR LOW s in
  let s := pinMode DPIN_RLED_SW INPUT s in
  let s := pinMode DPIN_GLED OUTPUT s in
  let s := pinMode DPIN_DRV_MODE OUTPUT s in
  let s := pinMode DPIN_DRV_EN OUTPUT s in
  let s := digitalWrite DPIN_DRV_MODE LOW s in
  digitalWrite DPIN_DRV_EN LOW s.

End Common.

(** * hexbright_jrt.ino *)

Module Jrt.
Import Common.

(** [setLight] calls itself in the blinking case; [fuel] bounds the depth
    and [None] stands for a call that does not return. *)
Fixpoint setLight (fuel : nat) (lightMode : Z) (s : State) : option State :=
  match fuel with
  | O => None
  | S fuel' =>
    s1 <- (if lightMode =? MODE_OFF then
             let s := digitalWrite DPIN_DRV_MODE LOW s in
             let s := digitalWrite DPIN_DRV_EN LOW s in
             Some (set_poweringOffTime
                     (to_ulong (millis s
                                + to_int (buttonTimeoutToOffMilliseconds * 3)))
                     s)
           else if lightMode =? MODE_LOW then
             let s := pinMode DPIN_PWR OUTPUT s in
             let s := digitalWrite DPIN_PWR HIGH s in
             let s := digitalWrite DPIN_DRV_MODE LOW s in
             let s := analogWrite DPIN_DRV_EN 64 s in
             Some (set_poweringOffTime 0 (set_lastOnMode lightMode s))
           else if lightMode =? MODE_MED then
             let s := pinMode DPIN_PWR OUTPUT s in
             let s := digitalWrite DPIN_PWR HIGH s in
             let s := digitalWrite DPIN_DRV_MODE LOW s in
             let s := analogWrite DPIN_DRV_EN 255 s in
             Some (set_poweringOffTime 0 (set_lastOnMode lightMode s))
           else if lightMode =? MODE_HIGH then
             let s := pinMode DPIN_PWR OUTPUT s in
             let s := digitalWrite DPIN_PWR HIGH s in
             let s := digitalWrite DPIN_DRV_MODE HIGH s in
             let s := analogWrite DPIN_DRV_EN 255 s in
             Some (set_poweringOffTime 0 (set_lastOnMode lightMode s))
           else if (lightMode =? MODE_BLINKING)
                   || (lightMode =? MODE_BLINKING_PREVIEW) then
             s <- setLight fuel' (lastOnMode s) s ;;
             Some (set_poweringOffTime 0 s)
           else Some s) ;;
    let s2 := set_mode lightMode s1 in
    let s3 := if mode s2 =? MODE_BLINKING_PREVIEW
              then set_mode MODE_BLINKING s2 else s2 in
    Some (resetAccelTimeout s3)
  end.

Definition setLightOff (fuel : nat) := setLight fuel MODE_OFF.
Definition setLightLow (fuel : nat) := setLight fuel MODE_LOW.
Definition setLightMed (fuel : nat) := setLight fuel MODE_MED.
Definition setLightHigh (fuel : nat) := setLight fuel MODE_HIGH.
Definition setLightBlinking (fuel : nat) := setLight fuel MODE_BLINKING.

Definition powerOff (s : State) : State :=
  let s := pinMode DPIN_PWR OUTPUT s in
  let s := digitalWrite DPIN_PWR LOW s in
  let s := digitalWrite DPIN_DRV_MODE LOW s in
  let s := digitalWrite DPIN_DRV_EN LOW s in
  let eepromLastOnMode := EEPROM_read s in
  if negb (eepromLastOnMode =? lastOnMode s)
  then EEPROM_write (lastOnMode s) s
  else s.

(** The body of [for (int i = 0; i < 6; i++)] in [checkTemperature],
    run [n] times. *)
Fixpoint overheatBlink (fuel : nat) (n : nat) (s : State) : option State :=
  match n with
  | O => Some s
  | S n' =>
    s <- setLightLow fuel s ;;
    let s := delay 100 s in
    s <- setLightHigh fuel s ;;
    let s := delay 100 s in
    overheatBlink fuel n' s
  end.

Definition checkTemperature (fuel : nat) (inp : Inputs) (s : State)
  : option State :=
  let temperature := in_temp inp in
  if (temperature >? OVERTEMP) && negb (mode s =? MODE_OFF) then
    s <- overheatBlink fuel 6 s ;;
    setLightLow fuel s
  else Some s.

(** The inactivity test that ends [oneSecondLoop]; [time] is the value
    [oneSecondLoop] read on entry. *)
Definition checkNoMotion (fuel : nat) (time : Z) (s : State) : option State :=
  if (time >? noAccelShutoffTime s) && negb (mode s =? MODE_OFF)
  then setLightOff fuel s
  else Some s.

Definition oneSecondLoop (fuel : nat) (inp : Inputs) (s : State)
  : option State :=
  let time := millis s in
  if elapsed time (oneSecondLoopTime s) <? 1000 then Some s
  else
    let s := set_oneSecondLoopTime time s in
    s <- checkTemperature fuel inp s ;;
    let s := pinMode DPIN_RLED_SW OUTPUT s in
    let s := pinMode DPIN_RLED_SW INPUT s in
    let s := checkAccel inp s in
    checkNoMotion fuel time s.

(** [switch (mode)] under "Check for mode changes": the new mode, and the
    state with [lastModeTime] as the [MODE_OFF] case may have set it. *)
Definition checkModeChange (time : Z) (newBtnDown : bool) (s : State)
  : Z * State :=
  let released := btnDown s && negb newBtnDown in
  let held := elapsed time (btnTime s) in
  let dwell := elapsed time (lastModeTime s) in
  if mode s =? MODE_OFF then
    if released && (held >? 20) then
      if (lastModeTime s =? 0) || (dwell >? 1000)
      then (lastOnMode s, set_lastModeTime time s)
      else (MODE_LOW, s)
    else if btnDown s && newBtnDown && (held >? 500)
    then (MODE_BLINKING_PREVIEW, s)
    else (mode s, s)
  else if mode s =? MODE_LOW then
    if released && (held >? 50) then
      if dwell >? buttonTimeoutToOffMilliseconds
      then (MODE_OFF, s) else (MODE_MED, s)
    else (mode s, s)
  else if mode s =? MODE_MED then
    if released && (held >? 50) then
      if dwell >? buttonTimeoutToOffMilliseconds
      then (MODE_OFF, s) else (MODE_HIGH, s)
    else (mode s, s)
  else if mode s =? MODE_HIGH then
    if released && (held >? 50) then (MODE_OFF, s) else (mode s, s)
  else if mode s =? MODE_BLINKING_PREVIEW then
    if released then (MODE_BLINKING, s) else (mode s, s)
  else if mode s =? MODE_BLINKING then
    if released && (held >? 50) then
      if dwell >? 2000 then (MODE_OFF, s) else (mode s, s)
    else (mode s, s)
  else (mode s, s).

(** "Do the mode transitions". *)
Definition doModeTransition (fuel : nat) (time newMode : Z) (s : State)
  : option State :=
  if negb (newMode =? mode s) then
    let s := set_lastModeTime time s in
    if newMode =? MODE_OFF then setLightOff fuel s
    else if newMode =? MODE_LOW then setLightLow fuel s
    else if newMode =? MODE_MED then setLightMed fuel s
    else if newMode =? MODE_HIGH then setLightHigh fuel s
    else if (newMode =? MODE_BLINKING) || (newMode =? MODE_BLINKING_PREVIEW)
    then setLightBlinking fuel s
    else Some s
  else Some s.

(** The button-driven part of [loop]: transition table, transition,
    button bookkeeping. *)
Definition buttonStep (fuel : nat) (time : Z) (newBtnDown : bool) (s : State)
  : option State :=
  let '(newMode, s) := checkModeChange time newBtnDown s in
  s <- doModeTransition fuel time newMode s ;;
  Some (rememberButton time newBtnDown s).

Definition powerOffDue (time : Z) (s : State) : bool :=
  (poweringOffTime s >? 0) && (time >? poweringOffTime s).

Definition loop (fuel : nat) (inp : Inputs) (s : State) : option State :=
  let time := millis s in
  if powerOffDue time s then Some (powerOff s)
  else
    let s := checkChargeState inp s in
    s <- oneSecondLoop fuel inp s ;;
    let s := blinkOutput time s in
    buttonStep fuel time (in_button inp) s.

Definition setup (inp : Inputs) (s : State) : State :=
  let time := millis s in
  let s := initGpio s in
  let s := set_btnTime time s in
  let s := set_btnDown (in_button inp) s in
  let s := set_mode MODE_OFF s in
  let s := set_lastOnMode 0 s in
  let s := set_btnTime 0 s in
  let s := set_btnDown false s in
  let s := set_lastModeTime 0 s in
  let s := set_oneSecondLoopTime 0 s in
  let s := set_lastAccelTime 0 s in
  let s := set_noAccelShutoffTime 0 s in
  let s := set_lastOnMode (EEPROM_read s) s in
  let s := if (lastOnMode s <? MODE_LOW) || (lastOnMode s >? MODE_HIGH)
           then set_lastOnMode MODE_MED s else s in
  resetAccelTimeout s.

(** Reset with [rom] in the EEPROM, then [setup]. *)
Definition boot (rom t0 : Z) (inp : Inputs) : State :=
  setup inp (power_on 0 rom t0).

(** States the firmware passes through between two passes of [loop]. *)
Inductive reachable : State -> Prop :=
| reach_boot rom t0 inp : reachable (boot rom t0 inp)
| reach_tick s dt : reachable s -> reachable (tick dt s)
| reach_loop s fuel inp s' :
    reachable s -> loop fuel inp s = Some s' -> reachable s'.

(** Passes of [loop], each after [dt] milliseconds and on the inputs given. *)
Fixpoint run (fuel : nat) (script : list (Z * Inputs)) (s : State)
  : option State :=
  match script with
  | [] => Some s
  | (dt, inp) :: rest => s' <- loop fuel inp (tick dt s) ;; run fuel rest s'
  end.

End Jrt.

(** * The [setLight] revision without EEPROM *)

Module Part000.
Import Common.

Fixpoint setLight (fuel : nat) (lightMode : Z) (s : State) : option State :=
  match fuel with
  | O => None
  | S fuel' =>
    s1 <- (if lightMode =? MODE_OFF then
             let s := pinMode DPIN_PWR OUTPUT s in
             let s := digitalWrite DPIN_PWR LOW s in
             let s := digitalWrite DPIN_DRV_MODE LOW s in
             Some (digitalWrite DPIN_DRV_EN LOW s)
           else if lightMode =? MODE_LOW then
             let s := pinMode DPIN_PWR OUTPUT s in
             let s := digitalWrite DPIN_PWR HIGH s in
             let s := digitalWrite DPIN_DRV_MODE LOW s in
             Some (analogWrite DPIN_DRV_EN 64 s)
           else if lightMode =? MODE_MED then
             let s := pinMode DPIN_PWR OUTPUT s in
             let s := digitalWrite DPIN_PWR HIGH s in
             let s := digitalWrite DPIN_DRV_MODE LOW s in
             Some (analogWrite DPIN_DRV_EN 255 s)
           else if lightMode =? MODE_HIGH then
             let s := pinMode DPIN_PWR OUTPUT s in
             let s := digitalWrite DPIN_PWR HIGH s in
             let s := digitalWrite DPIN_DRV_MODE HIGH s in
             Some (analogWrite DPIN_DRV_EN 255 s)
           else if (lightMode =? MODE_BLINKING)
                   || (lightMode =? MODE_BLINKING_PREVIEW) then
             setLight fuel' (lastOnMode s) s
           else Some s) ;;
    let s2 := set_mode lightMode s1 in
    let s3 := if mode s2 =? MODE_BLINKING_PREVIEW
              then set_mode MODE_BLINKING s2 else s2 in
    Some (resetAccelTimeout s3)
  end.

Definition setLightOff (fuel : nat) := setLight fuel MODE_OFF.
Definition setLightLow (fuel : nat) := setLight fuel MODE_LOW.
Definition setLightMed (fuel : nat) := setLight fuel MODE_MED.
Definition setLightHigh (fuel : nat) := setLight fuel MODE_HIGH.
Definition setLightBlinking (fuel : nat) := setLight fuel MODE_BLINKING.

Fixpoint overheatBlink (fuel : nat) (n : nat) (s : State) : option State :=
  match n with
  | O => Some s
  | S n' =>
    s <- setLightLow fuel s ;;
    let s := delay 100 s in
    s <- setLightHigh fuel s ;;
    let s := delay 100 s in
    overheatBlink fuel n' s
  end.

Definition checkTemperature (fuel : nat) (inp : Inputs) (s : State)
  : option State :=
  let temperature := in_temp inp in
  if (temperature >? OVERTEMP) && negb (mode s =? MODE_OFF) then
    s <- overheatBlink fuel 6 s ;;
    setLightLow fuel s
  else Some s.

Definition checkNoMotion (fuel : nat) (time : Z) (s : State) : option State :=
  if (time >? noAccelShutoffTime s) && negb (mode s =? MODE_OFF)
  then setLightOff fuel s
  else Some s.

Definition oneSecondLoop (fuel : nat) (inp : Inputs) (s : State)
  : option State :=
  let time := millis s in
  if elapsed time (oneSecondLoopTime s) <? 1000 then Some s
  else
    let s := set_oneSecondLoopTime time s in
    s <- checkTemperature fuel inp s ;;
    let s := pinMode DPIN_RLED_SW OUTPUT s in
    let s := pinMode DPIN_RLED_SW INPUT s in
    let s := checkAccel inp s in
    checkNoMotion fuel time s.

(** In [case MODE_OFF] the two tests follow each other without a [break]:
    the second one runs on the mode the first one chose. *)
Definition checkModeChange (time : Z) (newBtnDown : bool) (s : State)
  : Z * State :=
  let released := btnDown s && negb newBtnDown in
  let held := elapsed time (btnTime s) in
  let dwell := elapsed time (lastModeTime s) in
  if mode s =? MODE_OFF then
    let '(newMode, s1) :=
      if released && (held >? 20) then
        if dwell >? 1000
        then (lastOnMode s, set_lastModeTime time s)
        else (MODE_LOW, s)
      else (mode s, s) in
    if btnDown s && newBtnDown && (held >? 500)
    then (MODE_BLINKING_PREVIEW, s1)
    else (newMode, s1)
  else if mode s =? MODE_LOW then
    if released && (held >? 50) then
      if dwell >? buttonTimeoutToOffMilliseconds
      then (MODE_OFF, s) else (MODE_MED, s)
    else (mode s, s)
  else if mode s =? MODE_MED then
    if released && (held >? 50) then
      if dwell >? buttonTimeoutToOffMilliseconds
      then (MODE_OFF, s) else (MODE_HIGH, s)
    else (mode s, s)
  else if mode s =? MODE_HIGH then
    if released && (held >? 50) then (MODE_OFF, s) else (mode s, s)
  else if mode s =? MODE_BLINKING_PREVIEW then
    if released then (MODE_BLINKING, s) else (mode s, s)
  else if mode s =? MODE_BLINKING then
    if released && (held >? 50) then
      if dwell >? 3000 then (MODE_OFF, s) else (mode s, s)
    else (mode s, s)
  else (mode s, s).

Definition doModeTransition (fuel : nat) (time newMode : Z) (s : State)
  : option State :=
  if negb (newMode =? mode s) then
    let s := set_lastModeTime time s in
    if newMode =? MODE_OFF then setLightOff fuel s
    else if newMode =? MODE_LOW then
      s <- setLightLow fuel s ;; Some (set_lastOnMode newMode s)
    else if newMode =? MODE_MED then
      s <- setLightMed fuel s ;; Some (set_lastOnMode newMode s)
    else if newMode =? MODE_HIGH then
      s <- setLightHigh fuel s ;; Some (set_lastOnMode newMode s)
    else if (newMode =? MODE_BLINKING) || (newMode =? MODE_BLINKING_PREVIEW)
    then setLightBlinking fuel s
    else Some s
  else Some s.

Definition buttonStep (fuel : nat) (time : Z) (newBtnDown : bool) (s : State)
  : option State :=
  let '(newMode, s) := checkModeChange time newBtnDown s in
  s <- doModeTransition fuel time newMode s ;;
  Some (rememberButton time newBtnDown s).

Definition loop (fuel : nat) (inp : Inputs) (s : State) : option State :=
  let time := millis s in
  let s := checkChargeState inp s in
  s <- oneSecondLoop fuel inp s ;;
  let s := blinkOutput time s in
  buttonStep fuel time (in_button inp) s.

Definition setup (fuel : nat) (inp : Inputs) (s : State) : option State :=
  let s := initGpio s in
  s <- setLightOff fuel s ;;
  let s := set_btnTime (millis s) s in
  let s := set_btnDown (in_button inp) s in
  Some (resetAccelTimeout s).

(** [byte lastOnMode = defaultMode;] is the static initialiser here. *)
Definition boot (fuel : nat) (t0 : Z) (inp : Inputs) : option State :=
  setup fuel inp (power_on (to_byte defaultMode) 0 t0).

Inductive reachable : State -> Prop :=
| reach_boot fuel t0 inp s : boot fuel t0 inp = Some s -> reachable s
| reach_tick s dt : reachable s -> reachable (tick dt s)
| reach_loop s fuel inp s' :
    reachable s -> loop fuel inp s = Some s' -> reachable s'.

(** Passes of [loop], each after [dt] milliseconds and on the inputs given. *)
Fixpoint run (fuel : nat) (script : list (Z * Inputs)) (s : State)
  : option State :=
  match script with
  | [] => Some s
  | (dt, inp) :: rest => s' <- loop fuel inp (tick dt s) ;; run fuel rest s'
  end.

End Part000.

(** * The oldest revision: transitions written out in [loop] *)

Module Part001.
Import Common.

(** [lastAccelTime] holds this revision's [lastAccTime]. *)
Definition checkAccel (inp : Inputs) (s : State) : State :=
  let time := millis s in
  if negb (in_acc_int inp) then
    if elapsed (millis s) (lastAccelTime s) >? 500
    then set_lastAccelTime time s
    else s
  else s.

(** The body of [for (int i = 0; i < 6; i++)] in [oneSecondLoop]. *)
Fixpoint overheatBlink (n : nat) (s : State) : State :=
  match n with
  | O => s
  | S n' =>
    let s := digitalWrite DPIN_DRV_MODE LOW s in
    let s := delay 100 s in
    let s := digitalWrite DPIN_DRV_MODE HIGH s in
    let s := delay 100 s in
    overheatBlink n' s
  end.

(** The block under [if (temperature > OVERTEMP && mode != MODE_OFF)]. *)
Definition overheat (s : State) : State :=
  let s := overheatBlink 6 s in
  let s := digitalWrite DPIN_DRV_MODE LOW s in
  set_mode MODE_LOW s.

Definition oneSecondLoop (inp : Inputs) (s : State) : State :=
  let time := millis s in
  if elapsed time (oneSecondLoopTime s) >? 1000 then
    let s := set_oneSecondLoopTime time s in
    let temperature := in_temp inp in
    let s := if (temperature >? OVERTEMP) && negb (mode s =? MODE_OFF)
             then overheat s else s in
    let s := pinMode DPIN_RLED_SW OUTPUT s in
    pinMode DPIN_RLED_SW INPUT s
  else s.

Definition checkModeChange (time : Z) (newBtnDown : bool) (s : State)
  : Z * State :=
  let released := btnDown s && negb newBtnDown in
  let held := elapsed time (btnTime s) in
  let dwell := elapsed time (lastModeTime s) in
  if mode s =? MODE_OFF then
    let '(newMode, s1) :=
      if released && (held >? 20) then
        if dwell >? 2500
        then (lastOnMode s, set_lastModeTime time s)
        else (MODE_MED, s)
      else (mode s, s) in
    if btnDown s && newBtnDown && (held >? 500)
    then (MODE_BLINKING_PREVIEW, s1)
    else (newMode, s1)
  else if mode s =? MODE_LOW then
    if released && (held >? 50) then
      if dwell >? 5000 then (MODE_OFF, s) else (MODE_MED, s)
    else (mode s, s)
  else if mode s =? MODE_MED then
    if released && (held >? 50) then
      if dwell >? 5000 then (MODE_OFF, s) else (MODE_HIGH, s)
    else (mode s, s)
  else if mode s =? MODE_HIGH then
    if released && (held >? 50) then (MODE_OFF, s) else (mode s, s)
  else if mode s =? MODE_BLINKING_PREVIEW then
    if released then (MODE_BLINKING, s) else (mode s, s)
  else if mode s =? MODE_BLINKING then
    if released && (held >? 50) then (MODE_OFF, s) else (mode s, s)
  else (mode s, s).

Definition doModeTransition (time newMode : Z) (s : State) : State :=
  if negb (newMode =? mode s) then
    let s := set_lastModeTime time s in
    let s :=
      if newMode =? MODE_OFF then
        let s := pinMode DPIN_PWR OUTPUT s in
        let s := digitalWrite DPIN_PWR LOW s in
        let s := digitalWrite DPIN_DRV_MODE LOW s in
        digitalWrite DPIN_DRV_EN LOW s
      else if newMode =? MODE_LOW then
        let s := pinMode DPIN_PWR OUTPUT s in
        let s := digitalWrite DPIN_PWR HIGH s in
        let s := digitalWrite DPIN_DRV_MODE LOW s in
        let s := analogWrite DPIN_DRV_EN 64 s in
        set_lastOnMode newMode s
      else if newMode =? MODE_MED then
        let s := pinMode DPIN_PWR OUTPUT s in
        let s := digitalWrite DPIN_PWR HIGH s in
        let s := digitalWrite DPIN_DRV_MODE LOW s in
        let s := analogWrite DPIN_DRV_EN 255 s in
        set_lastOnMode newMode s
      else if newMode =? MODE_HIGH then
        let s := pinMode DPIN_PWR OUTPUT s in
        let s := digitalWrite DPIN_PWR HIGH s in
        let s := digitalWrite DPIN_DRV_MODE HIGH s in
        let s := analogWrite DPIN_DRV_EN 255 s in
        set_lastOnMode newMode s
      else if (newMode =? MODE_BLINKING) || (newMode =? MODE_BLINKING_PREVIEW)
      then
        let s := pinMode DPIN_PWR OUTPUT s in
        let s := digitalWrite DPIN_PWR HIGH s in
        digitalWrite DPIN_DRV_MODE HIGH s
      else s in
    set_mode newMode s
  else s.

Definition buttonStep (time : Z) (newBtnDown : bool) (s : State) : State :=
  let '(newMode, s) := checkModeChange time newBtnDown s in
  let s := doModeTransition time newMode s in
  rememberButton time newBtnDown s.

Definition loop (inp : Inputs) (s : State) : State :=
  let time := millis s in
  let s := checkChargeState inp s in
  let s := oneSecondLoop inp s in
  let s := checkAccel inp s in
  let s := blinkOutput time s in
  buttonStep time (in_button inp) s.

Definition setup (inp : Inputs) (s : State) : State :=
  let s := initGpio s in
  let s := set_btnTime (millis s) s in
  let s := set_btnDown (in_button inp) s in
  set_mode MODE_OFF s.

(** [byte lastOnMode = MODE_MED;] is the static initialiser here. *)
Definition boot (t0 : Z) (inp : Inputs) : State :=
  setup inp (power_on MODE_MED 0 t0).

Inductive reachable : State -> Prop :=
| reach_boot t0 inp : reachable (boot t0 inp)
| reach_tick s dt : reachable s -> reachable (tick dt s)
| reach_loop s inp : reachable s -> reachable (loop inp s).

(** Passes of [loop], each after [dt] milliseconds and on the inputs given. *)
Fixpoint run (script : list (Z * Inputs)) (s : State) : State :=
  match script with
  | [] => s
  | (dt, inp) :: rest => run rest (loop inp (tick dt s))
  end.

End Part001.

(** * [readAccel] (same text in the two revisions without EEPROM) *)

Module Accel.

(** How an iteration of [while (1)] ends. *)
Inductive LoopExit : Type := LoopBreak | LoopAgain.

(** [acc[i] = v] on the caller's [char acc[3]]. *)
Fixpoint store (i : nat) (v : Z) (acc : list Z) : list Z :=
  match acc, i with
  | [], _ => []
  | _ :: t, O => v :: t
  | h :: t, S i' => h :: store i' v t
  end.

(** [for (int i = 0; i < 3; i++)], with [n] iterations left.  [rx] is what
    the Wire receive buffer still holds; each [continue] of the source
    goes on with the next [i].  Entries of [acc] are [char] values. *)
Fixpoint forAxes (n i : nat) (rx acc : list Z) : list Z * list Z :=
  match n with
  | O => (rx, acc)
  | S n' =>
    match rx with
    | [] => forAxes n' (S i) rx acc
    | b :: rx' =>
      let acc := store i (to_char b) acc in
      if negb (Z.land (nth i acc 0) 64 =? 0) then forAxes n' (S i) rx' acc
      else
        let acc := if negb (Z.land (nth i acc 0) 32 =? 0)
                   then store i (to_char (Z.lor (nth i acc 0) 192)) acc
                   else acc in
        forAxes n' (S i) rx' acc
    end
  end.

(** One iteration of [while (1)]: a three-byte request answered by
    [sample], the [for] loop, then the unconditional [break]. *)
Definition whileBody (sample acc : list Z) : LoopExit * list Z :=
  let '(_, acc) := forAxes 3 0 (firstn 3 sample) acc in
  (LoopBreak, acc).

(** [bus] lists the sensor's answers to successive requests; it runs out
    ([None]) only if the loop is still asking. *)
Fixpoint readAccel (bus : list (list Z)) (acc : list Z)
  : option (list Z * list (list Z)) :=
  match bus with
  | [] => None
  | sample :: rest =>
    match whileBody sample acc with
    | (LoopBreak, acc') => Some (acc', rest)
    | (LoopAgain, acc') => readAccel rest acc'
    end
  end.

(** The protocol in the words of the specification, for comparison: an
    answer in which some byte has bit 6 set is asked for again; the first
    answer without it is returned, bytes with bit 5 set sign-extended. *)
Definition failed (b : Z) : bool := negb (Z.land b 64 =? 0).

Definition signExtend (b : Z) : Z :=
  if negb (Z.land b 32 =? 0) then to_char (Z.lor b 192) else to_char b.

Fixpoint readAccel_spec (bus : list (list Z))
  : option (list Z * list (list Z)) :=
  match bus with
  | [] => None
  | sample :: rest =>
    if existsb failed (firstn 3 sample) then readAccel_spec rest
    else Some (map signExtend (firstn 3 sample), rest)
  end.

End Accel.

(** * Vocabulary of the statements *)

Arguments elapsed : simpl never.
Arguments to_ulong : simpl never.
Arguments to_int : simpl never.
Arguments to_byte : simpl never.
Arguments to_char : simpl never.

(** The mode [setLight] leaves in [mode]: the preview value is folded
    into [MODE_BLINKING]. *)
Definition collapse (lightMode : Z) : Z :=
  if lightMode =? MODE_BLINKING_PREVIEW then MODE_BLINKING else lightMode.

(** What a returning call of [setLight] has done to the globals, in both
    revisions that have it: the mode, the inactivity deadline, and the
    fields it leaves alone. *)
Record setLight_post (lightMode : Z) (s s' : State) : Prop := {
  sl_mode : mode s' = collapse lightMode;
  sl_deadline : noAccelShutoffTime s' =
                to_ulong (clock s + Common.noAccelShutoffMilliseconds);
  sl_btnDown : btnDown s' = btnDown s;
  sl_btnTime : btnTime s' = btnTime s;
  sl_lastModeTime : lastModeTime s' = lastModeTime s;
  sl_gate : oneSecondLoopTime s' = oneSecondLoopTime s;
  sl_clock : clock s' = clock s;
  sl_eeprom : eeprom s' = eeprom s;
  sl_writes : eeprom_writes s' = eeprom_writes s
}.

(** [lastOnMode] after [setLight] of hexbright_jrt.ino. *)
Definition remembered (lightMode lastOn : Z) : Z :=
  if (MODE_LOW <=? lightMode) && (lightMode <=? MODE_HIGH)
  then lightMode else lastOn.

(** The data-model invariant between passes of [loop] in the two
    [setLight] revisions: a stored brightness in Low..High and a mode in
    Off..Blinking. *)
Definition well_formed (s : State) : Prop :=
  valid_lastOn (lastOnMode s) /\ 0 <= mode s <= 4.

(** [s'] differs from [s] in neither the mode, the stored brightness nor
    the EEPROM. *)
Definition untouched (s s' : State) : Prop :=
  mode s' = mode s /\ lastOnMode s' = lastOnMode s
  /\ eeprom s' = eeprom s /\ eeprom_writes s' = eeprom_writes s.

(** [s'] keeps the invariant of [s] and its EEPROM. *)
Definition keeps (s s' : State) : Prop :=
  (well_formed s -> well_formed s')
  /\ eeprom s' = eeprom s /\ eeprom_writes s' = eeprom_writes s.

(** [checkAccel] of the [setLight] revisions sees a tap or a shake: the
    interrupt line is low and the tilt byte has bit 5 or bit 7 set. *)
Definition classified (inp : Inputs) : bool :=
  negb (in_acc_int inp)
  && (negb (Z.land (to_byte (in_tilt inp)) 32 =? 0)
      || negb (Z.land (to_byte (in_tilt inp)) 128 =? 0)).

(** Pin writes of [setLight] for Low and for High. *)
Definition lightLowEvents : list Event :=
  [EvPinMode DPIN_PWR OUTPUT; EvDigitalWrite DPIN_PWR HIGH;
   EvDigitalWrite DPIN_DRV_MODE LOW; EvAnalogWrite DPIN_DRV_EN 64].

Definition lightHighEvents : list Event :=
  [EvPinMode DPIN_PWR OUTPUT; EvDigitalWrite DPIN_PWR HIGH;
   EvDigitalWrite DPIN_DRV_MODE HIGH; EvAnalogWrite DPIN_DRV_EN 255].

(** One low/high alternation of the overtemperature sequence, in the
    [setLight] revisions and in the oldest one. *)
Definition blinkPhases : list Event :=
  lightLowEvents ++ [EvDelay 100] ++ lightHighEvents ++ [EvDelay 100].

Definition blinkPhasesOld : list Event :=
  [EvDigitalWrite DPIN_DRV_MODE LOW; EvDelay 100;
   EvDigitalWrite DPIN_DRV_MODE HIGH; EvDelay 100].

(** The driver-mode level and enable duty that entering a brightness mode
    writes (the same in the three revisions). *)
Definition driver_lines (m : Z) : option (bool * Z) :=
  if m =? MODE_OFF then Some (LOW, 0)
  else if m =? MODE_LOW then Some (LOW, 64)
  else if m =? MODE_MED then Some (LOW, 255)
  else if m =? MODE_HIGH then Some (HIGH, 255)
  else None.

(** The driver lines show what [mode] names. *)
Definition output_matches_mode (s : State) : Prop :=
  driver_lines (mode s) = Some (drv_mode s, drv_en s).

(** ** Scenarios

    Inputs of a quiet pass: button level [b], charger idle, 300 on the
    temperature input, accelerometer interrupt line high. *)
Definition quiet (b : bool) : Inputs := mkInputs b 500 300 true 0.

(** A quiet pass but for a tap: interrupt line low, bit 5 of the tilt
    byte set. *)
Definition tap (b : bool) : Inputs := mkInputs b 500 300 false 32.

(** The same with the temperature input above [OVERTEMP]. *)
Definition hot (b : bool) : Inputs := mkInputs b 500 400 true 0.

(** hexbright_jrt.ino booted with High in the EEPROM while the button is
    down, after the first pass of [loop] has registered the press. *)
Definition held_off : State :=
  Eval vm_compute in
    match Jrt.run 2 [(10, quiet true)] (Jrt.boot MODE_HIGH 0 (quiet true)) with
    | Some s => s
    | None => power_on 0 0 0
    end.

(** The same light switched on, switched off 300 ms later, and the button
    pressed again 140 ms after that: Off, button down since 600,
    [lastModeTime] 460. *)
Definition pressed_again : State :=
  Eval vm_compute in
    match Jrt.run 2 [(10, quiet true); (100, quiet false); (100, quiet true);
                     (100, quiet false); (90, quiet true)]
            (Jrt.boot MODE_HIGH 0 (quiet true)) with
    | Some s => s
    | None => power_on 0 0 0
    end.

(** hexbright_jrt.ino booted with Medium in the EEPROM, stepped to High by
    two presses, switched off by a third, and left alone for seven
    seconds: the delayed power-off is due. *)
Definition due_off : State :=
  Eval vm_compute in
    match Jrt.run 2 [(10, quiet true); (100, quiet false); (100, quiet true);
                     (100, quiet false); (100, quiet true);
                     (100, quiet false)]
            (Jrt.boot MODE_MED 0 (quiet true)) with
    | Some s => tick 7000 s
    | None => power_on 0 0 0
    end.

(** The oldest revision switched on in Medium three seconds after boot. *)
Definition old_medium : State :=
  Eval vm_compute in
    Part001.run [(3000, quiet false)] (Part001.boot 0 (quiet true)).

(** hexbright_jrt.ino switched on in High from the EEPROM. *)
Definition jrt_high : State :=
  Eval vm_compute in
    match Jrt.run 2 [(10, quiet true); (100, quiet false)]
            (Jrt.boot MODE_HIGH 0 (quiet true)) with
    | Some s => s
    | None => power_on 0 0 0
    end.

(** The same light 31 seconds later, untouched. *)
Definition idle_high : State := Eval vm_compute in tick 31000 jrt_high.


(** ** Vocabulary of the further properties *)

(** The once-per-second pass of hexbright_jrt.ino runs the overtemperature
    sequence: a second has gone by, the sample is above the threshold and
    the mode is not Off. *)
Definition overheats (inp : Inputs) (s : State) : bool :=
  negb (elapsed (millis s) (oneSecondLoopTime s) <? 1000)
  && (in_temp inp >? OVERTEMP) && negb (mode s =? MODE_OFF).

(** The button level sampled differs from the tracked one. *)
Definition edge (inp : Inputs) (s : State) : bool :=
  negb (Bool.eqb (in_button inp) (btnDown s)).

(** Milliseconds a pass of [loop] spends in [delay]. *)
Definition pause (inp : Inputs) (s : State) : Z :=
  (if overheats inp s then 1200 else 0) + (if edge inp s then 50 else 0).

(** Total time a script lets pass between its passes. *)
Fixpoint span (script : list (Z * Inputs)) : Z :=
  match script with
  | [] => 0
  | (dt, _) :: rest => dt + span rest
  end.

(** A light that is on has no power-off scheduled and its power latch
    held, and in a brightness mode (Off..High) the driver lines are those of
    the mode. *)
Definition steady (s : State) : Prop :=
  well_formed s
  /\ (mode s <> MODE_OFF -> poweringOffTime s = 0 /\ pwr s = true)
  /\ (mode s <= MODE_HIGH -> output_matches_mode s).

(** A six-bit two's-complement sample, as the sensor packs an axis. *)
Definition axis6 (b : Z) : Z := if b <? 32 then b else b - 64.

(** A release that is too short to count. *)
Definition bounce (time : Z) (s : State) : Prop :=
  (mode s = MODE_OFF /\ elapsed time (btnTime s) <= 20)
  \/ ((mode s = MODE_LOW \/ mode s = MODE_MED \/ mode s = MODE_HIGH
       \/ mode s = MODE_BLINKING)
      /\ elapsed time (btnTime s) <= 50).

(** What the button-driven part and the pauses read of a state. *)
Definition view (s : State) : bool * Z * Z * Z * Z :=
  (btnDown s, btnTime s, clock s, oneSecondLoopTime s, mode s).

(** What [steady] reads of a state besides [well_formed]. *)
Definition light (s : State) : Z * Z * Z * bool * Z * bool :=
  (mode s, lastOnMode s, poweringOffTime s, drv_mode s, drv_en s, pwr s).


(** The revision without EEPROM drives the power latch with the mode: held
    exactly when the mode is not Off; and in a brightness mode (Off..High)
    the driver lines are those of the mode. *)
Definition latched (s : State) : Prop :=
  well_formed s
  /\ pwr s = negb (mode s =? MODE_OFF)
  /\ (mode s <= MODE_HIGH -> output_matches_mode s).

(** The revision without EEPROM switched on 1.1 s after boot: High, its
    default. *)
Definition p0_high : State :=
  Eval vm_compute in
    match (s <- Part000.boot 1 0 (quiet true) ;;
           Part000.run 2 [(1100, quiet false)] s) with
    | Some s => s
    | None => power_on 0 0 0
    end.

(** ** The once-per-second work of hexbright_jrt.ino in closed form *)

(** [checkTemperature] runs the overtemperature sequence. *)
Definition runs_hot (inp : Inputs) (s : State) : bool :=
  (in_temp inp >? OVERTEMP) && negb (mode s =? MODE_OFF).

(** Milliseconds [checkTemperature] spends in [delay]. *)
Definition pass_pause (inp : Inputs) (s : State) : Z :=
  if runs_hot inp s then 1200 else 0.

(** The mode the inactivity test finds. *)
Definition pass_mode (inp : Inputs) (s : State) : Z :=
  if runs_hot inp s then MODE_LOW else mode s.

(** The deadline the inactivity test finds: moved by the sequence and by a
    classified tap or shake to the clock they read plus the window, as an
    unsigned 32-bit sum. *)
Definition pass_deadline (inp : Inputs) (s : State) : Z :=
  if runs_hot inp s || classified inp
  then to_ulong (clock s + pass_pause inp s
                 + Common.noAccelShutoffMilliseconds)
  else noAccelShutoffTime s.

(** The inactivity test [time > noAccelShutoffTime && mode != MODE_OFF] on
    the time read at the head of [oneSecondLoop]. *)
Definition shutoff_fires (inp : Inputs) (s : State) : bool :=
  (clock s >? pass_deadline inp s) && negb (pass_mode inp s =? MODE_OFF).

(** Boot on external power with High stored, left Off until 40 s before
    the millisecond counter wraps, then one press and release: High. *)
Definition before_wrap : list (Z * Inputs) :=
  [(2 ^ 32 - 40000, quiet true); (100, quiet false)].
(** * Arithmetic of the comparisons *)

Lemma gtb_true (a b : Z) : a > b -> (a >? b) = true.
Proof. intros H. rewrite Z.gtb_ltb. apply Z.ltb_lt. lia. Qed.

Lemma gtb_false (a b : Z) : a <= b -> (a >? b) = false.
Proof. intros H. rewrite Z.gtb_ltb. apply Z.ltb_ge. exact H. Qed.

Lemma gtb_true_inv (a b : Z) : (a >? b) = true -> a > b.
Proof. rewrite Z.gtb_ltb. intros H. apply Z.ltb_lt in H. lia. Qed.

Lemma gtb_false_inv (a b : Z) : (a >? b) = false -> a <= b.
Proof. rewrite Z.gtb_ltb. intros H. apply Z.ltb_ge in H. exact H. Qed.

Lemma to_ulong_small (x : Z) : 0 <= x < 2 ^ 32 -> to_ulong x = x.
Proof. intros H. unfold to_ulong, wrap_unsigned. apply Z.mod_small. exact H. Qed.

Lemma to_byte_small (x : Z) : 0 <= x < 256 -> to_byte x = x.
Proof.
  intros H. unfold to_byte, wrap_unsigned. apply Z.mod_small.
  change (2 ^ 8) with 256. exact H.
Qed.

Lemma to_byte_range (x : Z) : 0 <= to_byte x < 256.
Proof.
  unfold to_byte, wrap_unsigned. change (2 ^ 8) with 256.
  apply Z.mod_pos_bound. lia.
Qed.

(** The inactivity window as the 16-bit [int] holds it, and what an [int]
    of 32 bits would have held. *)
Lemma noAccelShutoffMilliseconds_value :
  Common.noAccelShutoffMilliseconds = 30528.
Proof. reflexivity. Qed.

Lemma noAccelShutoffMilliseconds_if_int32 :
  wrap_signed 32 (30 * 60 * 1000) = 1800000.
Proof. reflexivity. Qed.

Lemma buttonTimeoutToOffMilliseconds_value :
  Common.buttonTimeoutToOffMilliseconds = 2000.
Proof. reflexivity. Qed.

Lemma rememberButton_frame (time : Z) (nb : bool) (s : State) :
  mode (Common.rememberButton time nb s) = mode s
  /\ lastOnMode (Common.rememberButton time nb s) = lastOnMode s
  /\ lastModeTime (Common.rememberButton time nb s) = lastModeTime s
  /\ noAccelShutoffTime (Common.rememberButton time nb s) = noAccelShutoffTime s
  /\ eeprom (Common.rememberButton time nb s) = eeprom s
  /\ eeprom_writes (Common.rememberButton time nb s) = eeprom_writes s
  /\ btnDown (Common.rememberButton time nb s) = nb.
Proof.
  unfold Common.rememberButton.
  destruct nb, (btnDown s) eqn:E; cbn; repeat split; congruence.
Qed.


(** * The scenarios are runs of the firmware *)

Lemma held_off_run :
  Jrt.run 2 [(10, quiet true)] (Jrt.boot MODE_HIGH 0 (quiet true))
  = Some held_off.
Proof. vm_compute. reflexivity. Qed.

Lemma pressed_again_run :
  Jrt.run 2 [(10, quiet true); (100, quiet false); (100, quiet true);
             (100, quiet false); (90, quiet true)]
    (Jrt.boot MODE_HIGH 0 (quiet true))
  = Some pressed_again.
Proof. vm_compute. reflexivity. Qed.

Lemma due_off_run :
  exists s,
    Jrt.run 2 [(10, quiet true); (100, quiet false); (100, quiet true);
               (100, quiet false); (100, quiet true); (100, quiet false)]
      (Jrt.boot MODE_MED 0 (quiet true)) = Some s
    /\ due_off = tick 7000 s
    /\ Jrt.powerOffDue (millis due_off) due_off = true.
Proof.
  eexists. split; [vm_compute; reflexivity|].
  split; vm_compute; reflexivity.
Qed.

Lemma jrt_high_run :
  Jrt.run 2 [(10, quiet true); (100, quiet false)]
    (Jrt.boot MODE_HIGH 0 (quiet true))
  = Some jrt_high.
Proof. vm_compute. reflexivity. Qed.

Lemma old_medium_run :
  Part001.run [(3000, quiet false)] (Part001.boot 0 (quiet true))
  = old_medium.
Proof. vm_compute. reflexivity. Qed.

(** * Facts about hexbright_jrt.ino *)

Module JrtFacts.
Import Common Jrt.

Lemma range_false (m : Z) :
  (m =? MODE_LOW) = false -> (m =? MODE_MED) = false ->
  (m =? MODE_HIGH) = false ->
  (MODE_LOW <=? m) && (m <=? MODE_HIGH) = false.
Proof.
  intros E1 E2 E3. apply Z.eqb_neq in E1, E2, E3.
  unfold MODE_LOW, MODE_MED, MODE_HIGH in *.
  destruct (1 <=? m) eqn:A; destruct (m <=? 3) eqn:B; try reflexivity.
  apply Z.leb_le in A, B. lia.
Qed.

Lemma jrt_setLight_spec (fuel : nat) :
  forall lightMode s s',
    setLight fuel lightMode s = Some s' ->
    setLight_post lightMode s s'
    /\ lastOnMode s' = remembered lightMode (lastOnMode s).
Proof.
  induction fuel as [|fuel IH]; intros m s s' H; [discriminate|].
  cbn [setLight] in H.
  destruct (m =? MODE_OFF) eqn:E0.
  { apply Z.eqb_eq in E0. subst m. cbn in H. inversion H; subst s'.
    split; [constructor|]; reflexivity. }
  destruct (m =? MODE_LOW) eqn:E1.
  { apply Z.eqb_eq in E1. subst m. cbn in H. inversion H; subst s'.
    split; [constructor|]; reflexivity. }
  destruct (m =? MODE_MED) eqn:E2.
  { apply Z.eqb_eq in E2. subst m. cbn in H. inversion H; subst s'.
    split; [constructor|]; reflexivity. }
  destruct (m =? MODE_HIGH) eqn:E3.
  { apply Z.eqb_eq in E3. subst m. cbn in H. inversion H; subst s'.
    split; [constructor|]; reflexivity. }
  pose proof (range_false m E1 E2 E3) as Hrange.
  unfold remembered. rewrite Hrange.
  destruct ((m =? MODE_BLINKING) || (m =? MODE_BLINKING_PREVIEW)) eqn:E4.
  - destruct (setLight fuel (lastOnMode s) s) as [s1|] eqn:Hin;
      [|discriminate].
    apply IH in Hin. destruct Hin as [[] Hl].
    cbn in H. inversion H; subst s'; clear H.
    split; [constructor|]; unfold collapse;
      destruct (m =? MODE_BLINKING_PREVIEW); cbn; try assumption;
      try reflexivity.
    + unfold millis; cbn. rewrite sl_clock0. reflexivity.
    + unfold millis; cbn. rewrite sl_clock0. reflexivity.
    + rewrite Hl. unfold remembered.
      destruct ((MODE_LOW <=? lastOnMode s) && (lastOnMode s <=? MODE_HIGH));
        reflexivity.
    + rewrite Hl. unfold remembered.
      destruct ((MODE_LOW <=? lastOnMode s) && (lastOnMode s <=? MODE_HIGH));
        reflexivity.
  - cbn in H. inversion H; subst s'; clear H.
    split; [constructor|]; unfold collapse;
      destruct (m =? MODE_BLINKING_PREVIEW); reflexivity.
Qed.

(** Outside the blinking case one level of [setLight] returns. *)
Lemma jrt_setLight_returns_direct (fuel : nat) (m : Z) (s : State) :
  m <> MODE_BLINKING -> m <> MODE_BLINKING_PREVIEW ->
  exists s', setLight (S fuel) m s = Some s'.
Proof.
  intros H4 H5. cbn [setLight].
  destruct (m =? MODE_OFF); [eexists; reflexivity|].
  destruct (m =? MODE_LOW); [eexists; reflexivity|].
  destruct (m =? MODE_MED); [eexists; reflexivity|].
  destruct (m =? MODE_HIGH); [eexists; reflexivity|].
  apply Z.eqb_neq in H4, H5. rewrite H4, H5. eexists; reflexivity.
Qed.

(** With [lastOnMode] in range two levels are enough for every mode. *)
Lemma jrt_setLight_returns (fuel : nat) (m : Z) (s : State) :
  valid_lastOn (lastOnMode s) ->
  exists s', setLight (S (S fuel)) m s = Some s'.
Proof.
  intros Hv.
  destruct (Z.eq_dec m MODE_BLINKING) as [E4|E4];
    [|destruct (Z.eq_dec m MODE_BLINKING_PREVIEW) as [E5|E5]].
  3: apply jrt_setLight_returns_direct; assumption.
  all: subst m;
    destruct (jrt_setLight_returns_direct fuel (lastOnMode s) s) as [s1 H1];
    [ unfold valid_lastOn, MODE_LOW, MODE_HIGH, MODE_BLINKING in *; lia
    | unfold valid_lastOn, MODE_LOW, MODE_HIGH, MODE_BLINKING_PREVIEW in *; lia
    | ];
    change (setLight (S (S fuel)) ?m s)
      with (s1 <- (s0 <- setLight (S fuel) (lastOnMode s) s ;;
                   Some (set_poweringOffTime 0 s0)) ;;
            Some (resetAccelTimeout
                    (if mode (set_mode m s1) =? MODE_BLINKING_PREVIEW
                     then set_mode MODE_BLINKING (set_mode m s1)
                     else set_mode m s1)));
    rewrite H1; eexists; reflexivity.
Qed.

(** A blinking [setLight] whose nested call cannot return (the stored
    brightness is itself a blinking mode) does not return either. *)
Lemma jrt_setLight_blinking_diverges (fuel : nat) (s : State) :
  lastOnMode s = MODE_BLINKING -> setLight fuel MODE_BLINKING s = None.
Proof.
  revert s. induction fuel as [|fuel IH]; intros s H; [reflexivity|].
  cbn [setLight]. cbn. rewrite H. rewrite (IH s H). reflexivity.
Qed.

Lemma jrt_doModeTransition_same (fuel : nat) (time : Z) (s : State) :
  doModeTransition fuel time (mode s) s = Some s.
Proof. unfold doModeTransition. rewrite Z.eqb_refl. reflexivity. Qed.

Lemma jrt_doModeTransition_change (fuel : nat) (time newMode : Z) (s : State) :
  newMode <> mode s -> 0 <= newMode <= 5 ->
  doModeTransition fuel time newMode s
  = setLight fuel newMode (set_lastModeTime time s).
Proof.
  intros Hne Hr. unfold doModeTransition.
  apply Z.eqb_neq in Hne. rewrite Hne. cbn [negb].
  assert (newMode = 0 \/ newMode = 1 \/ newMode = 2 \/ newMode = 3
          \/ newMode = 4 \/ newMode = 5) as Hc by lia.
  destruct Hc as [E|[E|[E|[E|[E|E]]]]]; subst newMode; try reflexivity.
  (* MODE_BLINKING_PREVIEW goes through [setLightBlinking] *)
  cbn. unfold setLightBlinking.
  destruct fuel as [|fuel]; reflexivity.
Qed.

(** The transition table only ever touches [lastModeTime]. *)
Lemma jrt_checkModeChange_frame (time : Z) (nb : bool) (s : State) :
  let s1 := snd (checkModeChange time nb s) in
  mode s1 = mode s /\ lastOnMode s1 = lastOnMode s
  /\ btnDown s1 = btnDown s /\ btnTime s1 = btnTime s
  /\ clock s1 = clock s /\ noAccelShutoffTime s1 = noAccelShutoffTime s
  /\ eeprom s1 = eeprom s /\ eeprom_writes s1 = eeprom_writes s.
Proof.
  unfold checkModeChange.
  repeat match goal with
         | |- context [if ?b then _ else _] => destruct b
         end; cbn; repeat split; reflexivity.
Qed.

(** [buttonStep] when the table asks for a mode in 0..5 other than the
    current one. *)
Lemma jrt_buttonStep_change (fuel : nat) (time : Z) (nb : bool)
      (s s1 : State) (newMode : Z) :
  checkModeChange time nb s = (newMode, s1) ->
  newMode <> mode s -> 0 <= newMode <= 5 ->
  (newMode = MODE_BLINKING \/ newMode = MODE_BLINKING_PREVIEW ->
   valid_lastOn (lastOnMode s)) ->
  exists s2,
    setLight (S (S fuel)) newMode (set_lastModeTime time s1) = Some s2
    /\ buttonStep (S (S fuel)) time nb s = Some (rememberButton time nb s2).
Proof.
  intros Hc Hne Hr Hv.
  pose proof (jrt_checkModeChange_frame time nb s) as Hf.
  rewrite Hc in Hf. cbn in Hf. destruct Hf as (Hm & Hl & _).
  assert (exists s2, setLight (S (S fuel)) newMode (set_lastModeTime time s1)
                     = Some s2) as [s2 H2].
  { destruct (Z.eq_dec newMode MODE_BLINKING) as [E4|E4];
      [|destruct (Z.eq_dec newMode MODE_BLINKING_PREVIEW) as [E5|E5]].
    3: apply jrt_setLight_returns_direct; assumption.
    all: apply jrt_setLight_returns; cbn; rewrite Hl; apply Hv; auto. }
  exists s2. split; [exact H2|].
  unfold buttonStep. rewrite Hc.
  rewrite jrt_doModeTransition_change by (rewrite ?Hm; assumption).
  rewrite H2. reflexivity.
Qed.

(** [buttonStep] when the table keeps the current mode. *)
Lemma jrt_buttonStep_stay (fuel : nat) (time : Z) (nb : bool) (s : State) :
  checkModeChange time nb s = (mode s, s) ->
  buttonStep fuel time nb s = Some (rememberButton time nb s).
Proof.
  intros Hc. unfold buttonStep. rewrite Hc.
  rewrite jrt_doModeTransition_same. reflexivity.
Qed.

Ltac table Hm Hb :=
  unfold checkModeChange; rewrite Hm, Hb; cbn;
  rewrite ?gtb_true by assumption; rewrite ?gtb_false by assumption; cbn.

Lemma jrt_table_off_restore (time : Z) (s : State) :
  mode s = MODE_OFF -> btnDown s = true ->
  elapsed time (btnTime s) > 20 ->
  lastModeTime s = 0 \/ elapsed time (lastModeTime s) > 1000 ->
  checkModeChange time false s = (lastOnMode s, set_lastModeTime time s).
Proof.
  intros Hm Hb Hh [Hz|Hd]; table Hm Hb.
  - rewrite Hz. reflexivity.
  - rewrite orb_true_r. reflexivity.
Qed.

Lemma jrt_table_off_double (time : Z) (s : State) :
  mode s = MODE_OFF -> btnDown s = true ->
  elapsed time (btnTime s) > 20 ->
  lastModeTime s <> 0 -> elapsed time (lastModeTime s) <= 1000 ->
  checkModeChange time false s = (MODE_LOW, s).
Proof.
  intros Hm Hb Hh Hz Hd; table Hm Hb.
  apply Z.eqb_neq in Hz. rewrite Hz. reflexivity.
Qed.

Lemma jrt_table_off_bounce (time : Z) (s : State) :
  mode s = MODE_OFF -> btnDown s = true ->
  elapsed time (btnTime s) <= 20 ->
  checkModeChange time false s = (mode s, s).
Proof. intros Hm Hb Hh; table Hm Hb. reflexivity. Qed.

Lemma jrt_table_off_hold (time : Z) (s : State) :
  mode s = MODE_OFF -> btnDown s = true ->
  elapsed time (btnTime s) > 500 ->
  checkModeChange time true s = (MODE_BLINKING_PREVIEW, s).
Proof. intros Hm Hb Hh; table Hm Hb. reflexivity. Qed.

Lemma jrt_table_low (time : Z) (s : State) :
  mode s = MODE_LOW -> btnDown s = true ->
  elapsed time (btnTime s) > 50 ->
  checkModeChange time false s
  = (if elapsed time (lastModeTime s) >? buttonTimeoutToOffMilliseconds
     then MODE_OFF else MODE_MED, s).
Proof.
  intros Hm Hb Hh; table Hm Hb.
  destruct (_ >? _); reflexivity.
Qed.

Lemma jrt_table_med (time : Z) (s : State) :
  mode s = MODE_MED -> btnDown s = true ->
  elapsed time (btnTime s) > 50 ->
  checkModeChange time false s
  = (if elapsed time (lastModeTime s) >? buttonTimeoutToOffMilliseconds
     then MODE_OFF else MODE_HIGH, s).
Proof.
  intros Hm Hb Hh; table Hm Hb.
  destruct (_ >? _); reflexivity.
Qed.

Lemma jrt_table_high (time : Z) (s : State) :
  mode s = MODE_HIGH -> btnDown s = true ->
  elapsed time (btnTime s) > 50 ->
  checkModeChange time false s = (MODE_OFF, s).
Proof. intros Hm Hb Hh; table Hm Hb. reflexivity. Qed.

Lemma jrt_table_blinking (time : Z) (s : State) :
  mode s = MODE_BLINKING -> btnDown s = true ->
  elapsed time (btnTime s) > 50 ->
  checkModeChange time false s
  = (if elapsed time (lastModeTime s) >? 2000 then MODE_OFF else mode s, s).
Proof.
  intros Hm Hb Hh; table Hm Hb.
  destruct (_ >? _); rewrite ?Hm; reflexivity.
Qed.

(** The mode [buttonStep] ends in, given what the table chose. *)
Lemma jrt_buttonStep_mode (fuel : nat) (time : Z) (nb : bool)
      (s s1 : State) (newMode : Z) :
  checkModeChange time nb s = (newMode, s1) ->
  newMode <> mode s -> 0 <= newMode <= 5 ->
  (newMode = MODE_BLINKING \/ newMode = MODE_BLINKING_PREVIEW ->
   valid_lastOn (lastOnMode s)) ->
  exists s', buttonStep (S (S fuel)) time nb s = Some s'
             /\ mode s' = collapse newMode
             /\ lastModeTime s' = time
             /\ noAccelShutoffTime s'
                = to_ulong (clock s + noAccelShutoffMilliseconds).
Proof.
  intros Hc Hne Hr Hv.
  destruct (jrt_buttonStep_change fuel time nb s s1 newMode Hc Hne Hr Hv)
    as (s2 & H2 & Hstep).
  apply jrt_setLight_spec in H2. destruct H2 as [[] _].
  pose proof (jrt_checkModeChange_frame time nb s) as Hf.
  rewrite Hc in Hf. cbn in Hf. destruct Hf as (_ & _ & _ & _ & Hck & _).
  destruct (rememberButton_frame time nb s2) as (Rm & _ & Rt & Rd & _).
  exists (rememberButton time nb s2). repeat split.
  - exact Hstep.
  - rewrite Rm. exact sl_mode0.
  - rewrite Rt, sl_lastModeTime0. reflexivity.
  - rewrite Rd, sl_deadline0. cbn. rewrite Hck. reflexivity.
Qed.

End JrtFacts.
(** * Facts about the [setLight] revision without EEPROM *)

Module Part000Facts.
Import Common Part000.

Lemma p0_setLight_spec (fuel : nat) :
  forall lightMode s s',
    setLight fuel lightMode s = Some s' ->
    setLight_post lightMode s s' /\ lastOnMode s' = lastOnMode s.
Proof.
  induction fuel as [|fuel IH]; intros m s s' H; [discriminate|].
  cbn [setLight] in H.
  destruct (m =? MODE_OFF) eqn:E0.
  { cbn in H. inversion H; subst s'. apply Z.eqb_eq in E0. subst m.
    split; [constructor|]; reflexivity. }
  destruct (m =? MODE_LOW) eqn:E1.
  { cbn in H. inversion H; subst s'. apply Z.eqb_eq in E1. subst m.
    split; [constructor|]; reflexivity. }
  destruct (m =? MODE_MED) eqn:E2.
  { cbn in H. inversion H; subst s'. apply Z.eqb_eq in E2. subst m.
    split; [constructor|]; reflexivity. }
  destruct (m =? MODE_HIGH) eqn:E3.
  { cbn in H. inversion H; subst s'. apply Z.eqb_eq in E3. subst m.
    split; [constructor|]; reflexivity. }
  destruct ((m =? MODE_BLINKING) || (m =? MODE_BLINKING_PREVIEW)) eqn:E4.
  - destruct (setLight fuel (lastOnMode s) s) as [s1|] eqn:Hin;
      [|discriminate].
    apply IH in Hin. destruct Hin as [[] Hl].
    cbn in H. inversion H; subst s'; clear H.
    split; [constructor|]; unfold collapse;
      destruct (m =? MODE_BLINKING_PREVIEW); cbn; try assumption;
      try reflexivity.
    + unfold millis; cbn. rewrite sl_clock0. reflexivity.
    + unfold millis; cbn. rewrite sl_clock0. reflexivity.
  - cbn in H. inversion H; subst s'; clear H.
    split; [constructor|]; unfold collapse;
      destruct (m =? MODE_BLINKING_PREVIEW); reflexivity.
Qed.

Lemma p0_setLight_returns_direct (fuel : nat) (m : Z) (s : State) :
  m <> MODE_BLINKING -> m <> MODE_BLINKING_PREVIEW ->
  exists s', setLight (S fuel) m s = Some s'.
Proof.
  intros H4 H5. cbn [setLight].
  destruct (m =? MODE_OFF); [eexists; reflexivity|].
  destruct (m =? MODE_LOW); [eexists; reflexivity|].
  destruct (m =? MODE_MED); [eexists; reflexivity|].
  destruct (m =? MODE_HIGH); [eexists; reflexivity|].
  apply Z.eqb_neq in H4, H5. rewrite H4, H5. eexists; reflexivity.
Qed.

Lemma p0_setLight_returns (fuel : nat) (m : Z) (s : State) :
  valid_lastOn (lastOnMode s) ->
  exists s', setLight (S (S fuel)) m s = Some s'.
Proof.
  intros Hv.
  destruct (Z.eq_dec m MODE_BLINKING) as [E4|E4];
    [|destruct (Z.eq_dec m MODE_BLINKING_PREVIEW) as [E5|E5]].
  3: apply p0_setLight_returns_direct; assumption.
  all: subst m;
    destruct (p0_setLight_returns_direct fuel (lastOnMode s) s) as [s1 H1];
    [ unfold valid_lastOn, MODE_LOW, MODE_HIGH, MODE_BLINKING in *; lia
    | unfold valid_lastOn, MODE_LOW, MODE_HIGH, MODE_BLINKING_PREVIEW in *; lia
    | ];
    change (setLight (S (S fuel)) ?m s)
      with (s1 <- setLight (S fuel) (lastOnMode s) s ;;
            Some (resetAccelTimeout
                    (if mode (set_mode m s1) =? MODE_BLINKING_PREVIEW
                     then set_mode MODE_BLINKING (set_mode m s1)
                     else set_mode m s1)));
    rewrite H1; eexists; reflexivity.
Qed.

Lemma bind_same_lastOn (o : option State) :
  o = (s' <- o ;; Some (set_lastOnMode (lastOnMode s') s')).
Proof. destruct o as [[]|]; reflexivity. Qed.

Lemma p0_doModeTransition_same (fuel : nat) (time : Z) (s : State) :
  doModeTransition fuel time (mode s) s = Some s.
Proof. unfold doModeTransition. rewrite Z.eqb_refl. reflexivity. Qed.

(** After the transition block: the effect of [setLight], then
    [lastOnMode = newMode] in the three brightness cases. *)
Lemma p0_doModeTransition_change (fuel : nat) (time newMode : Z) (s : State) :
  newMode <> mode s -> 0 <= newMode <= 5 ->
  doModeTransition fuel time newMode s
  = (s' <- setLight fuel newMode (set_lastModeTime time s) ;;
     Some (set_lastOnMode (remembered newMode (lastOnMode s')) s')).
Proof.
  intros Hne Hr. unfold doModeTransition.
  apply Z.eqb_neq in Hne. rewrite Hne. cbn [negb].
  assert (newMode = 0 \/ newMode = 1 \/ newMode = 2 \/ newMode = 3
          \/ newMode = 4 \/ newMode = 5) as Hc by lia.
  destruct Hc as [E|[E|[E|[E|[E|E]]]]]; subst newMode; cbn;
    unfold setLightOff, setLightLow, setLightMed, setLightHigh,
      setLightBlinking, remembered; cbn.
  - apply bind_same_lastOn.
  - reflexivity.
  - reflexivity.
  - reflexivity.
  - apply bind_same_lastOn.
  - destruct fuel as [|fuel]; [reflexivity|].
    apply (bind_same_lastOn (setLight (S fuel) MODE_BLINKING_PREVIEW
                               (set_lastModeTime time s))).
Qed.

Lemma p0_checkModeChange_frame (time : Z) (nb : bool) (s : State) :
  let s1 := snd (checkModeChange time nb s) in
  mode s1 = mode s /\ lastOnMode s1 = lastOnMode s
  /\ btnDown s1 = btnDown s /\ btnTime s1 = btnTime s
  /\ clock s1 = clock s /\ noAccelShutoffTime s1 = noAccelShutoffTime s
  /\ eeprom s1 = eeprom s /\ eeprom_writes s1 = eeprom_writes s.
Proof.
  unfold checkModeChange.
  repeat match goal with
         | |- context [if ?b then _ else _] => destruct b
         end; cbn; repeat split; reflexivity.
Qed.

Lemma p0_buttonStep_mode (fuel : nat) (time : Z) (nb : bool)
      (s s1 : State) (newMode : Z) :
  checkModeChange time nb s = (newMode, s1) ->
  newMode <> mode s -> 0 <= newMode <= 5 ->
  (newMode = MODE_BLINKING \/ newMode = MODE_BLINKING_PREVIEW ->
   valid_lastOn (lastOnMode s)) ->
  exists s', buttonStep (S (S fuel)) time nb s = Some s'
             /\ mode s' = collapse newMode
             /\ lastOnMode s' = remembered newMode (lastOnMode s)
             /\ lastModeTime s' = time.
Proof.
  intros Hc Hne Hr Hv.
  pose proof (p0_checkModeChange_frame time nb s) as Hf.
  rewrite Hc in Hf. cbn in Hf. destruct Hf as (Hm & Hl & _).
  assert (exists s2, setLight (S (S fuel)) newMode (set_lastModeTime time s1)
                     = Some s2) as [s2 H2].
  { destruct (Z.eq_dec newMode MODE_BLINKING) as [E4|E4];
      [|destruct (Z.eq_dec newMode MODE_BLINKING_PREVIEW) as [E5|E5]].
    3: apply p0_setLight_returns_direct; assumption.
    all: apply p0_setLight_returns; cbn; rewrite Hl; apply Hv; auto. }
  pose proof (p0_setLight_spec _ _ _ _ H2) as [[] Hl2].
  cbn in Hl2.
  set (s3 := set_lastOnMode (remembered newMode (lastOnMode s2)) s2).
  destruct (rememberButton_frame time nb s3) as (Rm & Rl & Rt & _).
  exists (rememberButton time nb s3). repeat split.
  - unfold buttonStep. rewrite Hc.
    rewrite p0_doModeTransition_change by (rewrite ?Hm; assumption).
    rewrite H2. reflexivity.
  - rewrite Rm. exact sl_mode0.
  - rewrite Rl. cbn. rewrite Hl2, Hl. reflexivity.
  - rewrite Rt. exact sl_lastModeTime0.
Qed.

Lemma p0_buttonStep_stay (fuel : nat) (time : Z) (nb : bool) (s : State) :
  checkModeChange time nb s = (mode s, s) ->
  buttonStep fuel time nb s = Some (rememberButton time nb s).
Proof.
  intros Hc. unfold buttonStep. rewrite Hc.
  rewrite p0_doModeTransition_same. reflexivity.
Qed.

Ltac table Hm Hb :=
  unfold checkModeChange; rewrite Hm, Hb; cbn;
  rewrite ?gtb_true by assumption; rewrite ?gtb_false by assumption; cbn.

Lemma p0_table_off_restore (time : Z) (s : State) :
  mode s = MODE_OFF -> btnDown s = true ->
  elapsed time (btnTime s) > 20 ->
  elapsed time (lastModeTime s) > 1000 ->
  checkModeChange time false s = (lastOnMode s, set_lastModeTime time s).
Proof. intros Hm Hb Hh Hd; table Hm Hb. reflexivity. Qed.

Lemma p0_table_off_double (time : Z) (s : State) :
  mode s = MODE_OFF -> btnDown s = true ->
  elapsed time (btnTime s) > 20 ->
  elapsed time (lastModeTime s) <= 1000 ->
  checkModeChange time false s = (MODE_LOW, s).
Proof. intros Hm Hb Hh Hd; table Hm Hb. reflexivity. Qed.

Lemma p0_table_off_hold (time : Z) (s : State) :
  mode s = MODE_OFF -> btnDown s = true ->
  elapsed time (btnTime s) > 500 ->
  checkModeChange time true s = (MODE_BLINKING_PREVIEW, s).
Proof. intros Hm Hb Hh; table Hm Hb. reflexivity. Qed.

Lemma p0_table_low (time : Z) (s : State) :
  mode s = MODE_LOW -> btnDown s = true ->
  elapsed time (btnTime s) > 50 ->
  checkModeChange time false s
  = (if elapsed time (lastModeTime s) >? buttonTimeoutToOffMilliseconds
     then MODE_OFF else MODE_MED, s).
Proof.
  intros Hm Hb Hh; table Hm Hb.
  destruct (_ >? _); reflexivity.
Qed.

Lemma p0_table_med (time : Z) (s : State) :
  mode s = MODE_MED -> btnDown s = true ->
  elapsed time (btnTime s) > 50 ->
  checkModeChange time false s
  = (if elapsed time (lastModeTime s) >? buttonTimeoutToOffMilliseconds
     then MODE_OFF else MODE_HIGH, s).
Proof.
  intros Hm Hb Hh; table Hm Hb.
  destruct (_ >? _); reflexivity.
Qed.

Lemma p0_table_high (time : Z) (s : State) :
  mode s = MODE_HIGH -> btnDown s = true ->
  elapsed time (btnTime s) > 50 ->
  checkModeChange time false s = (MODE_OFF, s).
Proof. intros Hm Hb Hh; table Hm Hb. reflexivity. Qed.

Lemma p0_table_blinking (time : Z) (s : State) :
  mode s = MODE_BLINKING -> btnDown s = true ->
  elapsed time (btnTime s) > 50 ->
  checkModeChange time false s
  = (if elapsed time (lastModeTime s) >? 3000 then MODE_OFF else mode s, s).
Proof.
  intros Hm Hb Hh; table Hm Hb.
  destruct (_ >? _); rewrite ?Hm; reflexivity.
Qed.

End Part000Facts.
(** * Facts about the oldest revision *)

Module Part001Facts.
Import Common Part001.

Lemma p1_doModeTransition_mode (time newMode : Z) (s : State) :
  mode (doModeTransition time newMode s) = newMode.
Proof.
  unfold doModeTransition.
  destruct (newMode =? mode s) eqn:E; cbn.
  - apply Z.eqb_eq in E. symmetry. exact E.
  - reflexivity.
Qed.

Lemma p1_buttonStep_mode (time : Z) (nb : bool) (s : State) :
  mode (buttonStep time nb s) = fst (checkModeChange time nb s).
Proof.
  unfold buttonStep. destruct (checkModeChange time nb s) as [newMode s1].
  destruct (rememberButton_frame time nb (doModeTransition time newMode s1))
    as (Rm & _).
  rewrite Rm. apply p1_doModeTransition_mode.
Qed.

Lemma p1_off_double (time : Z) (s : State) :
  mode s = MODE_OFF -> btnDown s = true ->
  elapsed time (btnTime s) > 20 ->
  elapsed time (lastModeTime s) <= 2500 ->
  mode (buttonStep time false s) = MODE_MED.
Proof.
  intros Hm Hb Hh Hd. rewrite p1_buttonStep_mode.
  unfold checkModeChange; rewrite Hm, Hb; cbn.
  rewrite gtb_true, gtb_false by assumption. reflexivity.
Qed.

Lemma p1_off_hold (time : Z) (s : State) :
  mode s = MODE_OFF -> btnDown s = true ->
  elapsed time (btnTime s) > 500 ->
  mode (buttonStep time true s) = MODE_BLINKING_PREVIEW.
Proof.
  intros Hm Hb Hh. rewrite p1_buttonStep_mode.
  unfold checkModeChange; rewrite Hm, Hb; cbn.
  rewrite gtb_true by assumption. reflexivity.
Qed.

Lemma p1_preview_release (time : Z) (s : State) :
  mode s = MODE_BLINKING_PREVIEW -> btnDown s = true ->
  mode (buttonStep time false s) = MODE_BLINKING.
Proof.
  intros Hm Hb. rewrite p1_buttonStep_mode.
  unfold checkModeChange; rewrite Hm, Hb; reflexivity.
Qed.

Lemma p1_blinking_release (time : Z) (s : State) :
  mode s = MODE_BLINKING -> btnDown s = true ->
  elapsed time (btnTime s) > 50 ->
  mode (buttonStep time false s) = MODE_OFF.
Proof.
  intros Hm Hb Hh. rewrite p1_buttonStep_mode.
  unfold checkModeChange; rewrite Hm, Hb; cbn.
  rewrite gtb_true by assumption. reflexivity.
Qed.

End Part001Facts.
(** * Brightness cycle *)

Module CycleFacts.
Import Common.

Lemma valid_not_off (m : Z) : valid_lastOn m -> m <> MODE_OFF.
Proof. unfold valid_lastOn, MODE_LOW, MODE_OFF. lia. Qed.

Lemma valid_range (m : Z) : valid_lastOn m -> 0 <= m <= 5.
Proof. unfold valid_lastOn, MODE_LOW, MODE_HIGH. lia. Qed.

Lemma valid_collapse (m : Z) : valid_lastOn m -> collapse m = m.
Proof.
  unfold valid_lastOn, MODE_LOW, MODE_HIGH, collapse. intros H.
  destruct (m =? MODE_BLINKING_PREVIEW) eqn:E; [|reflexivity].
  apply Z.eqb_eq in E. unfold MODE_BLINKING_PREVIEW in E. lia.
Qed.

Lemma valid_not_blinking (m : Z) :
  valid_lastOn m -> ~ (m = MODE_BLINKING \/ m = MODE_BLINKING_PREVIEW).
Proof.
  unfold valid_lastOn, MODE_LOW, MODE_HIGH, MODE_BLINKING,
    MODE_BLINKING_PREVIEW. lia.
Qed.

(** The five rows of the cycle for hexbright_jrt.ino. *)
Lemma jrt_cycle_off (fuel : nat) (time : Z) (s : State) :
  mode s = MODE_OFF -> btnDown s = true -> valid_lastOn (lastOnMode s) ->
  elapsed time (btnTime s) > 20 -> elapsed time (lastModeTime s) > 1000 ->
  exists s', Jrt.buttonStep (S (S fuel)) time false s = Some s'
             /\ mode s' = lastOnMode s.
Proof.
  intros Hm Hb Hv Hh Hd.
  destruct (JrtFacts.jrt_buttonStep_mode fuel time false s
              (set_lastModeTime time s) (lastOnMode s))
    as (s' & Hs & Hmode & _).
  - apply JrtFacts.jrt_table_off_restore; auto.
  - rewrite Hm. apply valid_not_off, Hv.
  - apply valid_range, Hv.
  - intros Hbl. exact Hv.
  - exists s'. split; [exact Hs|]. rewrite Hmode. apply valid_collapse, Hv.
Qed.

Lemma jrt_cycle_to (fuel : nat) (time : Z) (s : State) (newMode : Z) :
  Jrt.checkModeChange time false s = (newMode, s) ->
  newMode <> mode s -> 0 <= newMode <= 3 ->
  exists s', Jrt.buttonStep (S (S fuel)) time false s = Some s'
             /\ mode s' = newMode.
Proof.
  intros Hc Hne Hr.
  destruct (JrtFacts.jrt_buttonStep_mode fuel time false s s newMode)
    as (s' & Hs & Hmode & _); auto.
  - lia.
  - unfold MODE_BLINKING, MODE_BLINKING_PREVIEW. lia.
  - exists s'. split; [exact Hs|]. rewrite Hmode. unfold collapse.
    destruct (newMode =? MODE_BLINKING_PREVIEW) eqn:E; [|reflexivity].
    apply Z.eqb_eq in E. unfold MODE_BLINKING_PREVIEW in E. lia.
Qed.

Lemma jrt_cycle_low (fuel : nat) (time : Z) (s : State) :
  mode s = MODE_LOW -> btnDown s = true ->
  elapsed time (btnTime s) > 50 ->
  exists s', Jrt.buttonStep (S (S fuel)) time false s = Some s'
             /\ mode s' =
                if elapsed time (lastModeTime s) >? buttonTimeoutToOffMilliseconds
                then MODE_OFF else MODE_MED.
Proof.
  intros Hm Hb Hh. apply jrt_cycle_to.
  - apply JrtFacts.jrt_table_low; assumption.
  - rewrite Hm. destruct (_ >? _); discriminate.
  - destruct (_ >? _); unfold MODE_OFF, MODE_MED; lia.
Qed.

Lemma jrt_cycle_med (fuel : nat) (time : Z) (s : State) :
  mode s = MODE_MED -> btnDown s = true ->
  elapsed time (btnTime s) > 50 ->
  exists s', Jrt.buttonStep (S (S fuel)) time false s = Some s'
             /\ mode s' =
                if elapsed time (lastModeTime s) >? buttonTimeoutToOffMilliseconds
                then MODE_OFF else MODE_HIGH.
Proof.
  intros Hm Hb Hh. apply jrt_cycle_to.
  - apply JrtFacts.jrt_table_med; assumption.
  - rewrite Hm. destruct (_ >? _); discriminate.
  - destruct (_ >? _); unfold MODE_OFF, MODE_HIGH; lia.
Qed.

Lemma jrt_cycle_high (fuel : nat) (time : Z) (s : State) :
  mode s = MODE_HIGH -> btnDown s = true ->
  elapsed time (btnTime s) > 50 ->
  exists s', Jrt.buttonStep (S (S fuel)) time false s = Some s'
             /\ mode s' = MODE_OFF.
Proof.
  intros Hm Hb Hh. apply jrt_cycle_to.
  - apply JrtFacts.jrt_table_high; assumption.
  - rewrite Hm. discriminate.
  - unfold MODE_OFF; lia.
Qed.

(** The same rows for the revision without EEPROM. *)
Lemma p0_cycle_off (fuel : nat) (time : Z) (s : State) :
  mode s = MODE_OFF -> btnDown s = true -> valid_lastOn (lastOnMode s) ->
  elapsed time (btnTime s) > 20 -> elapsed time (lastModeTime s) > 1000 ->
  exists s', Part000.buttonStep (S (S fuel)) time false s = Some s'
             /\ mode s' = lastOnMode s.
Proof.
  intros Hm Hb Hv Hh Hd.
  destruct (Part000Facts.p0_buttonStep_mode fuel time false s
              (set_lastModeTime time s) (lastOnMode s))
    as (s' & Hs & Hmode & _).
  - apply Part000Facts.p0_table_off_restore; auto.
  - rewrite Hm. apply valid_not_off, Hv.
  - apply valid_range, Hv.
  - intros Hbl. exact Hv.
  - exists s'. split; [exact Hs|]. rewrite Hmode. apply valid_collapse, Hv.
Qed.

Lemma p0_cycle_to (fuel : nat) (time : Z) (s : State) (newMode : Z) :
  Part000.checkModeChange time false s = (newMode, s) ->
  newMode <> mode s -> 0 <= newMode <= 3 ->
  exists s', Part000.buttonStep (S (S fuel)) time false s = Some s'
             /\ mode s' = newMode.
Proof.
  intros Hc Hne Hr.
  destruct (Part000Facts.p0_buttonStep_mode fuel time false s s newMode)
    as (s' & Hs & Hmode & _); auto.
  - lia.
  - unfold MODE_BLINKING, MODE_BLINKING_PREVIEW. lia.
  - exists s'. split; [exact Hs|]. rewrite Hmode. unfold collapse.
    destruct (newMode =? MODE_BLINKING_PREVIEW) eqn:E; [|reflexivity].
    apply Z.eqb_eq in E. unfold MODE_BLINKING_PREVIEW in E. lia.
Qed.

Lemma p0_cycle_low (fuel : nat) (time : Z) (s : State) :
  mode s = MODE_LOW -> btnDown s = true ->
  elapsed time (btnTime s) > 50 ->
  exists s', Part000.buttonStep (S (S fuel)) time false s = Some s'
             /\ mode s' =
                if elapsed time (lastModeTime s) >? buttonTimeoutToOffMilliseconds
                then MODE_OFF else MODE_MED.
Proof.
  intros Hm Hb Hh. apply p0_cycle_to.
  - apply Part000Facts.p0_table_low; assumption.
  - rewrite Hm. destruct (_ >? _); discriminate.
  - destruct (_ >? _); unfold MODE_OFF, MODE_MED; lia.
Qed.

Lemma p0_cycle_med (fuel : nat) (time : Z) (s : State) :
  mode s = MODE_MED -> btnDown s = true ->
  elapsed time (btnTime s) > 50 ->
  exists s', Part000.buttonStep (S (S fuel)) time false s = Some s'
             /\ mode s' =
                if elapsed time (lastModeTime s) >? buttonTimeoutToOffMilliseconds
                then MODE_OFF else MODE_HIGH.
Proof.
  intros Hm Hb Hh. apply p0_cycle_to.
  - apply Part000Facts.p0_table_med; assumption.
  - rewrite Hm. destruct (_ >? _); discriminate.
  - destruct (_ >? _); unfold MODE_OFF, MODE_HIGH; lia.
Qed.

Lemma p0_cycle_high (fuel : nat) (time : Z) (s : State) :
  mode s = MODE_HIGH -> btnDown s = true ->
  elapsed time (btnTime s) > 50 ->
  exists s', Part000.buttonStep (S (S fuel)) time false s = Some s'
             /\ mode s' = MODE_OFF.
Proof.
  intros Hm Hb Hh. apply p0_cycle_to.
  - apply Part000Facts.p0_table_high; assumption.
  - rewrite Hm. discriminate.
  - unfold MODE_OFF; lia.
Qed.

(** ** From the table to a pass of [loop]

    On a pass that runs neither the power-off nor the once-per-second
    checks, [loop] is the button-driven part, run on a state that shows it
    the same mode, stored brightness, button and mode timestamps. *)
Lemma jrt_loop_quiet (fuel : nat) (inp : Inputs) (s : State) :
  Jrt.powerOffDue (millis s) s = false ->
  elapsed (millis s) (oneSecondLoopTime s) < 1000 ->
  Jrt.loop fuel inp s
  = Jrt.buttonStep fuel (millis s) (in_button inp)
      (blinkOutput (millis s) (checkChargeState inp s)).
Proof.
  intros Hd Hg. unfold Jrt.loop. rewrite Hd. unfold Jrt.oneSecondLoop.
  assert (E : (elapsed (millis (checkChargeState inp s))
                 (oneSecondLoopTime (checkChargeState inp s)) <? 1000)
              = true).
  { apply Z.ltb_lt. unfold checkChargeState.
    repeat match goal with
           | |- context [if ?b then _ else _] => destruct b
           end; exact Hg. }
  rewrite E. reflexivity.
Qed.

Lemma button_view_quiet (time : Z) (inp : Inputs) (s : State) :
  let s1 := blinkOutput time (checkChargeState inp s) in
  mode s1 = mode s /\ lastOnMode s1 = lastOnMode s
  /\ btnDown s1 = btnDown s /\ btnTime s1 = btnTime s
  /\ lastModeTime s1 = lastModeTime s.
Proof.
  unfold blinkOutput, checkChargeState.
  repeat match goal with
         | |- context [if ?b then _ else _] => destruct b
         end; cbn; repeat split; reflexivity.
Qed.

(** The top row of the cycle, as a pass of [loop]. *)
Lemma jrt_loop_cycle_high (fuel : nat) (inp : Inputs) (s : State) :
  Jrt.powerOffDue (millis s) s = false ->
  elapsed (millis s) (oneSecondLoopTime s) < 1000 ->
  mode s = MODE_HIGH -> btnDown s = true -> in_button inp = false ->
  elapsed (millis s) (btnTime s) > 50 ->
  exists s', Jrt.loop (S (S fuel)) inp s = Some s' /\ mode s' = MODE_OFF.
Proof.
  intros Hd Hg Hm Hb Hi Hh. rewrite jrt_loop_quiet by assumption.
  destruct (button_view_quiet (millis s) inp s) as (Vm & _ & Vb & Vt & _).
  rewrite Hi. apply jrt_cycle_high; congruence.
Qed.

(** The bottom row: a press from Off restores the stored brightness. *)
Lemma jrt_loop_cycle_off (fuel : nat) (inp : Inputs) (s : State) :
  Jrt.powerOffDue (millis s) s = false ->
  elapsed (millis s) (oneSecondLoopTime s) < 1000 ->
  mode s = MODE_OFF -> btnDown s = true -> in_button inp = false ->
  valid_lastOn (lastOnMode s) ->
  elapsed (millis s) (btnTime s) > 20 ->
  elapsed (millis s) (lastModeTime s) > 1000 ->
  exists s', Jrt.loop (S (S fuel)) inp s = Some s'
             /\ mode s' = lastOnMode s.
Proof.
  intros Hd Hg Hm Hb Hi Hv Hh Hw. rewrite jrt_loop_quiet by assumption.
  destruct (button_view_quiet (millis s) inp s) as (Vm & Vl & Vb & Vt & Vw).
  rewrite Hi, <- Vl. apply jrt_cycle_off; congruence.
Qed.

End CycleFacts.

(** C1. Brightness cycle, for the transition table of hexbright_jrt.ino and
    of the revision without EEPROM, on a release edge ([btnDown] tracked,
    button read up).  From Off, held more than 20 ms and more than 1000 ms
    after the last mode change, with [lastOnMode] in Low..High: the mode
    becomes [lastOnMode].  From Low (Medium), held more than 50 ms and at
    most [buttonTimeoutToOffMilliseconds] after the last change: Medium
    (High).  From High, held more than 50 ms: Off.  From Low or Medium,
    held more than 50 ms and more than the off-timeout after the last
    change: Off.  Durations are unsigned 32-bit differences, as in the code. *)
Theorem C1_brightness_cycle :
  forall (fuel : nat) (time : Z) (s : State),
    btnDown s = true ->
    (mode s = MODE_OFF -> valid_lastOn (lastOnMode s) ->
     elapsed time (btnTime s) > 20 -> elapsed time (lastModeTime s) > 1000 ->
     (exists s', Jrt.buttonStep (S (S fuel)) time false s = Some s'
                 /\ mode s' = lastOnMode s)
     /\ (exists s', Part000.buttonStep (S (S fuel)) time false s = Some s'
                    /\ mode s' = lastOnMode s))
    /\ (mode s = MODE_LOW -> elapsed time (btnTime s) > 50 ->
        elapsed time (lastModeTime s) <= Common.buttonTimeoutToOffMilliseconds ->
        (exists s', Jrt.buttonStep (S (S fuel)) time false s = Some s'
                    /\ mode s' = MODE_MED)
        /\ (exists s', Part000.buttonStep (S (S fuel)) time false s = Some s'
                       /\ mode s' = MODE_MED))
    /\ (mode s = MODE_MED -> elapsed time (btnTime s) > 50 ->
        elapsed time (lastModeTime s) <= Common.buttonTimeoutToOffMilliseconds ->
        (exists s', Jrt.buttonStep (S (S fuel)) time false s = Some s'
                    /\ mode s' = MODE_HIGH)
        /\ (exists s', Part000.buttonStep (S (S fuel)) time false s = Some s'
                       /\ mode s' = MODE_HIGH))
    /\ (mode s = MODE_HIGH -> elapsed time (btnTime s) > 50 ->
        (exists s', Jrt.buttonStep (S (S fuel)) time false s = Some s'
                    /\ mode s' = MODE_OFF)
        /\ (exists s', Part000.buttonStep (S (S fuel)) time false s = Some s'
                       /\ mode s' = MODE_OFF))
    /\ (mode s = MODE_LOW \/ mode s = MODE_MED ->
        elapsed time (btnTime s) > 50 ->
        elapsed time (lastModeTime s) > Common.buttonTimeoutToOffMilliseconds ->
        (exists s', Jrt.buttonStep (S (S fuel)) time false s = Some s'
                    /\ mode s' = MODE_OFF)
        /\ (exists s', Part000.buttonStep (S (S fuel)) time false s = Some s'
                       /\ mode s' = MODE_OFF)).
Proof.
  intros fuel time s Hb. repeat split.
  - apply CycleFacts.jrt_cycle_off; assumption.
  - apply CycleFacts.p0_cycle_off; assumption.
  - destruct (CycleFacts.jrt_cycle_low fuel time s) as (s' & Hs & Hm);
      try assumption.
    rewrite gtb_false in Hm by assumption. eauto.
  - destruct (CycleFacts.p0_cycle_low fuel time s) as (s' & Hs & Hm);
      try assumption.
    rewrite gtb_false in Hm by assumption. eauto.
  - destruct (CycleFacts.jrt_cycle_med fuel time s) as (s' & Hs & Hm);
      try assumption.
    rewrite gtb_false in Hm by assumption. eauto.
  - destruct (CycleFacts.p0_cycle_med fuel time s) as (s' & Hs & Hm);
      try assumption.
    rewrite gtb_false in Hm by assumption. eauto.
  - apply CycleFacts.jrt_cycle_high; assumption.
  - apply CycleFacts.p0_cycle_high; assumption.
  - destruct H as [Hl|Hm'].
    + destruct (CycleFacts.jrt_cycle_low fuel time s) as (s' & Hs & Hm);
        try assumption.
      rewrite gtb_true in Hm by assumption. eauto.
    + destruct (CycleFacts.jrt_cycle_med fuel time s) as (s' & Hs & Hm);
        try assumption.
      rewrite gtb_true in Hm by assumption. eauto.
  - destruct H as [Hl|Hm'].
    + destruct (CycleFacts.p0_cycle_low fuel time s) as (s' & Hs & Hm);
        try assumption.
      rewrite gtb_true in Hm by assumption. eauto.
    + destruct (CycleFacts.p0_cycle_med fuel time s) as (s' & Hs & Hm);
        try assumption.
      rewrite gtb_true in Hm by assumption. eauto.
Qed.

(** C1 at concrete states: the five rows, on a light booted with High in
    the EEPROM and its button down. *)
Lemma C1_brightness_cycle_witness :
  (exists s', Jrt.buttonStep 2 1500 false held_off = Some s'
              /\ mode s' = lastOnMode held_off)
  /\ (exists s', Part000.buttonStep 2 1500 false (set_mode MODE_LOW held_off)
                 = Some s' /\ mode s' = MODE_MED)
  /\ (exists s', Jrt.buttonStep 2 1500 false (set_mode MODE_MED held_off)
                 = Some s' /\ mode s' = MODE_HIGH)
  /\ (exists s', Part000.buttonStep 2 1500 false (set_mode MODE_HIGH held_off)
                 = Some s' /\ mode s' = MODE_OFF)
  /\ (exists s', Jrt.buttonStep 2 2500 false (set_mode MODE_LOW held_off)
                 = Some s' /\ mode s' = MODE_OFF).
Proof.
  assert (Hv : valid_lastOn (lastOnMode held_off))
    by (split; discriminate).
  assert (H50 : elapsed 1500 (btnTime held_off) > 50) by reflexivity.
  assert (Hin : elapsed 1500 (lastModeTime held_off)
                <= Common.buttonTimeoutToOffMilliseconds) by discriminate.
  destruct (C1_brightness_cycle 0%nat 1500 held_off eq_refl)
    as (Hoff & _).
  destruct (C1_brightness_cycle 0%nat 1500 (set_mode MODE_LOW held_off)
              eq_refl) as (_ & Hlow & _).
  destruct (C1_brightness_cycle 0%nat 1500 (set_mode MODE_MED held_off)
              eq_refl) as (_ & _ & Hmed & _).
  destruct (C1_brightness_cycle 0%nat 1500 (set_mode MODE_HIGH held_off)
              eq_refl) as (_ & _ & _ & Hhigh & _).
  destruct (C1_brightness_cycle 0%nat 2500 (set_mode MODE_LOW held_off)
              eq_refl) as (_ & _ & _ & _ & Hlong).
  split; [exact (proj1 (Hoff eq_refl Hv eq_refl eq_refl))|].
  split; [exact (proj2 (Hlow eq_refl H50 Hin))|].
  split; [exact (proj1 (Hmed eq_refl H50 Hin))|].
  split; [exact (proj2 (Hhigh eq_refl H50))|].
  exact (proj1 (Hlong (or_introl eq_refl) eq_refl eq_refl)).
Defined.

(** * Invariants *)

Module Frame.
Import Common.

Lemma untouched_keeps (s s' : State) : untouched s s' -> keeps s s'.
Proof.
  intros (Hm & Hl & He & Hw). unfold keeps, well_formed.
  rewrite Hm, Hl. auto.
Qed.

Lemma keeps_refl (s : State) : keeps s s.
Proof. unfold keeps. auto. Qed.

Lemma keeps_trans (s1 s2 s3 : State) : keeps s1 s2 -> keeps s2 s3 -> keeps s1 s3.
Proof.
  intros (A & B & C) (A' & B' & C'). unfold keeps.
  split; [auto|]. split; congruence.
Qed.

Lemma untouched_refl (s : State) : untouched s s.
Proof. unfold untouched. auto. Qed.

Lemma untouched_trans (s1 s2 s3 : State) :
  untouched s1 s2 -> untouched s2 s3 -> untouched s1 s3.
Proof. unfold untouched. intuition congruence. Qed.

Ltac leaf :=
  unfold untouched; repeat split;
  repeat match goal with
         | |- context [if ?b then _ else _] => destruct b
         end; reflexivity.

Lemma untouched_checkChargeState (inp : Inputs) (s : State) :
  untouched s (checkChargeState inp s).
Proof. unfold checkChargeState. leaf. Qed.

Lemma untouched_checkAccel (inp : Inputs) (s : State) :
  untouched s (checkAccel inp s).
Proof. unfold checkAccel. leaf. Qed.

Lemma untouched_blinkOutput (time : Z) (s : State) :
  untouched s (blinkOutput time s).
Proof. unfold blinkOutput. leaf. Qed.

Lemma untouched_rememberButton (time : Z) (nb : bool) (s : State) :
  untouched s (rememberButton time nb s).
Proof. unfold rememberButton. leaf. Qed.

Lemma untouched_tick (dt : Z) (s : State) : untouched s (tick dt s).
Proof. unfold tick. leaf. Qed.

Lemma untouched_delay (ms : Z) (s : State) : untouched s (delay ms s).
Proof. unfold delay. leaf. Qed.

Lemma untouched_pinMode (p : Pin) (d : bool) (s : State) :
  untouched s (pinMode p d s).
Proof. unfold pinMode. leaf. Qed.

Lemma remembered_valid (m l : Z) : valid_lastOn l -> valid_lastOn (remembered m l).
Proof.
  unfold remembered, valid_lastOn. intros H.
  destruct (MODE_LOW <=? m) eqn:A; destruct (m <=? MODE_HIGH) eqn:B; cbn;
    try exact H.
  apply Z.leb_le in A, B. lia.
Qed.

Lemma collapse_range (m : Z) : 0 <= m <= 5 -> 0 <= collapse m <= 4.
Proof.
  unfold collapse, MODE_BLINKING_PREVIEW, MODE_BLINKING. intros H.
  destruct (m =? 5) eqn:E; [lia|]. apply Z.eqb_neq in E. lia.
Qed.

End Frame.

(** ** hexbright_jrt.ino *)

Module JrtInv.
Import Common Jrt Frame.

Lemma jrt_setLight_keeps (fuel : nat) (m : Z) (s s' : State) :
  0 <= m <= 5 -> setLight fuel m s = Some s' -> keeps s s'.
Proof.
  intros Hr H. apply JrtFacts.jrt_setLight_spec in H.
  destruct H as [[] Hl]. unfold keeps, well_formed.
  split; [|split; assumption].
  intros [Hv _]. split.
  - rewrite Hl. apply remembered_valid. exact Hv.
  - rewrite sl_mode0. apply collapse_range. exact Hr.
Qed.

Lemma jrt_overheatBlink_keeps (fuel n : nat) :
  forall s s', overheatBlink fuel n s = Some s' -> keeps s s'.
Proof.
  induction n as [|n IH]; intros s s' H; cbn in H.
  - inversion H. apply keeps_refl.
  - destruct (setLightLow fuel s) as [s1|] eqn:H1; [|discriminate].
    cbn in H.
    destruct (setLightHigh fuel (delay 100 s1)) as [s2|] eqn:H2;
      [|discriminate].
    cbn in H.
    apply jrt_setLight_keeps in H1; [|unfold MODE_LOW; lia].
    apply jrt_setLight_keeps in H2; [|unfold MODE_HIGH; lia].
    apply IH in H.
    eapply keeps_trans; [exact H1|].
    eapply keeps_trans; [apply untouched_keeps, untouched_delay|].
    eapply keeps_trans; [exact H2|].
    eapply keeps_trans; [apply untouched_keeps, untouched_delay|exact H].
Qed.

Lemma jrt_checkTemperature_keeps (fuel : nat) (inp : Inputs) (s s' : State) :
  checkTemperature fuel inp s = Some s' -> keeps s s'.
Proof.
  unfold checkTemperature.
  destruct ((in_temp inp >? OVERTEMP) && negb (mode s =? MODE_OFF)).
  - destruct (overheatBlink fuel 6 s) as [s1|] eqn:H1; [|discriminate].
    cbn. intros H2.
    apply jrt_overheatBlink_keeps in H1.
    apply jrt_setLight_keeps in H2; [|unfold MODE_LOW; lia].
    eapply keeps_trans; eassumption.
  - intros H. inversion H. apply keeps_refl.
Qed.

Lemma jrt_checkNoMotion_keeps (fuel : nat) (time : Z) (s s' : State) :
  checkNoMotion fuel time s = Some s' -> keeps s s'.
Proof.
  unfold checkNoMotion.
  destruct ((time >? noAccelShutoffTime s) && negb (mode s =? MODE_OFF)).
  - apply jrt_setLight_keeps. unfold MODE_OFF. lia.
  - intros H. inversion H. apply keeps_refl.
Qed.

Lemma jrt_oneSecondLoop_keeps (fuel : nat) (inp : Inputs) (s s' : State) :
  oneSecondLoop fuel inp s = Some s' -> keeps s s'.
Proof.
  unfold oneSecondLoop.
  destruct (elapsed (millis s) (oneSecondLoopTime s) <? 1000).
  - intros H. inversion H. apply keeps_refl.
  - destruct (checkTemperature fuel inp _) as [s1|] eqn:H1; [|discriminate].
    cbn. intros H2.
    apply jrt_checkTemperature_keeps in H1.
    apply jrt_checkNoMotion_keeps in H2.
    eapply keeps_trans; [|eapply keeps_trans; [exact H1|]].
    + apply untouched_keeps. unfold untouched. auto.
    + eapply keeps_trans; [|exact H2].
      apply untouched_keeps.
      eapply untouched_trans; [|apply untouched_checkAccel].
      eapply untouched_trans; apply untouched_pinMode.
Qed.

(** The table asks for a mode in 0..5 whenever the invariant holds. *)
Lemma jrt_table_range (time : Z) (nb : bool) (s : State) :
  well_formed s -> 0 <= fst (checkModeChange time nb s) <= 5.
Proof.
  intros ((Hl & Hh) & Hm). unfold MODE_LOW, MODE_HIGH in *.
  unfold checkModeChange.
  repeat match goal with
         | |- context [if ?b then _ else _] => destruct b
         end; cbn;
    unfold MODE_OFF, MODE_LOW, MODE_MED, MODE_HIGH, MODE_BLINKING,
      MODE_BLINKING_PREVIEW; lia.
Qed.

Lemma jrt_buttonStep_keeps (fuel : nat) (time : Z) (nb : bool) (s s' : State) :
  well_formed s -> buttonStep fuel time nb s = Some s' -> keeps s s'.
Proof.
  intros Hwf. pose proof (jrt_table_range time nb s Hwf) as Hr.
  pose proof (JrtFacts.jrt_checkModeChange_frame time nb s) as Hf.
  unfold buttonStep.
  destruct (checkModeChange time nb s) as [newMode s1]. cbn in Hr, Hf.
  destruct Hf as (Fm & Fl & _ & _ & _ & _ & Fe & Fw).
  assert (K1 : keeps s s1) by (apply untouched_keeps; unfold untouched; auto).
  destruct (doModeTransition fuel time newMode s1) as [s2|] eqn:H2;
    [|discriminate].
  cbn. intros H. inversion H; subst s'; clear H.
  eapply keeps_trans; [exact K1|].
  eapply keeps_trans; [|apply untouched_keeps, untouched_rememberButton].
  destruct (Z.eq_dec newMode (mode s1)) as [E|E].
  - subst newMode. rewrite JrtFacts.jrt_doModeTransition_same in H2.
    inversion H2. apply keeps_refl.
  - rewrite JrtFacts.jrt_doModeTransition_change in H2 by assumption.
    apply jrt_setLight_keeps in H2; [|exact Hr].
    eapply keeps_trans; [|exact H2].
    apply untouched_keeps. unfold untouched. auto.
Qed.

(** [powerOff] changes neither the mode nor the stored brightness. *)
Lemma jrt_powerOff_frame (s : State) :
  mode (powerOff s) = mode s /\ lastOnMode (powerOff s) = lastOnMode s.
Proof.
  unfold powerOff.
  destruct (negb (EEPROM_read _ =? lastOnMode _)); split; reflexivity.
Qed.

Lemma jrt_loop_well_formed (fuel : nat) (inp : Inputs) (s s' : State) :
  well_formed s -> loop fuel inp s = Some s' -> well_formed s'.
Proof.
  intros Hwf. unfold loop.
  destruct (powerOffDue (millis s) s).
  - intros H. inversion H. unfold well_formed.
    destruct (jrt_powerOff_frame s) as [Hm Hl]. rewrite Hm, Hl. exact Hwf.
  - destruct (oneSecondLoop fuel inp _) as [s1|] eqn:H1; [|discriminate].
    cbn. intros H2.
    apply jrt_oneSecondLoop_keeps in H1.
    assert (W1 : well_formed s1).
    { apply H1. apply (untouched_keeps _ _ (untouched_checkChargeState inp s)).
      exact Hwf. }
    assert (W2 : well_formed (blinkOutput (millis s) s1)).
    { apply (untouched_keeps _ _ (untouched_blinkOutput (millis s) s1)).
      exact W1. }
    apply (jrt_buttonStep_keeps _ _ _ _ _ W2 H2). exact W2.
Qed.

Lemma jrt_boot_well_formed (rom t0 : Z) (inp : Inputs) :
  well_formed (boot rom t0 inp).
Proof.
  unfold boot, setup, well_formed, valid_lastOn. cbn.
  destruct ((to_byte rom <? MODE_LOW) || (to_byte rom >? MODE_HIGH)) eqn:E;
    cbn.
  - unfold MODE_LOW, MODE_MED, MODE_HIGH, MODE_OFF. lia.
  - apply orb_false_iff in E. destruct E as [A B].
    apply Z.ltb_ge in A. apply gtb_false_inv in B.
    unfold MODE_OFF. lia.
Qed.

Lemma jrt_reachable_well_formed (s : State) : reachable s -> well_formed s.
Proof.
  induction 1 as [rom t0 inp | s dt _ IH | s fuel inp s' _ IH Hl].
  - apply jrt_boot_well_formed.
  - apply (untouched_keeps _ _ (untouched_tick dt s)). exact IH.
  - eapply jrt_loop_well_formed; eassumption.
Qed.

(** ** Every call returns *)

Lemma jrt_overheatBlink_returns (fuel n : nat) :
  forall s, exists s', overheatBlink (S fuel) n s = Some s'.
Proof.
  induction n as [|n IH]; intros s; cbn [overheatBlink].
  - eexists; reflexivity.
  - destruct (JrtFacts.jrt_setLight_returns_direct fuel MODE_LOW s)
      as [s1 H1]; try discriminate.
    unfold setLightLow. rewrite H1. cbn [bind].
    destruct (JrtFacts.jrt_setLight_returns_direct fuel MODE_HIGH
                (delay 100 s1)) as [s2 H2]; try discriminate.
    unfold setLightHigh. rewrite H2. cbn [bind]. apply IH.
Qed.

Lemma jrt_checkTemperature_returns (fuel : nat) (inp : Inputs) (s : State) :
  exists s', checkTemperature (S fuel) inp s = Some s'.
Proof.
  unfold checkTemperature.
  destruct ((in_temp inp >? OVERTEMP) && negb (mode s =? MODE_OFF)).
  - destruct (jrt_overheatBlink_returns fuel 6 s) as [s1 H1].
    rewrite H1. cbn [bind].
    apply JrtFacts.jrt_setLight_returns_direct; discriminate.
  - eexists; reflexivity.
Qed.

Lemma jrt_checkNoMotion_returns (fuel : nat) (time : Z) (s : State) :
  exists s', checkNoMotion (S fuel) time s = Some s'.
Proof.
  unfold checkNoMotion.
  destruct ((time >? noAccelShutoffTime s) && negb (mode s =? MODE_OFF)).
  - apply JrtFacts.jrt_setLight_returns_direct; discriminate.
  - eexists; reflexivity.
Qed.

Lemma jrt_oneSecondLoop_returns (fuel : nat) (inp : Inputs) (s : State) :
  exists s', oneSecondLoop (S fuel) inp s = Some s'.
Proof.
  unfold oneSecondLoop.
  destruct (elapsed (millis s) (oneSecondLoopTime s) <? 1000).
  - eexists; reflexivity.
  - destruct (jrt_checkTemperature_returns fuel inp
                (set_oneSecondLoopTime (millis s) s)) as [s1 H1].
    rewrite H1. cbn [bind]. apply jrt_checkNoMotion_returns.
Qed.

Lemma jrt_buttonStep_returns (fuel : nat) (time : Z) (nb : bool) (s : State) :
  well_formed s -> exists s', buttonStep (S (S fuel)) time nb s = Some s'.
Proof.
  intros Hwf. pose proof (jrt_table_range time nb s Hwf) as Hr.
  destruct (checkModeChange time nb s) as [newMode s1] eqn:Hc. cbn in Hr.
  destruct (Z.eq_dec newMode (mode s)) as [E|E].
  - pose proof (JrtFacts.jrt_checkModeChange_frame time nb s) as Hf.
    rewrite Hc in Hf. cbn in Hf. destruct Hf as (Fm & _).
    unfold buttonStep. rewrite Hc. subst newMode. rewrite <- Fm.
    rewrite JrtFacts.jrt_doModeTransition_same. eexists; reflexivity.
  - destruct (JrtFacts.jrt_buttonStep_change fuel time nb s s1 newMode)
      as (s2 & _ & H2); auto.
    + intros _. apply Hwf.
    + eexists; exact H2.
Qed.

(** A pass of [loop] returns from every well-formed state. *)
Lemma jrt_loop_returns (fuel : nat) (inp : Inputs) (s : State) :
  well_formed s -> exists s', loop (S (S fuel)) inp s = Some s'.
Proof.
  intros Hwf. unfold loop.
  destruct (powerOffDue (millis s) s); [eexists; reflexivity|].
  destruct (jrt_oneSecondLoop_returns (S fuel) inp (checkChargeState inp s))
    as [s1 H1].
  rewrite H1. cbn [bind].
  apply jrt_buttonStep_returns.
  apply (untouched_keeps _ _ (untouched_blinkOutput (millis s) s1)).
  apply jrt_oneSecondLoop_keeps in H1. apply H1.
  apply (untouched_keeps _ _ (untouched_checkChargeState inp s)).
  exact Hwf.
Qed.

End JrtInv.
(** ** The [setLight] revision without EEPROM *)

Module Part000Inv.
Import Common Part000 Frame.

Lemma p0_setLight_keeps (fuel : nat) (m : Z) (s s' : State) :
  0 <= m <= 5 -> setLight fuel m s = Some s' -> keeps s s'.
Proof.
  intros Hr H. apply Part000Facts.p0_setLight_spec in H.
  destruct H as [[] Hl]. unfold keeps, well_formed.
  split; [|split; assumption].
  intros [Hv _]. split.
  - rewrite Hl. exact Hv.
  - rewrite sl_mode0. apply collapse_range. exact Hr.
Qed.

Lemma p0_overheatBlink_keeps (fuel n : nat) :
  forall s s', overheatBlink fuel n s = Some s' -> keeps s s'.
Proof.
  induction n as [|n IH]; intros s s' H; cbn in H.
  - inversion H. apply keeps_refl.
  - destruct (setLightLow fuel s) as [s1|] eqn:H1; [|discriminate].
    cbn in H.
    destruct (setLightHigh fuel (delay 100 s1)) as [s2|] eqn:H2;
      [|discriminate].
    cbn in H.
    apply p0_setLight_keeps in H1; [|unfold MODE_LOW; lia].
    apply p0_setLight_keeps in H2; [|unfold MODE_HIGH; lia].
    apply IH in H.
    eapply keeps_trans; [exact H1|].
    eapply keeps_trans; [apply untouched_keeps, untouched_delay|].
    eapply keeps_trans; [exact H2|].
    eapply keeps_trans; [apply untouched_keeps, untouched_delay|exact H].
Qed.

Lemma p0_checkTemperature_keeps (fuel : nat) (inp : Inputs) (s s' : State) :
  checkTemperature fuel inp s = Some s' -> keeps s s'.
Proof.
  unfold checkTemperature.
  destruct ((in_temp inp >? OVERTEMP) && negb (mode s =? MODE_OFF)).
  - destruct (overheatBlink fuel 6 s) as [s1|] eqn:H1; [|discriminate].
    cbn. intros H2.
    apply p0_overheatBlink_keeps in H1.
    apply p0_setLight_keeps in H2; [|unfold MODE_LOW; lia].
    eapply keeps_trans; eassumption.
  - intros H. inversion H. apply keeps_refl.
Qed.

Lemma p0_checkNoMotion_keeps (fuel : nat) (time : Z) (s s' : State) :
  checkNoMotion fuel time s = Some s' -> keeps s s'.
Proof.
  unfold checkNoMotion.
  destruct ((time >? noAccelShutoffTime s) && negb (mode s =? MODE_OFF)).
  - apply p0_setLight_keeps. unfold MODE_OFF. lia.
  - intros H. inversion H. apply keeps_refl.
Qed.

Lemma p0_oneSecondLoop_keeps (fuel : nat) (inp : Inputs) (s s' : State) :
  oneSecondLoop fuel inp s = Some s' -> keeps s s'.
Proof.
  unfold oneSecondLoop.
  destruct (elapsed (millis s) (oneSecondLoopTime s) <? 1000).
  - intros H. inversion H. apply keeps_refl.
  - destruct (checkTemperature fuel inp _) as [s1|] eqn:H1; [|discriminate].
    cbn. intros H2.
    apply p0_checkTemperature_keeps in H1.
    apply p0_checkNoMotion_keeps in H2.
    eapply keeps_trans; [|eapply keeps_trans; [exact H1|]].
    + apply untouched_keeps. unfold untouched. auto.
    + eapply keeps_trans; [|exact H2].
      apply untouched_keeps.
      eapply untouched_trans; [|apply untouched_checkAccel].
      eapply untouched_trans; apply untouched_pinMode.
Qed.

(** The table asks for a mode in 0..5 whenever the invariant holds. *)
Lemma p0_table_range (time : Z) (nb : bool) (s : State) :
  well_formed s -> 0 <= fst (checkModeChange time nb s) <= 5.
Proof.
  intros ((Hl & Hh) & Hm). unfold MODE_LOW, MODE_HIGH in *.
  unfold checkModeChange.
  repeat match goal with
         | |- context [if ?b then _ else _] => destruct b
         end; cbn;
    unfold MODE_OFF, MODE_LOW, MODE_MED, MODE_HIGH, MODE_BLINKING,
      MODE_BLINKING_PREVIEW; lia.
Qed.

Lemma p0_buttonStep_keeps (fuel : nat) (time : Z) (nb : bool) (s s' : State) :
  well_formed s -> buttonStep fuel time nb s = Some s' -> keeps s s'.
Proof.
  intros Hwf. pose proof (p0_table_range time nb s Hwf) as Hr.
  pose proof (Part000Facts.p0_checkModeChange_frame time nb s) as Hf.
  unfold buttonStep.
  destruct (checkModeChange time nb s) as [newMode s1]. cbn in Hr, Hf.
  destruct Hf as (Fm & Fl & _ & _ & _ & _ & Fe & Fw).
  assert (K1 : keeps s s1) by (apply untouched_keeps; unfold untouched; auto).
  destruct (doModeTransition fuel time newMode s1) as [s2|] eqn:H2;
    [|discriminate].
  cbn. intros H. inversion H; subst s'; clear H.
  eapply keeps_trans; [exact K1|].
  eapply keeps_trans; [|apply untouched_keeps, untouched_rememberButton].
  destruct (Z.eq_dec newMode (mode s1)) as [E|E].
  - subst newMode. rewrite Part000Facts.p0_doModeTransition_same in H2.
    inversion H2. apply keeps_refl.
  - rewrite Part000Facts.p0_doModeTransition_change in H2 by assumption.
    destruct (setLight fuel newMode (set_lastModeTime time s1)) as [s3|] eqn:H3;
      [|discriminate].
    cbn in H2. inversion H2; subst s2; clear H2.
    pose proof (Part000Facts.p0_setLight_spec _ _ _ _ H3) as [[] Hl].
    cbn in Hl, sl_eeprom0, sl_writes0.
    unfold keeps, well_formed. cbn.
    split; [|split; assumption].
    intros [Hv _]. split.
    + rewrite Hl. apply remembered_valid. exact Hv.
    + rewrite sl_mode0. apply collapse_range. exact Hr.
Qed.

Lemma p0_loop_well_formed (fuel : nat) (inp : Inputs) (s s' : State) :
  well_formed s -> loop fuel inp s = Some s' -> well_formed s'.
Proof.
  intros Hwf. unfold loop.
  destruct (oneSecondLoop fuel inp _) as [s1|] eqn:H1; [|discriminate].
  cbn. intros H2.
  apply p0_oneSecondLoop_keeps in H1.
  assert (W1 : well_formed s1).
  { apply H1. apply (untouched_keeps _ _ (untouched_checkChargeState inp s)).
    exact Hwf. }
  assert (W2 : well_formed (blinkOutput (millis s) s1)).
  { apply (untouched_keeps _ _ (untouched_blinkOutput (millis s) s1)).
    exact W1. }
  apply (p0_buttonStep_keeps _ _ _ _ _ W2 H2). exact W2.
Qed.

Lemma p0_boot_well_formed (fuel : nat) (t0 : Z) (inp : Inputs) (s : State) :
  boot fuel t0 inp = Some s -> well_formed s.
Proof.
  unfold boot, setup.
  destruct (setLightOff fuel _) as [s1|] eqn:H1; [|discriminate].
  cbn [bind]. intros H. inversion H; subst s; clear H.
  apply Part000Facts.p0_setLight_spec in H1. destruct H1 as [[] Hl].
  unfold well_formed, valid_lastOn. cbn. rewrite Hl, sl_mode0.
  split; split; vm_compute; discriminate.
Qed.

Lemma p0_reachable_well_formed (s : State) : reachable s -> well_formed s.
Proof.
  induction 1 as [fuel t0 inp s Hb | s dt _ IH | s fuel inp s' _ IH Hl].
  - eapply p0_boot_well_formed; eassumption.
  - apply (untouched_keeps _ _ (untouched_tick dt s)). exact IH.
  - eapply p0_loop_well_formed; eassumption.
Qed.

(** ** Every call returns *)

Lemma p0_overheatBlink_returns (fuel n : nat) :
  forall s, exists s', overheatBlink (S fuel) n s = Some s'.
Proof.
  induction n as [|n IH]; intros s; cbn [overheatBlink].
  - eexists; reflexivity.
  - destruct (Part000Facts.p0_setLight_returns_direct fuel MODE_LOW s)
      as [s1 H1]; try discriminate.
    unfold setLightLow. rewrite H1. cbn [bind].
    destruct (Part000Facts.p0_setLight_returns_direct fuel MODE_HIGH
                (delay 100 s1)) as [s2 H2]; try discriminate.
    unfold setLightHigh. rewrite H2. cbn [bind]. apply IH.
Qed.

Lemma p0_checkTemperature_returns (fuel : nat) (inp : Inputs) (s : State) :
  exists s', checkTemperature (S fuel) inp s = Some s'.
Proof.
  unfold checkTemperature.
  destruct ((in_temp inp >? OVERTEMP) && negb (mode s =? MODE_OFF)).
  - destruct (p0_overheatBlink_returns fuel 6 s) as [s1 H1].
    rewrite H1. cbn [bind].
    apply Part000Facts.p0_setLight_returns_direct; discriminate.
  - eexists; reflexivity.
Qed.

Lemma p0_checkNoMotion_returns (fuel : nat) (time : Z) (s : State) :
  exists s', checkNoMotion (S fuel) time s = Some s'.
Proof.
  unfold checkNoMotion.
  destruct ((time >? noAccelShutoffTime s) && negb (mode s =? MODE_OFF)).
  - apply Part000Facts.p0_setLight_returns_direct; discriminate.
  - eexists; reflexivity.
Qed.

Lemma p0_oneSecondLoop_returns (fuel : nat) (inp : Inputs) (s : State) :
  exists s', oneSecondLoop (S fuel) inp s = Some s'.
Proof.
  unfold oneSecondLoop.
  destruct (elapsed (millis s) (oneSecondLoopTime s) <? 1000).
  - eexists; reflexivity.
  - destruct (p0_checkTemperature_returns fuel inp
                (set_oneSecondLoopTime (millis s) s)) as [s1 H1].
    rewrite H1. cbn [bind]. apply p0_checkNoMotion_returns.
Qed.

Lemma p0_buttonStep_returns (fuel : nat) (time : Z) (nb : bool) (s : State) :
  well_formed s -> exists s', buttonStep (S (S fuel)) time nb s = Some s'.
Proof.
  intros Hwf. pose proof (p0_table_range time nb s Hwf) as Hr.
  destruct (checkModeChange time nb s) as [newMode s1] eqn:Hc. cbn in Hr.
  destruct (Z.eq_dec newMode (mode s)) as [E|E].
  - pose proof (Part000Facts.p0_checkModeChange_frame time nb s) as Hf.
    rewrite Hc in Hf. cbn in Hf. destruct Hf as (Fm & _).
    unfold buttonStep. rewrite Hc. subst newMode. rewrite <- Fm.
    rewrite Part000Facts.p0_doModeTransition_same. eexists; reflexivity.
  - destruct (Part000Facts.p0_buttonStep_mode fuel time nb s s1 newMode)
      as (s2 & H2 & _); auto.
    + intros _. apply Hwf.
    + eexists; exact H2.
Qed.

(** A pass of [loop] returns from every well-formed state. *)
Lemma p0_loop_returns (fuel : nat) (inp : Inputs) (s : State) :
  well_formed s -> exists s', loop (S (S fuel)) inp s = Some s'.
Proof.
  intros Hwf. unfold loop.
  destruct (p0_oneSecondLoop_returns (S fuel) inp (checkChargeState inp s))
    as [s1 H1].
  rewrite H1. cbn [bind].
  apply p0_buttonStep_returns.
  apply (untouched_keeps _ _ (untouched_blinkOutput (millis s) s1)).
  apply p0_oneSecondLoop_keeps in H1. apply H1.
  apply (untouched_keeps _ _ (untouched_checkChargeState inp s)).
  exact Hwf.
Qed.

Lemma p0_boot_returns (fuel : nat) (t0 : Z) (inp : Inputs) :
  exists s, boot (S fuel) t0 inp = Some s.
Proof. eexists; reflexivity. Qed.

End Part000Inv.

(** ** The oldest revision *)

Module Part001Inv.
Import Common Part001 Frame.

Lemma p1_overheatBlink_lastOn (n : nat) :
  forall s, lastOnMode (overheatBlink n s) = lastOnMode s.
Proof. induction n as [|n IH]; intros s; cbn; [|rewrite IH]; reflexivity. Qed.

Lemma p1_oneSecondLoop_lastOn (inp : Inputs) (s : State) :
  lastOnMode (oneSecondLoop inp s) = lastOnMode s.
Proof.
  unfold oneSecondLoop, overheat.
  repeat match goal with
         | |- context [if ?b then _ else _] => destruct b
         end; cbn; rewrite ?p1_overheatBlink_lastOn; reflexivity.
Qed.

Lemma p1_checkAccel_lastOn (inp : Inputs) (s : State) :
  lastOnMode (checkAccel inp s) = lastOnMode s.
Proof.
  unfold checkAccel.
  repeat match goal with
         | |- context [if ?b then _ else _] => destruct b
         end; reflexivity.
Qed.

Lemma p1_buttonStep_lastOn (time : Z) (nb : bool) (s : State) :
  valid_lastOn (lastOnMode s) ->
  valid_lastOn (lastOnMode (buttonStep time nb s)).
Proof.
  intros Hv. unfold buttonStep.
  assert (Hs : lastOnMode (snd (checkModeChange time nb s)) = lastOnMode s).
  { unfold checkModeChange.
    repeat match goal with
           | |- context [if ?b then _ else _] => destruct b
           end; reflexivity. }
  destruct (checkModeChange time nb s) as [newMode s1]. cbn in Hs.
  destruct (rememberButton_frame time nb (doModeTransition time newMode s1))
    as (_ & Rl & _).
  rewrite Rl. unfold doModeTransition.
  destruct (negb (newMode =? mode s1)); [|rewrite Hs; exact Hv].
  destruct (newMode =? MODE_OFF); [cbn; rewrite Hs; exact Hv|].
  destruct (newMode =? MODE_LOW) eqn:E1;
    [cbn; apply Z.eqb_eq in E1; subst; split; discriminate|].
  destruct (newMode =? MODE_MED) eqn:E2;
    [cbn; apply Z.eqb_eq in E2; subst; split; discriminate|].
  destruct (newMode =? MODE_HIGH) eqn:E3;
    [cbn; apply Z.eqb_eq in E3; subst; split; discriminate|].
  destruct ((newMode =? MODE_BLINKING) || (newMode =? MODE_BLINKING_PREVIEW));
    cbn; rewrite Hs; exact Hv.
Qed.

Lemma p1_loop_lastOn (inp : Inputs) (s : State) :
  valid_lastOn (lastOnMode s) -> valid_lastOn (lastOnMode (loop inp s)).
Proof.
  intros Hv. unfold loop. apply p1_buttonStep_lastOn.
  destruct (untouched_blinkOutput (millis s)
              (checkAccel inp (oneSecondLoop inp (checkChargeState inp s))))
    as (_ & Hl & _).
  rewrite Hl, p1_checkAccel_lastOn, p1_oneSecondLoop_lastOn.
  destruct (untouched_checkChargeState inp s) as (_ & Hl' & _).
  rewrite Hl'. exact Hv.
Qed.

Lemma p1_reachable_lastOn (s : State) :
  reachable s -> valid_lastOn (lastOnMode s).
Proof.
  induction 1 as [t0 inp | s dt _ IH | s inp _ IH].
  - split; discriminate.
  - exact IH.
  - apply p1_loop_lastOn. exact IH.
Qed.

End Part001Inv.

(** * Quick double press and blink mode *)

Module PressFacts.
Import Common.

Lemma jrt_double_low (fuel : nat) (time : Z) (s : State) :
  mode s = MODE_OFF -> btnDown s = true ->
  elapsed time (btnTime s) > 20 ->
  lastModeTime s <> 0 -> elapsed time (lastModeTime s) <= 1000 ->
  exists s', Jrt.buttonStep (S (S fuel)) time false s = Some s'
             /\ mode s' = MODE_LOW.
Proof.
  intros Hm Hb Hh Hz Hd. apply CycleFacts.jrt_cycle_to.
  - apply JrtFacts.jrt_table_off_double; assumption.
  - rewrite Hm. discriminate.
  - unfold MODE_LOW. lia.
Qed.

Lemma p0_double_low (fuel : nat) (time : Z) (s : State) :
  mode s = MODE_OFF -> btnDown s = true ->
  elapsed time (btnTime s) > 20 ->
  elapsed time (lastModeTime s) <= 1000 ->
  exists s', Part000.buttonStep (S (S fuel)) time false s = Some s'
             /\ mode s' = MODE_LOW.
Proof.
  intros Hm Hb Hh Hd. apply CycleFacts.p0_cycle_to.
  - apply Part000Facts.p0_table_off_double; assumption.
  - rewrite Hm. discriminate.
  - unfold MODE_LOW. lia.
Qed.

Lemma jrt_hold_blinks (fuel : nat) (time : Z) (s : State) :
  mode s = MODE_OFF -> btnDown s = true -> valid_lastOn (lastOnMode s) ->
  elapsed time (btnTime s) > 500 ->
  exists s', Jrt.buttonStep (S (S fuel)) time true s = Some s'
             /\ mode s' = MODE_BLINKING /\ lastModeTime s' = time.
Proof.
  intros Hm Hb Hv Hh.
  destruct (JrtFacts.jrt_buttonStep_mode fuel time true s s
              MODE_BLINKING_PREVIEW) as (s' & Hs & Hmode & Ht & _).
  - apply JrtFacts.jrt_table_off_hold; assumption.
  - rewrite Hm. discriminate.
  - unfold MODE_BLINKING_PREVIEW. lia.
  - intros _. exact Hv.
  - exists s'. repeat split; assumption.
Qed.

Lemma p0_hold_blinks (fuel : nat) (time : Z) (s : State) :
  mode s = MODE_OFF -> btnDown s = true -> valid_lastOn (lastOnMode s) ->
  elapsed time (btnTime s) > 500 ->
  exists s', Part000.buttonStep (S (S fuel)) time true s = Some s'
             /\ mode s' = MODE_BLINKING /\ lastModeTime s' = time.
Proof.
  intros Hm Hb Hv Hh.
  destruct (Part000Facts.p0_buttonStep_mode fuel time true s s
              MODE_BLINKING_PREVIEW) as (s' & Hs & Hmode & _ & Ht).
  - apply Part000Facts.p0_table_off_hold; assumption.
  - rewrite Hm. discriminate.
  - unfold MODE_BLINKING_PREVIEW. lia.
  - intros _. exact Hv.
  - exists s'. repeat split; assumption.
Qed.

Lemma jrt_blinking_exit (fuel : nat) (time : Z) (s : State) :
  mode s = MODE_BLINKING -> btnDown s = true ->
  elapsed time (btnTime s) > 50 -> elapsed time (lastModeTime s) > 2000 ->
  exists s', Jrt.buttonStep (S (S fuel)) time false s = Some s'
             /\ mode s' = MODE_OFF.
Proof.
  intros Hm Hb Hh Hd. apply CycleFacts.jrt_cycle_to.
  - rewrite JrtFacts.jrt_table_blinking by assumption.
    rewrite gtb_true by assumption. reflexivity.
  - rewrite Hm. discriminate.
  - unfold MODE_OFF. lia.
Qed.

Lemma jrt_blinking_stays (fuel : nat) (time : Z) (s : State) :
  mode s = MODE_BLINKING -> btnDown s = true ->
  elapsed time (lastModeTime s) <= 2000 ->
  exists s', Jrt.buttonStep fuel time false s = Some s'
             /\ mode s' = MODE_BLINKING.
Proof.
  intros Hm Hb Hd.
  exists (rememberButton time false s). split.
  - apply JrtFacts.jrt_buttonStep_stay.
    unfold Jrt.checkModeChange. rewrite Hm, Hb. cbn.
    rewrite (gtb_false _ _ Hd).
    destruct (elapsed time (btnTime s) >? 50); reflexivity.
  - destruct (rememberButton_frame time false s) as (Rm & _).
    rewrite Rm. exact Hm.
Qed.

Lemma p0_blinking_exit (fuel : nat) (time : Z) (s : State) :
  mode s = MODE_BLINKING -> btnDown s = true ->
  elapsed time (btnTime s) > 50 -> elapsed time (lastModeTime s) > 3000 ->
  exists s', Part000.buttonStep (S (S fuel)) time false s = Some s'
             /\ mode s' = MODE_OFF.
Proof.
  intros Hm Hb Hh Hd. apply CycleFacts.p0_cycle_to.
  - rewrite Part000Facts.p0_table_blinking by assumption.
    rewrite gtb_true by assumption. reflexivity.
  - rewrite Hm. discriminate.
  - unfold MODE_OFF. lia.
Qed.

Lemma p0_blinking_stays (fuel : nat) (time : Z) (s : State) :
  mode s = MODE_BLINKING -> btnDown s = true ->
  elapsed time (lastModeTime s) <= 3000 ->
  exists s', Part000.buttonStep fuel time false s = Some s'
             /\ mode s' = MODE_BLINKING.
Proof.
  intros Hm Hb Hd.
  exists (rememberButton time false s). split.
  - apply Part000Facts.p0_buttonStep_stay.
    unfold Part000.checkModeChange. rewrite Hm, Hb. cbn.
    rewrite (gtb_false _ _ Hd).
    destruct (elapsed time (btnTime s) >? 50); reflexivity.
  - destruct (rememberButton_frame time false s) as (Rm & _).
    rewrite Rm. exact Hm.
Qed.

Lemma jrt_first_press (fuel : nat) (time : Z) (s : State) :
  mode s = MODE_OFF -> btnDown s = true ->
  elapsed time (btnTime s) > 20 ->
  lastModeTime s = 0 -> valid_lastOn (lastOnMode s) ->
  exists s', Jrt.buttonStep (S (S fuel)) time false s = Some s'
             /\ mode s' = lastOnMode s.
Proof.
  intros Hm Hb Hh Hz Hv.
  destruct (JrtFacts.jrt_buttonStep_mode fuel time false s
              (set_lastModeTime time s) (lastOnMode s))
    as (s' & Hs & Hmode & _).
  - apply JrtFacts.jrt_table_off_restore; auto.
  - rewrite Hm. apply CycleFacts.valid_not_off, Hv.
  - apply CycleFacts.valid_range, Hv.
  - intros _. exact Hv.
  - exists s'. split; [exact Hs|]. rewrite Hmode.
    apply CycleFacts.valid_collapse, Hv.
Qed.

End PressFacts.

(** C2, as stated, fails.  (1) In the oldest revision a release 100 ms
    after boot, inside the window, leaves the light in Medium, not Low.
    (2) In hexbright_jrt.ino the same release restores [lastOnMode] (High)
    because [lastModeTime] is still 0.  (3) In hexbright_jrt.ino a release
    held exactly 20 ms, 140 ms after the light went off, changes nothing:
    the test is [> 20]. *)
Lemma C2_double_press_counterexample :
  (mode (Part001.boot 0 (quiet true)) = MODE_OFF
   /\ mode (Part001.run [(100, quiet false)] (Part001.boot 0 (quiet true)))
      = MODE_MED)
  /\ (mode (Jrt.boot MODE_HIGH 0 (quiet true)) = MODE_OFF
      /\ exists s',
           Jrt.run 2 [(10, quiet true); (100, quiet false)]
             (Jrt.boot MODE_HIGH 0 (quiet true)) = Some s'
           /\ mode s' = MODE_HIGH)
  /\ (mode pressed_again = MODE_OFF /\ btnDown pressed_again = true
      /\ elapsed 620 (btnTime pressed_again) = 20
      /\ elapsed 620 (lastModeTime pressed_again) = 160
      /\ exists s', Jrt.buttonStep 2 620 false pressed_again = Some s'
                    /\ mode s' = MODE_OFF).
Proof.
  split; [split; vm_compute; reflexivity|].
  split.
  - split; [vm_compute; reflexivity|].
    eexists. split; vm_compute; reflexivity.
  - repeat (split; [vm_compute; reflexivity|]).
    eexists. split; vm_compute; reflexivity.
Qed.

(** C2 amended.  From Off, a release held more than 20 ms within the
    window of the last mode change sets the mode to Low whatever
    [lastOnMode] holds: in hexbright_jrt.ino when at most 1000 ms have
    passed and [lastModeTime] is not 0 (no change since boot reads as a long
    pause and restores [lastOnMode]), in the revision without EEPROM when
    at most 1000 ms have passed.
    In the oldest revision the window is 2500 ms and the mode set is
    Medium. *)
Theorem C2_double_press_amended :
  forall (fuel : nat) (time : Z) (s : State),
    mode s = MODE_OFF -> btnDown s = true ->
    elapsed time (btnTime s) > 20 ->
    (lastModeTime s <> 0 -> elapsed time (lastModeTime s) <= 1000 ->
     exists s', Jrt.buttonStep (S (S fuel)) time false s = Some s'
                /\ mode s' = MODE_LOW)
    /\ (lastModeTime s = 0 -> valid_lastOn (lastOnMode s) ->
        exists s', Jrt.buttonStep (S (S fuel)) time false s = Some s'
                   /\ mode s' = lastOnMode s)
    /\ (elapsed time (lastModeTime s) <= 1000 ->
        exists s', Part000.buttonStep (S (S fuel)) time false s = Some s'
                   /\ mode s' = MODE_LOW)
    /\ (elapsed time (lastModeTime s) <= 2500 ->
        mode (Part001.buttonStep time false s) = MODE_MED).
Proof.
  intros fuel time s Hm Hb Hh. repeat apply conj.
  - intros Hz Hd. apply PressFacts.jrt_double_low; assumption.
  - intros Hz Hv. apply PressFacts.jrt_first_press; assumption.
  - intros Hd. apply PressFacts.p0_double_low; assumption.
  - intros Hd. apply Part001Facts.p1_off_double; assumption.
Qed.

(** C2 amended at a concrete state: the second press 140 ms after the
    light went off. *)
Lemma C2_double_press_amended_witness :
  (exists s', Jrt.buttonStep 2 800 false pressed_again = Some s'
              /\ mode s' = MODE_LOW)
  /\ (exists s', Jrt.buttonStep 2 800 false held_off = Some s'
                 /\ mode s' = lastOnMode held_off)
  /\ (exists s', Part000.buttonStep 2 800 false pressed_again = Some s'
                 /\ mode s' = MODE_LOW)
  /\ mode (Part001.buttonStep 800 false pressed_again) = MODE_MED.
Proof.
  destruct (C2_double_press_amended 0%nat 800 pressed_again
              eq_refl eq_refl eq_refl) as (H1 & _ & H2 & H3).
  destruct (C2_double_press_amended 0%nat 800 held_off
              eq_refl eq_refl eq_refl) as (_ & H0 & _).
  split; [apply H1; discriminate|].
  split; [apply H0; [reflexivity|split; discriminate]|].
  split; [apply H2; discriminate|].
  apply H3; discriminate.
Defined.

(** C3, as stated, fails in hexbright_jrt.ino.  Holding the button from
    boot for 610 ms leaves [mode] at [MODE_BLINKING]: [setLight] never
    stores [MODE_BLINKING_PREVIEW].  And no preview state swallows the
    release: the button held on for another 2100 ms and then let go
    switches the light off. *)
Lemma C3_blink_counterexample :
  (exists s',
      Jrt.run 2 [(10, quiet true); (600, quiet true)]
        (Jrt.boot MODE_HIGH 0 (quiet true)) = Some s'
      /\ mode s' = MODE_BLINKING
      /\ mode s' <> MODE_BLINKING_PREVIEW)
  /\ (exists s',
         Jrt.run 2 [(10, quiet true); (600, quiet true); (2100, quiet false)]
           (Jrt.boot MODE_HIGH 0 (quiet true)) = Some s'
         /\ mode s' = MODE_OFF).
Proof.
  split.
  - eexists. split; [vm_compute; reflexivity|].
    split; [vm_compute; reflexivity|]. vm_compute. discriminate.
  - eexists. split; vm_compute; reflexivity.
Qed.

(** C3 amended.  With the button tracked down: from Off, still down and
    held more than 500 ms, [lastOnMode] in Low..High, the two [setLight]
    revisions go straight to Blinking (the preview value is folded by
    [setLight]) and stamp [lastModeTime]; the oldest revision goes to
    BlinkingPreview, and from there any release gives Blinking.  In
    Blinking, a release held more than 50 ms gives Off when more than the
    exit timeout has passed since the mode change (2000 ms in
    hexbright_jrt.ino, 3000 ms without EEPROM, none in the oldest revision);
    a release at or before the timeout, the one that ends the entering
    hold included, leaves Blinking.  No state the two [setLight] revisions
    reach has [mode] at BlinkingPreview. *)
Theorem C3_blink_amended :
  forall (fuel : nat) (time : Z) (s : State),
    btnDown s = true ->
    (mode s = MODE_OFF -> valid_lastOn (lastOnMode s) ->
     elapsed time (btnTime s) > 500 ->
     (exists s', Jrt.buttonStep (S (S fuel)) time true s = Some s'
                 /\ mode s' = MODE_BLINKING /\ lastModeTime s' = time)
     /\ (exists s', Part000.buttonStep (S (S fuel)) time true s = Some s'
                    /\ mode s' = MODE_BLINKING /\ lastModeTime s' = time)
     /\ mode (Part001.buttonStep time true s) = MODE_BLINKING_PREVIEW)
    /\ (mode s = MODE_BLINKING_PREVIEW ->
        mode (Part001.buttonStep time false s) = MODE_BLINKING)
    /\ (mode s = MODE_BLINKING -> elapsed time (btnTime s) > 50 ->
        (elapsed time (lastModeTime s) > 2000 ->
         exists s', Jrt.buttonStep (S (S fuel)) time false s = Some s'
                    /\ mode s' = MODE_OFF)
        /\ (elapsed time (lastModeTime s) > 3000 ->
            exists s', Part000.buttonStep (S (S fuel)) time false s = Some s'
                       /\ mode s' = MODE_OFF)
        /\ mode (Part001.buttonStep time false s) = MODE_OFF)
    /\ (mode s = MODE_BLINKING ->
        (elapsed time (lastModeTime s) <= 2000 ->
         exists s', Jrt.buttonStep (S (S fuel)) time false s = Some s'
                    /\ mode s' = MODE_BLINKING)
        /\ (elapsed time (lastModeTime s) <= 3000 ->
            exists s', Part000.buttonStep (S (S fuel)) time false s = Some s'
                       /\ mode s' = MODE_BLINKING))
    /\ (Jrt.reachable s \/ Part000.reachable s ->
        mode s <> MODE_BLINKING_PREVIEW).
Proof.
  intros fuel time s Hb. repeat apply conj.
  - intros Hm Hv Hh. repeat apply conj.
    + apply PressFacts.jrt_hold_blinks; assumption.
    + apply PressFacts.p0_hold_blinks; assumption.
    + apply Part001Facts.p1_off_hold; assumption.
  - intros Hm. apply Part001Facts.p1_preview_release; assumption.
  - intros Hm Hh. repeat apply conj.
    + intros Hd. apply PressFacts.jrt_blinking_exit; assumption.
    + intros Hd. apply PressFacts.p0_blinking_exit; assumption.
    + apply Part001Facts.p1_blinking_release; assumption.
  - intros Hm. split.
    + intros Hd. apply PressFacts.jrt_blinking_stays; assumption.
    + intros Hd. apply PressFacts.p0_blinking_stays; assumption.
  - intros [Hr|Hr].
    + destruct (JrtInv.jrt_reachable_well_formed s Hr) as [_ Hm].
      unfold MODE_BLINKING_PREVIEW. lia.
    + destruct (Part000Inv.p0_reachable_well_formed s Hr) as [_ Hm].
      unfold MODE_BLINKING_PREVIEW. lia.
Qed.

(** C3 amended at concrete states. *)
Lemma C3_blink_amended_witness :
  (exists s', Jrt.buttonStep 2 600 true held_off = Some s'
              /\ mode s' = MODE_BLINKING /\ lastModeTime s' = 600)
  /\ mode (Part001.buttonStep 600 false
             (set_mode MODE_BLINKING_PREVIEW held_off)) = MODE_BLINKING
  /\ (exists s', Jrt.buttonStep 2 2700 false
                   (set_mode MODE_BLINKING held_off) = Some s'
                 /\ mode s' = MODE_OFF)
  /\ (exists s', Jrt.buttonStep 2 700 false
                   (set_mode MODE_BLINKING held_off) = Some s'
                 /\ mode s' = MODE_BLINKING)
  /\ mode held_off <> MODE_BLINKING_PREVIEW.
Proof.
  assert (Hv : valid_lastOn (lastOnMode held_off))
    by (split; discriminate).
  destruct (C3_blink_amended 0%nat 600 held_off eq_refl)
    as (Hhold & _ & _ & _ & Hnever).
  destruct (C3_blink_amended 0%nat 600
              (set_mode MODE_BLINKING_PREVIEW held_off) eq_refl)
    as (_ & Hrel & _).
  destruct (C3_blink_amended 0%nat 2700 (set_mode MODE_BLINKING held_off)
              eq_refl) as (_ & _ & Hexit & _).
  destruct (C3_blink_amended 0%nat 700 (set_mode MODE_BLINKING held_off)
              eq_refl) as (_ & _ & _ & Hstay & _).
  assert (Hreach : Jrt.reachable held_off).
  { apply (Jrt.reach_loop (tick 10 (Jrt.boot MODE_HIGH 0 (quiet true)))
             2%nat (quiet true) held_off).
    - apply Jrt.reach_tick. apply Jrt.reach_boot.
    - vm_compute. reflexivity. }
  split; [exact (proj1 (Hhold eq_refl Hv eq_refl))|].
  split; [exact (Hrel eq_refl)|].
  split; [apply (proj1 (Hexit eq_refl eq_refl)); reflexivity|].
  split; [apply (proj1 (Hstay eq_refl)); discriminate|].
  apply Hnever. left. exact Hreach.
Defined.

(** * Stored brightness: invariant and persistence *)

Module MemoryFacts.
Import Common Frame.

Lemma jrt_setLight_valid (fuel : nat) (m : Z) (s s' : State) :
  valid_lastOn (lastOnMode s) -> Jrt.setLight fuel m s = Some s' ->
  valid_lastOn (lastOnMode s').
Proof.
  intros Hv H. apply JrtFacts.jrt_setLight_spec in H. destruct H as [_ Hl].
  rewrite Hl. apply remembered_valid. exact Hv.
Qed.

Lemma jrt_overheatBlink_valid (fuel n : nat) :
  forall s s', valid_lastOn (lastOnMode s) ->
               Jrt.overheatBlink fuel n s = Some s' ->
               valid_lastOn (lastOnMode s').
Proof.
  induction n as [|n IH]; intros s s' Hv H; cbn in H.
  - inversion H; subst; exact Hv.
  - destruct (Jrt.setLightLow fuel s) as [s1|] eqn:H1; [|discriminate].
    cbn in H.
    destruct (Jrt.setLightHigh fuel (delay 100 s1)) as [s2|] eqn:H2;
      [|discriminate].
    cbn in H. apply (IH (delay 100 s2)); [|exact H].
    apply (jrt_setLight_valid _ _ _ _ Hv) in H1.
    apply (jrt_setLight_valid _ _ (delay 100 s1)) in H2; assumption.
Qed.

Lemma jrt_checkTemperature_valid (fuel : nat) (inp : Inputs) (s s' : State) :
  valid_lastOn (lastOnMode s) -> Jrt.checkTemperature fuel inp s = Some s' ->
  valid_lastOn (lastOnMode s').
Proof.
  intros Hv. unfold Jrt.checkTemperature.
  destruct ((in_temp inp >? OVERTEMP) && negb (mode s =? MODE_OFF)).
  - destruct (Jrt.overheatBlink fuel 6 s) as [s1|] eqn:H1; [|discriminate].
    cbn. apply jrt_setLight_valid.
    eapply jrt_overheatBlink_valid; eassumption.
  - intros H; inversion H; subst; exact Hv.
Qed.

Lemma jrt_oneSecondLoop_valid (fuel : nat) (inp : Inputs) (s s' : State) :
  valid_lastOn (lastOnMode s) -> Jrt.oneSecondLoop fuel inp s = Some s' ->
  valid_lastOn (lastOnMode s').
Proof.
  intros Hv. unfold Jrt.oneSecondLoop.
  destruct (elapsed (millis s) (oneSecondLoopTime s) <? 1000).
  - intros H; inversion H; subst; exact Hv.
  - destruct (Jrt.checkTemperature fuel inp _) as [s1|] eqn:H1;
      [|discriminate].
    cbn [bind].
    apply (jrt_checkTemperature_valid fuel inp
             (set_oneSecondLoopTime (millis s) s) s1 Hv) in H1.
    unfold Jrt.checkNoMotion.
    match goal with
    | |- context [checkAccel inp ?x] =>
      destruct (untouched_checkAccel inp x) as (_ & Hl & _)
    end.
    destruct (_ && _).
    + apply jrt_setLight_valid. rewrite Hl. exact H1.
    + intros H; inversion H; subst. rewrite Hl. exact H1.
Qed.

Lemma jrt_doModeTransition_valid (fuel : nat) (time newMode : Z)
      (s s' : State) :
  valid_lastOn (lastOnMode s) ->
  Jrt.doModeTransition fuel time newMode s = Some s' ->
  valid_lastOn (lastOnMode s').
Proof.
  intros Hv. unfold Jrt.doModeTransition.
  repeat match goal with
         | |- context [if ?b then _ else _] => destruct b
         end;
    try (apply jrt_setLight_valid; exact Hv);
    intros H; inversion H; subst; exact Hv.
Qed.

Lemma p0_doModeTransition_valid (fuel : nat) (time newMode : Z)
      (s s' : State) :
  valid_lastOn (lastOnMode s) ->
  Part000.doModeTransition fuel time newMode s = Some s' ->
  valid_lastOn (lastOnMode s').
Proof.
  intros Hv. unfold Part000.doModeTransition.
  destruct (negb (newMode =? mode s));
    [|intros H; inversion H; subst; exact Hv].
  destruct (newMode =? MODE_OFF).
  { intros H. apply Part000Facts.p0_setLight_spec in H.
    destruct H as [_ Hl]. rewrite Hl. exact Hv. }
  destruct (newMode =? MODE_LOW) eqn:E1.
  { destruct (Part000.setLightLow fuel _); [|discriminate].
    cbn. intros H; inversion H; subst. cbn.
    apply Z.eqb_eq in E1. subst. split; discriminate. }
  destruct (newMode =? MODE_MED) eqn:E2.
  { destruct (Part000.setLightMed fuel _); [|discriminate].
    cbn. intros H; inversion H; subst. cbn.
    apply Z.eqb_eq in E2. subst. split; discriminate. }
  destruct (newMode =? MODE_HIGH) eqn:E3.
  { destruct (Part000.setLightHigh fuel _); [|discriminate].
    cbn. intros H; inversion H; subst. cbn.
    apply Z.eqb_eq in E3. subst. split; discriminate. }
  destruct (_ || _).
  - intros H. apply Part000Facts.p0_setLight_spec in H.
    destruct H as [_ Hl]. rewrite Hl. exact Hv.
  - intros H; inversion H; subst; exact Hv.
Qed.

(** ** EEPROM *)

Lemma jrt_powerOff_store (s : State) :
  (eeprom s = lastOnMode s ->
   eeprom (Jrt.powerOff s) = eeprom s
   /\ eeprom_writes (Jrt.powerOff s) = eeprom_writes s)
  /\ (eeprom s <> lastOnMode s ->
      eeprom (Jrt.powerOff s) = to_byte (lastOnMode s)
      /\ eeprom_writes (Jrt.powerOff s) = S (eeprom_writes s)).
Proof.
  unfold Jrt.powerOff, EEPROM_read. cbn.
  destruct (eeprom s =? lastOnMode s) eqn:E; cbn.
  - apply Z.eqb_eq in E. split; [auto|]. intros N. contradiction.
  - apply Z.eqb_neq in E. split; [|auto]. intros N. contradiction.
Qed.

Lemma jrt_powerOff_saves (s : State) :
  valid_lastOn (lastOnMode s) -> eeprom (Jrt.powerOff s) = lastOnMode s.
Proof.
  intros [Hl Hh]. unfold MODE_LOW, MODE_HIGH in *.
  destruct (jrt_powerOff_store s) as [Heq Hne].
  destruct (Z.eq_dec (eeprom s) (lastOnMode s)) as [E|E].
  - destruct (Heq E) as [H _]. rewrite H. exact E.
  - destruct (Hne E) as [H _]. rewrite H. apply to_byte_small. lia.
Qed.

Lemma jrt_boot_lastOn (rom t0 : Z) (inp : Inputs) :
  lastOnMode (Jrt.boot rom t0 inp)
  = if (to_byte rom <? MODE_LOW) || (to_byte rom >? MODE_HIGH)
    then MODE_MED else to_byte rom.
Proof.
  unfold Jrt.boot, Jrt.setup. cbn.
  destruct ((to_byte rom <? MODE_LOW) || (to_byte rom >? MODE_HIGH));
    reflexivity.
Qed.

Lemma jrt_boot_restores (rom t0 : Z) (inp : Inputs) :
  valid_lastOn rom -> lastOnMode (Jrt.boot rom t0 inp) = rom.
Proof.
  intros [Hl Hh]. rewrite jrt_boot_lastOn.
  unfold MODE_LOW, MODE_HIGH in *.
  rewrite to_byte_small by lia.
  replace (rom <? 1) with false by (symmetry; apply Z.ltb_ge; lia).
  rewrite gtb_false by lia. reflexivity.
Qed.

Lemma jrt_boot_default (rom t0 : Z) (inp : Inputs) :
  0 <= rom < 256 -> ~ valid_lastOn rom ->
  lastOnMode (Jrt.boot rom t0 inp) = MODE_MED.
Proof.
  intros Hr Hn. rewrite jrt_boot_lastOn. rewrite to_byte_small by exact Hr.
  unfold valid_lastOn, MODE_LOW, MODE_HIGH in *.
  destruct (rom <? 1) eqn:A; [reflexivity|].
  apply Z.ltb_ge in A. rewrite gtb_true by lia. reflexivity.
Qed.

Lemma jrt_loop_store (fuel : nat) (inp : Inputs) (s s' : State) :
  well_formed s -> Jrt.powerOffDue (millis s) s = false ->
  Jrt.loop fuel inp s = Some s' ->
  eeprom s' = eeprom s /\ eeprom_writes s' = eeprom_writes s.
Proof.
  intros Hwf Hd. unfold Jrt.loop. rewrite Hd.
  destruct (Jrt.oneSecondLoop fuel inp _) as [s1|] eqn:H1; [|discriminate].
  cbn [bind]. intros H2.
  apply JrtInv.jrt_oneSecondLoop_keeps in H1.
  pose proof (untouched_keeps _ _ (untouched_checkChargeState inp s)) as K0.
  pose proof (untouched_keeps _ _ (untouched_blinkOutput (millis s) s1))
    as K2.
  assert (W2 : well_formed (blinkOutput (millis s) s1)).
  { apply K2. apply H1. apply K0. exact Hwf. }
  apply (JrtInv.jrt_buttonStep_keeps _ _ _ _ _ W2) in H2.
  pose proof (keeps_trans _ _ _ K0
                (keeps_trans _ _ _ H1 (keeps_trans _ _ _ K2 H2)))
    as (_ & He & Hw).
  auto.
Qed.

End MemoryFacts.

(** C7. [lastOnMode] is one of Low, Medium, High in every state the three
    revisions reach from boot (whatever byte the EEPROM holds), and each
    operation of hexbright_jrt.ino that returns keeps it so: [setLight] for
    any argument, the overtemperature pass, the once-per-second pass, the
    transition block (also the one of the revision without EEPROM, which
    assigns [lastOnMode] itself) and a pass of [loop]; from a reachable
    state a pass of [loop] does return. *)
Theorem C7_lastOnMode_invariant :
  (forall s, Jrt.reachable s -> valid_lastOn (lastOnMode s))
  /\ (forall s, Part000.reachable s -> valid_lastOn (lastOnMode s))
  /\ (forall s, Part001.reachable s -> valid_lastOn (lastOnMode s))
  /\ (forall rom t0 inp, valid_lastOn (lastOnMode (Jrt.boot rom t0 inp)))
  /\ (forall fuel m s s',
         valid_lastOn (lastOnMode s) -> Jrt.setLight fuel m s = Some s' ->
         valid_lastOn (lastOnMode s'))
  /\ (forall fuel inp s s',
         valid_lastOn (lastOnMode s) ->
         Jrt.checkTemperature fuel inp s = Some s' ->
         valid_lastOn (lastOnMode s'))
  /\ (forall fuel inp s s',
         valid_lastOn (lastOnMode s) ->
         Jrt.oneSecondLoop fuel inp s = Some s' ->
         valid_lastOn (lastOnMode s'))
  /\ (forall fuel time newMode s s',
         valid_lastOn (lastOnMode s) ->
         Jrt.doModeTransition fuel time newMode s = Some s' ->
         valid_lastOn (lastOnMode s'))
  /\ (forall fuel time newMode s s',
         valid_lastOn (lastOnMode s) ->
         Part000.doModeTransition fuel time newMode s = Some s' ->
         valid_lastOn (lastOnMode s'))
  /\ (forall fuel inp s,
         Jrt.reachable s ->
         exists s', Jrt.loop (S (S fuel)) inp s = Some s'
                    /\ valid_lastOn (lastOnMode s')).
Proof.
  repeat apply conj.
  - intros s H. apply (JrtInv.jrt_reachable_well_formed s H).
  - intros s H. apply (Part000Inv.p0_reachable_well_formed s H).
  - apply Part001Inv.p1_reachable_lastOn.
  - intros rom t0 inp. apply (JrtInv.jrt_boot_well_formed rom t0 inp).
  - intros fuel m s s'. apply MemoryFacts.jrt_setLight_valid.
  - intros fuel inp s s'. apply MemoryFacts.jrt_checkTemperature_valid.
  - intros fuel inp s s'. apply MemoryFacts.jrt_oneSecondLoop_valid.
  - intros fuel time newMode s s'.
    apply MemoryFacts.jrt_doModeTransition_valid.
  - intros fuel time newMode s s'.
    apply MemoryFacts.p0_doModeTransition_valid.
  - intros fuel inp s H.
    pose proof (JrtInv.jrt_reachable_well_formed s H) as Hwf.
    destruct (JrtInv.jrt_loop_returns fuel inp s Hwf) as [s' Hs].
    exists s'. split; [exact Hs|].
    apply (JrtInv.jrt_loop_well_formed _ _ _ _ Hwf Hs).
Qed.

(** C7 at concrete states: a boot from the byte 9, a pass of the oldest
    revision, and a pass of hexbright_jrt.ino. *)
Lemma C7_lastOnMode_invariant_witness :
  valid_lastOn (lastOnMode (Jrt.boot 9 0 (quiet true)))
  /\ valid_lastOn (lastOnMode (Part001.loop (quiet false)
                                 (Part001.boot 0 (quiet true))))
  /\ exists s', Jrt.loop 2 (quiet true) (Jrt.boot 9 0 (quiet true)) = Some s'
                /\ valid_lastOn (lastOnMode s').
Proof.
  destruct C7_lastOnMode_invariant
    as (Hj & _ & Hp & _ & _ & _ & _ & _ & _ & Hl).
  split; [apply Hj; apply Jrt.reach_boot|].
  split; [apply Hp; apply Part001.reach_loop; apply Part001.reach_boot|].
  apply Hl. apply Jrt.reach_boot.
Defined.

(** C8. hexbright_jrt.ino.  (1) When the scheduled power-off runs with
    [lastOnMode] High, a boot from the EEPROM it leaves has [lastOnMode]
    High again (and so for Low and Medium).  (2) A stored byte outside
    Low..High, 9 for one, boots to the constant written in [setup], which
    is [MODE_MED].  (3) A pass of [loop] from a well-formed state that does
    not run the power-off leaves the EEPROM and the count of writes alone;
    the power-off leaves them alone when the byte equals [lastOnMode], and
    writes [lastOnMode] once when it differs; [setup] writes nothing. *)
Theorem C8_persistence_round_trip :
  (forall fuel inp s s' t0 inp',
      Jrt.powerOffDue (millis s) s = true ->
      valid_lastOn (lastOnMode s) ->
      Jrt.loop fuel inp s = Some s' ->
      (lastOnMode s = MODE_HIGH ->
       lastOnMode (Jrt.boot (eeprom s') t0 inp') = MODE_HIGH)
      /\ lastOnMode (Jrt.boot (eeprom s') t0 inp') = lastOnMode s)
  /\ (forall rom t0 inp,
         0 <= rom < 256 -> ~ valid_lastOn rom ->
         lastOnMode (Jrt.boot rom t0 inp) = MODE_MED)
  /\ lastOnMode (Jrt.boot 9 0 (quiet true)) = MODE_MED
  /\ (forall fuel inp s s',
         well_formed s -> Jrt.loop fuel inp s = Some s' ->
         (Jrt.powerOffDue (millis s) s = false ->
          eeprom s' = eeprom s /\ eeprom_writes s' = eeprom_writes s)
         /\ (Jrt.powerOffDue (millis s) s = true ->
             eeprom s = lastOnMode s ->
             eeprom s' = eeprom s /\ eeprom_writes s' = eeprom_writes s)
         /\ (Jrt.powerOffDue (millis s) s = true ->
             eeprom s <> lastOnMode s ->
             eeprom s' = lastOnMode s
             /\ eeprom_writes s' = S (eeprom_writes s)))
  /\ (forall rom t0 inp,
         eeprom (Jrt.boot rom t0 inp) = to_byte rom
         /\ eeprom_writes (Jrt.boot rom t0 inp) = 0%nat).
Proof.
  repeat apply conj.
  - intros fuel inp s s' t0 inp' Hd Hv Hs.
    unfold Jrt.loop in Hs. rewrite Hd in Hs. inversion Hs; subst s'.
    rewrite (MemoryFacts.jrt_powerOff_saves s Hv).
    rewrite (MemoryFacts.jrt_boot_restores _ t0 inp' Hv).
    split; auto.
  - apply MemoryFacts.jrt_boot_default.
  - reflexivity.
  - intros fuel inp s s' Hwf Hs. repeat apply conj.
    + intros Hd. eapply MemoryFacts.jrt_loop_store; eassumption.
    + intros Hd He. unfold Jrt.loop in Hs. rewrite Hd in Hs.
      inversion Hs; subst s'.
      apply (proj1 (MemoryFacts.jrt_powerOff_store s) He).
    + intros Hd Hn. unfold Jrt.loop in Hs. rewrite Hd in Hs.
      inversion Hs; subst s'.
      destruct (proj2 (MemoryFacts.jrt_powerOff_store s) Hn) as [He Hw].
      split; [|exact Hw]. rewrite He.
      destruct Hwf as [[Hl Hh] _]. unfold MODE_LOW, MODE_HIGH in *.
      apply to_byte_small. lia.
  - intros rom t0 inp. unfold Jrt.boot, Jrt.setup. cbn.
    destruct (_ || _); split; reflexivity.
Qed.

(** C8 on a light that holds Medium in the EEPROM and High in memory when
    the power-off comes due, and on a boot from the byte 200. *)
Lemma C8_persistence_round_trip_witness :
  (eeprom due_off = MODE_MED /\ lastOnMode due_off = MODE_HIGH
   /\ lastOnMode (Jrt.boot (eeprom (Jrt.powerOff due_off)) 0 (quiet true))
      = MODE_HIGH)
  /\ lastOnMode (Jrt.boot 200 0 (quiet true)) = MODE_MED
  /\ (eeprom (Jrt.powerOff due_off) = MODE_HIGH
      /\ eeprom_writes (Jrt.powerOff due_off) = S (eeprom_writes due_off)).
Proof.
  destruct C8_persistence_round_trip as (Hrt & Hdef & _ & Hst & _).
  assert (Hv : valid_lastOn (lastOnMode due_off)) by (split; discriminate).
  assert (Hwf : well_formed due_off) by (repeat split; discriminate).
  split; [split; [reflexivity|split; [reflexivity|]]|split].
  - apply (proj1 (Hrt 2%nat (quiet false) due_off (Jrt.powerOff due_off)
                    0 (quiet true) eq_refl Hv eq_refl)).
    reflexivity.
  - apply Hdef; [split; [discriminate|reflexivity]|].
    intros [_ Hh]. apply Hh. reflexivity.
  - apply (Hst 2%nat (quiet false) due_off (Jrt.powerOff due_off) Hwf
             eq_refl); [reflexivity|discriminate].
Defined.

(** * Once-per-second pass: motion and temperature *)

Module MotionFacts.
Import Common Jrt Frame.

Lemma jrt_checkNoMotion_fires (fuel : nat) (time : Z) (s : State) :
  time > noAccelShutoffTime s -> mode s <> MODE_OFF ->
  exists s', checkNoMotion (S fuel) time s = Some s' /\ mode s' = MODE_OFF.
Proof.
  intros Ht Hm. unfold checkNoMotion.
  rewrite (gtb_true _ _ Ht). apply Z.eqb_neq in Hm. rewrite Hm. cbn [andb negb].
  destruct (JrtFacts.jrt_setLight_returns_direct fuel MODE_OFF s)
    as [s' Hs]; try discriminate.
  exists s'. split; [exact Hs|].
  apply JrtFacts.jrt_setLight_spec in Hs. destruct Hs as [[] _].
  exact sl_mode0.
Qed.

Lemma jrt_checkNoMotion_waits (fuel : nat) (time : Z) (s : State) :
  time <= noAccelShutoffTime s -> checkNoMotion fuel time s = Some s.
Proof.
  intros Ht. unfold checkNoMotion. rewrite (gtb_false _ _ Ht). reflexivity.
Qed.

Lemma jrt_checkAccel_quiet (inp : Inputs) (s : State) :
  classified inp = false -> checkAccel inp s = s.
Proof.
  unfold classified, checkAccel. intros H.
  destruct (negb (in_acc_int inp)); [|reflexivity].
  cbn in H. apply orb_false_iff in H. destruct H as [A B].
  rewrite A, B. reflexivity.
Qed.

Lemma jrt_checkAccel_resets (inp : Inputs) (s : State) :
  classified inp = true ->
  noAccelShutoffTime (checkAccel inp s)
  = to_ulong (millis s + noAccelShutoffMilliseconds)
  /\ lastAccelTime (checkAccel inp s) = millis s
  /\ untouched s (checkAccel inp s).
Proof.
  unfold classified. intros H. split; [|split].
  3: apply untouched_checkAccel.
  all: unfold checkAccel; destruct (negb (in_acc_int inp)); [|discriminate];
    cbn in H;
    destruct (negb (Z.land (to_byte (in_tilt inp)) 32 =? 0));
    destruct (negb (Z.land (to_byte (in_tilt inp)) 128 =? 0));
    try discriminate; reflexivity.
Qed.

Lemma jrt_checkTemperature_cool (fuel : nat) (inp : Inputs) (s : State) :
  in_temp inp <= OVERTEMP \/ mode s = MODE_OFF ->
  checkTemperature fuel inp s = Some s.
Proof.
  intros [H|H]; unfold checkTemperature.
  - rewrite (gtb_false _ _ H). reflexivity.
  - rewrite H. cbn. rewrite andb_false_r. reflexivity.
Qed.

(** The pass when nothing but the deadline speaks. *)
Lemma jrt_pass_shuts_off (fuel : nat) (inp : Inputs) (s : State) :
  elapsed (millis s) (oneSecondLoopTime s) >= 1000 ->
  in_temp inp <= OVERTEMP -> classified inp = false ->
  millis s > noAccelShutoffTime s -> mode s <> MODE_OFF ->
  exists s', oneSecondLoop (S fuel) inp s = Some s' /\ mode s' = MODE_OFF.
Proof.
  intros Hg Ht Hc Hd Hm. unfold oneSecondLoop.
  replace (elapsed (millis s) (oneSecondLoopTime s) <? 1000) with false
    by (symmetry; apply Z.ltb_ge; lia).
  rewrite jrt_checkTemperature_cool by (left; exact Ht). cbn [bind].
  rewrite jrt_checkAccel_quiet by exact Hc.
  apply jrt_checkNoMotion_fires; assumption.
Qed.

(** The pass that classifies a tap or a shake. *)
Lemma jrt_pass_tap (fuel : nat) (inp : Inputs) (s : State) :
  elapsed (millis s) (oneSecondLoopTime s) >= 1000 ->
  in_temp inp <= OVERTEMP -> classified inp = true ->
  0 <= millis s -> millis s + noAccelShutoffMilliseconds < 2 ^ 32 ->
  exists s', oneSecondLoop fuel inp s = Some s'
             /\ mode s' = mode s
             /\ noAccelShutoffTime s' = millis s + noAccelShutoffMilliseconds.
Proof.
  intros Hg Ht Hc H0 Hw. unfold oneSecondLoop.
  replace (elapsed (millis s) (oneSecondLoopTime s) <? 1000) with false
    by (symmetry; apply Z.ltb_ge; lia).
  rewrite jrt_checkTemperature_cool by (left; exact Ht). cbn [bind].
  match goal with
  | |- context [checkAccel inp ?x] =>
    destruct (jrt_checkAccel_resets inp x Hc) as (Hd & _ & (Hm & _));
      set (s1 := checkAccel inp x) in *
  end.
  cbn in Hd, Hm. unfold millis in *. cbn in Hd.
  rewrite noAccelShutoffMilliseconds_value in *.
  rewrite to_ulong_small in Hd by lia.
  exists s1. split; [|split; assumption].
  apply jrt_checkNoMotion_waits. rewrite Hd. lia.
Qed.

Lemma jrt_transition_resets (fuel : nat) (time : Z) (nb : bool)
      (s s' : State) :
  well_formed s -> buttonStep fuel time nb s = Some s' ->
  mode s' <> mode s ->
  noAccelShutoffTime s' = to_ulong (millis s + noAccelShutoffMilliseconds).
Proof.
  intros Hwf Hs Hne.
  pose proof (JrtInv.jrt_table_range time nb s Hwf) as Hr.
  pose proof (JrtFacts.jrt_checkModeChange_frame time nb s) as Hf.
  unfold buttonStep in Hs.
  destruct (checkModeChange time nb s) as [newMode s1]. cbn in Hr, Hf.
  destruct Hf as (Fm & _ & _ & _ & Fc & _).
  destruct (doModeTransition fuel time newMode s1) as [s2|] eqn:H2;
    [|discriminate].
  cbn in Hs. inversion Hs; subst s'; clear Hs.
  destruct (rememberButton_frame time nb s2) as (Rm & _ & _ & Rd & _).
  rewrite Rm in Hne. rewrite Rd.
  destruct (Z.eq_dec newMode (mode s1)) as [E|E].
  - subst newMode. rewrite JrtFacts.jrt_doModeTransition_same in H2.
    inversion H2; subst s2. congruence.
  - rewrite JrtFacts.jrt_doModeTransition_change in H2 by assumption.
    apply JrtFacts.jrt_setLight_spec in H2. destruct H2 as [[] _].
    rewrite sl_deadline0. cbn. unfold millis. rewrite Fc. reflexivity.
Qed.

(** Where the hypothesis on the counter in [jrt_pass_tap] ends: the
    deadline is an absolute 32-bit time, so a tap classified 1000 ms before
    the counter wraps (49.7 days after reset) sets a deadline that the same
    pass already finds passed. *)
Lemma jrt_tap_at_wrap :
  exists s',
    oneSecondLoop 1 (tap false) (set_clock (2 ^ 32 - 1000) jrt_high) = Some s'
    /\ mode s' = MODE_OFF.
Proof. eexists. split; vm_compute; reflexivity. Qed.

End MotionFacts.

(** C5.  On the 16-bit [int] of the target the initialiser
    [30 * 60 * 1000] of [noAccelShutoffMilliseconds] leaves 30528, not
    1800000: every [resetAccelTimeout] puts the deadline 30528 ms after the
    clock, the deadline right after boot at 0 is 30528, and a light
    switched on in High and left alone is switched off by the pass that
    runs 31 seconds later. *)
Theorem C5_inactivity_window_value :
  Common.noAccelShutoffMilliseconds = 30528
  /\ Common.noAccelShutoffMilliseconds <> 1800000
  /\ (forall s,
         noAccelShutoffTime (Common.resetAccelTimeout s)
         = to_ulong (millis s + 30528))
  /\ noAccelShutoffTime (Jrt.boot MODE_HIGH 0 (quiet true)) = 30528
  /\ (mode jrt_high = MODE_HIGH
      /\ exists s', Jrt.loop 2 (quiet false) (tick 31000 jrt_high) = Some s'
                    /\ mode s' = MODE_OFF).
Proof.
  split; [reflexivity|]. split; [discriminate|].
  split; [intros s; reflexivity|].
  split; [vm_compute; reflexivity|].
  split; [reflexivity|].
  eexists. split; vm_compute; reflexivity.
Qed.

(** * [readAccel] *)

Module AccelFacts.
Import Accel.

Lemma readAccel_one_request (sample : list Z) (rest : list (list Z))
      (acc : list Z) :
  readAccel (sample :: rest) acc
  = Some (snd (forAxes 3 0 (firstn 3 sample) acc), rest).
Proof.
  cbn [readAccel]. unfold whileBody.
  destruct (forAxes 3 0 (firstn 3 sample) acc) as [rx acc']. reflexivity.
Qed.

(** On an answer of three bytes none of which has bit 6 set, the code
    and the worded protocol return the same. *)
Lemma byte_cases (P : Z -> bool) :
  forallb P (map Z.of_nat (seq 0 256)) = true ->
  forall v, 0 <= v < 256 -> P v = true.
Proof.
  intros Hall v Hv. rewrite forallb_forall in Hall. apply Hall.
  apply in_map_iff. exists (Z.to_nat v). split; [lia|].
  apply in_seq. lia.
Qed.

(** Storing a byte in a [char] keeps bits 6 and 5. *)
Lemma char_bit6 (v : Z) :
  0 <= v < 256 -> negb (Z.land (to_char v) 64 =? 0) = failed v.
Proof.
  intros Hv.
  apply Bool.eqb_prop.
  apply (byte_cases
           (fun v => Bool.eqb (negb (Z.land (to_char v) 64 =? 0)) (failed v)));
    [vm_compute; reflexivity|exact Hv].
Qed.

Lemma char_signExtend (v : Z) :
  0 <= v < 256 ->
  (if negb (Z.land (to_char v) 32 =? 0)
   then to_char (Z.lor (to_char v) 192) else to_char v) = signExtend v.
Proof.
  intros Hv. apply Z.eqb_eq.
  apply (byte_cases
           (fun v => (if negb (Z.land (to_char v) 32 =? 0)
                      then to_char (Z.lor (to_char v) 192) else to_char v)
                     =? signExtend v));
    [vm_compute; reflexivity|exact Hv].
Qed.

(** On an answer of three bytes none of which has bit 6 set, the code
    and the worded protocol return the same. *)
Lemma readAccel_clean_agrees (a b c x y z : Z) (rest : list (list Z)) :
  failed a = false -> failed b = false -> failed c = false ->
  0 <= a < 256 -> 0 <= b < 256 -> 0 <= c < 256 ->
  readAccel ([a; b; c] :: rest) [x; y; z]
  = readAccel_spec ([a; b; c] :: rest).
Proof.
  intros Fa Fb Fc Ra Rb Rc.
  rewrite readAccel_one_request.
  cbn [readAccel_spec firstn existsb map]. rewrite Fa, Fb, Fc. cbn [orb].
  rewrite <- (char_signExtend a Ra), <- (char_signExtend b Rb),
    <- (char_signExtend c Rc).
  cbn. rewrite (char_bit6 a Ra), Fa. cbn.
  destruct (negb (Z.land (to_char a) 32 =? 0)); cbn;
    rewrite (char_bit6 b Rb), Fb; cbn;
    destruct (negb (Z.land (to_char b) 32 =? 0)); cbn;
    rewrite (char_bit6 c Rc), Fc; cbn;
    destruct (negb (Z.land (to_char c) 32 =? 0)); reflexivity.
Qed.

End AccelFacts.

(** C6.  [readAccel] never asks twice: the [continue] under "failed read;
    redo!" goes on with the next byte of the [for] loop, and the [while]
    body ends in [break].  Any first answer ends the call.  With the
    answers 40 01 02 then 03 04 05 (hex) it returns the flagged byte 64 of
    the first answer, where the worded protocol returns the second answer;
    a byte with bits 6 and 5 set (60 hex) comes back as 96, not
    sign-extended, next to 25 hex returned as -27. *)
Theorem C6_readAccel_no_retry :
  (forall sample rest acc,
      Accel.readAccel (sample :: rest) acc
      = Some (snd (Accel.forAxes 3 0 (firstn 3 sample) acc), rest))
  /\ Accel.readAccel [[64; 1; 2]; [3; 4; 5]] [0; 0; 0]
     = Some ([64; 1; 2], [[3; 4; 5]])
  /\ Accel.readAccel_spec [[64; 1; 2]; [3; 4; 5]] = Some ([3; 4; 5], [])
  /\ Accel.readAccel [[96; 37; 3]] [0; 0; 0] = Some ([96; -27; 3], []).
Proof.
  split; [apply AccelFacts.readAccel_one_request|].
  repeat split; vm_compute; reflexivity.
Qed.

(** * Overtemperature sequence *)

Module ThermalFacts.
Import Common Frame.

Lemma concat_repeat_snoc (A : Type) (l : list A) (n : nat) :
  l ++ concat (repeat l n) = concat (repeat l n) ++ l.
Proof.
  induction n as [|n IH]; cbn.
  - rewrite app_nil_r. reflexivity.
  - rewrite <- app_assoc. rewrite <- IH. reflexivity.
Qed.

Lemma jrt_setLightLow_out (fuel : nat) (s : State) :
  exists s', Jrt.setLightLow (S fuel) s = Some s'
             /\ trace s' = trace s ++ lightLowEvents
             /\ mode s' = MODE_LOW /\ lastOnMode s' = MODE_LOW
             /\ drv_mode s' = LOW /\ drv_en s' = 64.
Proof.
  eexists. split; [reflexivity|]. cbn.
  rewrite <- !app_assoc. repeat split; reflexivity.
Qed.

Lemma jrt_setLightHigh_out (fuel : nat) (s : State) :
  exists s', Jrt.setLightHigh (S fuel) s = Some s'
             /\ trace s' = trace s ++ lightHighEvents.
Proof.
  eexists. split; [reflexivity|]. cbn.
  rewrite <- !app_assoc. reflexivity.
Qed.

Lemma jrt_overheatBlink_trace (fuel n : nat) :
  forall s, exists s',
      Jrt.overheatBlink (S fuel) n s = Some s'
      /\ trace s' = trace s ++ concat (repeat blinkPhases n).
Proof.
  induction n as [|n IH]; intros s.
  - exists s. split; [reflexivity|]. cbn. rewrite app_nil_r. reflexivity.
  - cbn [Jrt.overheatBlink].
    destruct (jrt_setLightLow_out fuel s) as (s1 & H1 & T1 & _).
    rewrite H1. cbn [bind].
    destruct (jrt_setLightHigh_out fuel (delay 100 s1)) as (s2 & H2 & T2).
    rewrite H2. cbn [bind].
    destruct (IH (delay 100 s2)) as (s3 & H3 & T3).
    exists s3. split; [exact H3|].
    rewrite T3. cbn [trace delay emit set_trace set_clock].
    rewrite T2. cbn [trace delay emit set_trace set_clock].
    rewrite T1. cbn [repeat concat]. unfold blinkPhases at 1.
    repeat rewrite <- app_assoc. reflexivity.
Qed.

Lemma jrt_overheat (fuel : nat) (inp : Inputs) (s : State) :
  in_temp inp > OVERTEMP -> mode s <> MODE_OFF ->
  exists s', Jrt.checkTemperature (S fuel) inp s = Some s'
             /\ trace s' = trace s ++ concat (repeat blinkPhases 6)
                                   ++ lightLowEvents
             /\ mode s' = MODE_LOW /\ lastOnMode s' = MODE_LOW
             /\ drv_mode s' = LOW /\ drv_en s' = 64.
Proof.
  intros Ht Hm. unfold Jrt.checkTemperature.
  rewrite (gtb_true _ _ Ht). apply Z.eqb_neq in Hm. rewrite Hm.
  cbn [andb negb].
  destruct (jrt_overheatBlink_trace fuel 6 s) as (s1 & H1 & T1).
  rewrite H1. cbn [bind].
  destruct (jrt_setLightLow_out fuel s1) as (s2 & H2 & T2 & R).
  exists s2. split; [exact H2|]. split; [|exact R].
  rewrite T2, T1. rewrite <- app_assoc. reflexivity.
Qed.

Lemma p0_setLightLow_out (fuel : nat) (s : State) :
  exists s', Part000.setLightLow (S fuel) s = Some s'
             /\ trace s' = trace s ++ lightLowEvents
             /\ mode s' = MODE_LOW
             /\ drv_mode s' = LOW /\ drv_en s' = 64.
Proof.
  eexists. split; [reflexivity|]. cbn.
  rewrite <- !app_assoc. repeat split; reflexivity.
Qed.

Lemma p0_setLightHigh_out (fuel : nat) (s : State) :
  exists s', Part000.setLightHigh (S fuel) s = Some s'
             /\ trace s' = trace s ++ lightHighEvents.
Proof.
  eexists. split; [reflexivity|]. cbn.
  rewrite <- !app_assoc. reflexivity.
Qed.

Lemma p0_overheatBlink_trace (fuel n : nat) :
  forall s, exists s',
      Part000.overheatBlink (S fuel) n s = Some s'
      /\ trace s' = trace s ++ concat (repeat blinkPhases n).
Proof.
  induction n as [|n IH]; intros s.
  - exists s. split; [reflexivity|]. cbn. rewrite app_nil_r. reflexivity.
  - cbn [Part000.overheatBlink].
    destruct (p0_setLightLow_out fuel s) as (s1 & H1 & T1 & _).
    rewrite H1. cbn [bind].
    destruct (p0_setLightHigh_out fuel (delay 100 s1)) as (s2 & H2 & T2).
    rewrite H2. cbn [bind].
    destruct (IH (delay 100 s2)) as (s3 & H3 & T3).
    exists s3. split; [exact H3|].
    rewrite T3. cbn [trace delay emit set_trace set_clock].
    rewrite T2. cbn [trace delay emit set_trace set_clock].
    rewrite T1. cbn [repeat concat]. unfold blinkPhases at 1.
    repeat rewrite <- app_assoc. reflexivity.
Qed.

Lemma p0_overheat (fuel : nat) (inp : Inputs) (s : State) :
  in_temp inp > OVERTEMP -> mode s <> MODE_OFF ->
  exists s', Part000.checkTemperature (S fuel) inp s = Some s'
             /\ trace s' = trace s ++ concat (repeat blinkPhases 6)
                                   ++ lightLowEvents
             /\ mode s' = MODE_LOW
             /\ drv_mode s' = LOW /\ drv_en s' = 64.
Proof.
  intros Ht Hm. unfold Part000.checkTemperature.
  rewrite (gtb_true _ _ Ht). apply Z.eqb_neq in Hm. rewrite Hm.
  cbn [andb negb].
  destruct (p0_overheatBlink_trace fuel 6 s) as (s1 & H1 & T1).
  rewrite H1. cbn [bind].
  destruct (p0_setLightLow_out fuel s1) as (s2 & H2 & T2 & R).
  exists s2. split; [exact H2|]. split; [|exact R].
  rewrite T2, T1. rewrite <- app_assoc. reflexivity.
Qed.

Lemma p1_overheatBlink_out (n : nat) :
  forall s,
    trace (Part001.overheatBlink n s)
    = trace s ++ concat (repeat blinkPhasesOld n)
    /\ drv_en (Part001.overheatBlink n s) = drv_en s.
Proof.
  induction n as [|n IH]; intros s.
  - cbn. rewrite app_nil_r. split; reflexivity.
  - cbn [Part001.overheatBlink].
    match goal with
    | |- context [Part001.overheatBlink n ?x] => destruct (IH x) as [T E]
    end.
    rewrite T, E. cbn. rewrite <- !app_assoc. split; reflexivity.
Qed.

Lemma p1_overheat (inp : Inputs) (s : State) :
  elapsed (millis s) (oneSecondLoopTime s) > 1000 ->
  in_temp inp > OVERTEMP -> mode s <> MODE_OFF ->
  trace (Part001.oneSecondLoop inp s)
  = trace s ++ concat (repeat blinkPhasesOld 6)
            ++ [EvDigitalWrite DPIN_DRV_MODE LOW;
                EvPinMode DPIN_RLED_SW OUTPUT; EvPinMode DPIN_RLED_SW INPUT]
  /\ mode (Part001.oneSecondLoop inp s) = MODE_LOW
  /\ drv_mode (Part001.oneSecondLoop inp s) = LOW
  /\ drv_en (Part001.oneSecondLoop inp s) = drv_en s.
Proof.
  intros Hg Ht Hm. unfold Part001.oneSecondLoop.
  rewrite (gtb_true _ _ Hg), (gtb_true _ _ Ht).
  apply Z.eqb_neq in Hm. cbn [mode set_oneSecondLoopTime].
  rewrite Hm. cbn [andb negb]. unfold Part001.overheat.
  cbn. repeat rewrite <- app_assoc. repeat split; reflexivity.
Qed.

End ThermalFacts.

(** C9.  A sample above [OVERTEMP] with the mode not Off.
    (1) hexbright_jrt.ino and the revision without EEPROM run exactly six
    times [setLight] Low, 100 ms, [setLight] High, 100 ms, then [setLight]
    Low, and return with the mode Low and the driver lines those of Low.
    (2) The oldest revision, once more than a second has gone by, writes
    the driver-mode line low, waits 100 ms, writes it high, waits 100 ms,
    six times, writes it low and assigns Low to [mode], but never writes
    the enable duty: afterwards the driver lines are those of Low exactly
    when the duty already was 64.  (3) The same revision's own transition
    to Low does write the duty 64 and leaves the lines of Low.  (4) Switched
    on in Medium (driver mode low, duty 255) and sampled at 400, the oldest
    revision ends with [mode] Low on the lines of Medium.  (5) A sample at
    or below the threshold, or a mode that is Off, runs nothing. *)
Theorem C9_overtemperature_response :
  (forall fuel inp s,
      in_temp inp > OVERTEMP -> mode s <> MODE_OFF ->
      (exists s', Jrt.checkTemperature (S fuel) inp s = Some s'
                  /\ trace s' = trace s ++ concat (repeat blinkPhases 6)
                                        ++ lightLowEvents
                  /\ mode s' = MODE_LOW /\ output_matches_mode s')
      /\ (exists s', Part000.checkTemperature (S fuel) inp s = Some s'
                     /\ trace s' = trace s ++ concat (repeat blinkPhases 6)
                                           ++ lightLowEvents
                     /\ mode s' = MODE_LOW /\ output_matches_mode s'))
  /\ (forall inp s,
         in_temp inp > OVERTEMP -> mode s <> MODE_OFF ->
         elapsed (millis s) (oneSecondLoopTime s) > 1000 ->
         trace (Part001.oneSecondLoop inp s)
         = trace s ++ concat (repeat blinkPhasesOld 6)
                   ++ [EvDigitalWrite DPIN_DRV_MODE LOW;
                       EvPinMode DPIN_RLED_SW OUTPUT;
                       EvPinMode DPIN_RLED_SW INPUT]
         /\ mode (Part001.oneSecondLoop inp s) = MODE_LOW
         /\ drv_mode (Part001.oneSecondLoop inp s) = LOW
         /\ drv_en (Part001.oneSecondLoop inp s) = drv_en s
         /\ (output_matches_mode (Part001.oneSecondLoop inp s)
             <-> drv_en s = 64))
  /\ (forall time s,
         mode s <> MODE_LOW ->
         mode (Part001.doModeTransition time MODE_LOW s) = MODE_LOW
         /\ drv_en (Part001.doModeTransition time MODE_LOW s) = 64
         /\ output_matches_mode (Part001.doModeTransition time MODE_LOW s))
  /\ (mode old_medium = MODE_MED
      /\ output_matches_mode old_medium
      /\ mode (Part001.loop (hot false) (tick 1100 old_medium)) = MODE_LOW
      /\ drv_mode (Part001.loop (hot false) (tick 1100 old_medium)) = LOW
      /\ drv_en (Part001.loop (hot false) (tick 1100 old_medium)) = 255
      /\ ~ output_matches_mode
            (Part001.loop (hot false) (tick 1100 old_medium)))
  /\ (forall fuel inp s,
         in_temp inp <= OVERTEMP \/ mode s = MODE_OFF ->
         Jrt.checkTemperature fuel inp s = Some s).
Proof.
  split; [|split; [|split; [|split]]].
  - intros fuel inp s Ht Hm. split.
    + destruct (ThermalFacts.jrt_overheat fuel inp s Ht Hm)
        as (s' & Hs & T & M & _ & D & E).
      exists s'. repeat split; try assumption.
      unfold output_matches_mode. rewrite M, D, E. reflexivity.
    + destruct (ThermalFacts.p0_overheat fuel inp s Ht Hm)
        as (s' & Hs & T & M & D & E).
      exists s'. repeat split; try assumption.
      unfold output_matches_mode. rewrite M, D, E. reflexivity.
  - intros inp s Ht Hm Hg.
    destruct (ThermalFacts.p1_overheat inp s Hg Ht Hm) as (T & M & D & E).
    split; [exact T|]. split; [exact M|]. split; [exact D|].
    split; [exact E|].
    unfold output_matches_mode. rewrite M, D, E. split.
    + intros H. inversion H. reflexivity.
    + intros H. rewrite H. reflexivity.
  - intros time s Hm. unfold Part001.doModeTransition.
    apply Z.eqb_neq in Hm. rewrite Z.eqb_sym in Hm. rewrite Hm.
    split; [reflexivity|]. split; reflexivity.
  - split; [vm_compute; reflexivity|].
    split; [vm_compute; reflexivity|].
    split; [vm_compute; reflexivity|].
    split; [vm_compute; reflexivity|].
    split; [vm_compute; reflexivity|].
    vm_compute. discriminate.
  - apply MotionFacts.jrt_checkTemperature_cool.
Qed.

(** C9 on a light in High (hexbright_jrt.ino) and in Medium (the oldest
    revision). *)
Lemma C9_overtemperature_response_witness :
  (exists s', Jrt.checkTemperature 1 (hot false) jrt_high = Some s'
              /\ trace s' = trace jrt_high ++ concat (repeat blinkPhases 6)
                                           ++ lightLowEvents
              /\ mode s' = MODE_LOW /\ output_matches_mode s')
  /\ mode (Part001.oneSecondLoop (hot false) (tick 1100 old_medium))
     = MODE_LOW
  /\ drv_en (Part001.oneSecondLoop (hot false) (tick 1100 old_medium))
     = drv_en (tick 1100 old_medium)
  /\ Jrt.checkTemperature 1 (quiet false) jrt_high = Some jrt_high.
Proof.
  destruct C9_overtemperature_response as (Hhot & Hold & _ & _ & Hcool).
  assert (Ht : in_temp (hot false) > OVERTEMP) by reflexivity.
  destruct (Hhot 0%nat (hot false) jrt_high Ht) as (Hj & _).
  { discriminate. }
  destruct (Hold (hot false) (tick 1100 old_medium) Ht)
    as (_ & M & _ & E & _).
  { discriminate. }
  { reflexivity. }
  split; [exact Hj|]. split; [exact M|]. split; [exact E|].
  apply Hcool. left. discriminate.
Defined.

(** C10. hexbright_jrt.ino.  Whatever [lastOnMode] held, the
    overtemperature sequence returns with [lastOnMode] Low; a power-off
    from there, directly or after the light has been switched off, leaves
    Low in the EEPROM.  From boot: a light restored to High from the
    EEPROM, overheated once, switched off by the button and powered off
    seven seconds later has Low in the EEPROM and boots to Low. *)
Theorem C10_overtemperature_clobbers_memory :
  (forall fuel inp s,
      in_temp inp > OVERTEMP -> mode s <> MODE_OFF ->
      exists s', Jrt.checkTemperature (S fuel) inp s = Some s'
                 /\ lastOnMode s' = MODE_LOW
                 /\ eeprom (Jrt.powerOff s') = MODE_LOW
                 /\ (forall s'', Jrt.setLightOff (S fuel) s' = Some s'' ->
                                 eeprom (Jrt.powerOff s'') = MODE_LOW))
  /\ (exists s',
         Jrt.run 2 [(10, quiet true); (100, quiet false); (1000, hot false);
                    (100, quiet true); (100, quiet false);
                    (7000, quiet false)]
           (Jrt.boot MODE_HIGH 0 (quiet true)) = Some s'
         /\ eeprom s' = MODE_LOW /\ eeprom_writes s' = 1%nat
         /\ lastOnMode (Jrt.boot (eeprom s') 0 (quiet true)) = MODE_LOW).
Proof.
  split.
  - intros fuel inp s Ht Hm.
    destruct (ThermalFacts.jrt_overheat fuel inp s Ht Hm)
      as (s' & Hs & _ & _ & L & _).
    assert (Hv : valid_lastOn MODE_LOW) by (split; discriminate).
    exists s'. split; [exact Hs|]. split; [exact L|]. split.
    + rewrite MemoryFacts.jrt_powerOff_saves; rewrite L; auto.
    + intros s'' Hoff. apply JrtFacts.jrt_setLight_spec in Hoff.
      destruct Hoff as [_ Hl]. cbn in Hl.
      rewrite MemoryFacts.jrt_powerOff_saves; rewrite Hl, L; auto.
  - eexists. split; [vm_compute; reflexivity|].
    repeat split; vm_compute; reflexivity.
Qed.

(** C10 on a light whose stored brightness is High. *)
Lemma C10_overtemperature_clobbers_memory_witness :
  lastOnMode jrt_high = MODE_HIGH
  /\ exists s', Jrt.checkTemperature 1 (hot false) jrt_high = Some s'
                /\ lastOnMode s' = MODE_LOW
                /\ eeprom (Jrt.powerOff s') = MODE_LOW.
Proof.
  split; [reflexivity|].
  destruct C10_overtemperature_clobbers_memory as [H _].
  destruct (H 0%nat (hot false) jrt_high) as (s' & Hs & L & E & _).
  - reflexivity.
  - discriminate.
  - exists s'. split; [exact Hs|]. split; assumption.
Defined.

(** * Further properties: the transition tables *)

Module ButtonExtra.
Import Common.

Ltac ifs :=
  repeat match goal with
         | |- context [if ?b then _ else _] => destruct b
         end.

Lemma jrt_table_idle (time : Z) (nb : bool) (s : State) :
  btnDown s = false -> Jrt.checkModeChange time nb s = (mode s, s).
Proof.
  intros Hb. unfold Jrt.checkModeChange. rewrite Hb. cbn. ifs; reflexivity.
Qed.

Lemma p0_table_idle (time : Z) (nb : bool) (s : State) :
  btnDown s = false -> Part000.checkModeChange time nb s = (mode s, s).
Proof.
  intros Hb. unfold Part000.checkModeChange. rewrite Hb. cbn.
  ifs; reflexivity.
Qed.

Lemma p1_table_idle (time : Z) (nb : bool) (s : State) :
  btnDown s = false -> Part001.checkModeChange time nb s = (mode s, s).
Proof.
  intros Hb. unfold Part001.checkModeChange. rewrite Hb. cbn.
  ifs; reflexivity.
Qed.

Lemma p1_doModeTransition_same (time : Z) (s : State) :
  Part001.doModeTransition time (mode s) s = s.
Proof. unfold Part001.doModeTransition. rewrite Z.eqb_refl. reflexivity. Qed.

Lemma jrt_table_bounce (time : Z) (s : State) :
  bounce time s -> Jrt.checkModeChange time false s = (mode s, s).
Proof.
  unfold Jrt.checkModeChange.
  intros [[Hm Hh]|[[Hm|[Hm|[Hm|Hm]]] Hh]]; rewrite Hm; cbn;
    rewrite (gtb_false _ _ Hh); rewrite ?andb_false_r; cbn;
    rewrite ?andb_false_r; reflexivity.
Qed.

Lemma p0_table_bounce (time : Z) (s : State) :
  bounce time s -> Part000.checkModeChange time false s = (mode s, s).
Proof.
  unfold Part000.checkModeChange.
  intros [[Hm Hh]|[[Hm|[Hm|[Hm|Hm]]] Hh]]; rewrite Hm; cbn;
    rewrite (gtb_false _ _ Hh); rewrite ?andb_false_r; cbn;
    rewrite ?andb_false_r; reflexivity.
Qed.

Lemma p1_table_bounce (time : Z) (s : State) :
  bounce time s -> Part001.checkModeChange time false s = (mode s, s).
Proof.
  unfold Part001.checkModeChange.
  intros [[Hm Hh]|[[Hm|[Hm|[Hm|Hm]]] Hh]]; rewrite Hm; cbn;
    rewrite (gtb_false _ _ Hh); rewrite ?andb_false_r; cbn;
    rewrite ?andb_false_r; reflexivity.
Qed.

Lemma p1_buttonStep_stay (time : Z) (nb : bool) (s : State) :
  Part001.checkModeChange time nb s = (mode s, s) ->
  Part001.buttonStep time nb s = rememberButton time nb s.
Proof.
  intros Hc. unfold Part001.buttonStep. rewrite Hc.
  rewrite p1_doModeTransition_same. reflexivity.
Qed.

End ButtonExtra.

(** X1.  While the tracked button state is up, the transition table of
    each revision keeps the mode whatever level is sampled: a press edge
    alone never changes the light.  The button-driven part of [loop] then
    only records the sample. *)
Theorem X1_press_edge_changes_nothing :
  forall (fuel : nat) (time : Z) (nb : bool) (s : State),
    btnDown s = false ->
    Jrt.buttonStep fuel time nb s = Some (Common.rememberButton time nb s)
    /\ Part000.buttonStep fuel time nb s
       = Some (Common.rememberButton time nb s)
    /\ Part001.buttonStep time nb s = Common.rememberButton time nb s
    /\ mode (Common.rememberButton time nb s) = mode s
    /\ lastOnMode (Common.rememberButton time nb s) = lastOnMode s
    /\ lastModeTime (Common.rememberButton time nb s) = lastModeTime s
    /\ btnDown (Common.rememberButton time nb s) = nb.
Proof.
  intros fuel time nb s Hb.
  destruct (rememberButton_frame time nb s) as (Rm & Rl & Rt & _ & _ & _ & Rb).
  split; [apply JrtFacts.jrt_buttonStep_stay, ButtonExtra.jrt_table_idle, Hb|].
  split; [apply Part000Facts.p0_buttonStep_stay, ButtonExtra.p0_table_idle, Hb|].
  split; [apply ButtonExtra.p1_buttonStep_stay, ButtonExtra.p1_table_idle, Hb|].
  auto.
Qed.

(** X1 on hexbright_jrt.ino just booted, the button read down. *)
Lemma X1_press_edge_changes_nothing_witness :
  Jrt.buttonStep 0 10 true (Jrt.boot MODE_HIGH 0 (quiet true))
  = Some (Common.rememberButton 10 true (Jrt.boot MODE_HIGH 0 (quiet true)))
  /\ mode (Common.rememberButton 10 true (Jrt.boot MODE_HIGH 0 (quiet true)))
     = MODE_OFF.
Proof.
  destruct (X1_press_edge_changes_nothing 0%nat 10 true
              (Jrt.boot MODE_HIGH 0 (quiet true)) eq_refl)
    as (H1 & _ & _ & H4 & _).
  split; [exact H1|exact H4].
Defined.

(** X2.  Debounce: a release held at most 20 ms in Off, or at most 50 ms
    in Low, Medium, High or Blinking, changes no mode in any revision; the
    pass only records that the button is up. *)
Theorem X2_short_release_ignored :
  forall (fuel : nat) (time : Z) (s : State),
    bounce time s ->
    Jrt.buttonStep fuel time false s
    = Some (Common.rememberButton time false s)
    /\ Part000.buttonStep fuel time false s
       = Some (Common.rememberButton time false s)
    /\ Part001.buttonStep time false s = Common.rememberButton time false s
    /\ mode (Common.rememberButton time false s) = mode s
    /\ lastOnMode (Common.rememberButton time false s) = lastOnMode s.
Proof.
  intros fuel time s Hb.
  destruct (rememberButton_frame time false s) as (Rm & Rl & _).
  split; [apply JrtFacts.jrt_buttonStep_stay, ButtonExtra.jrt_table_bounce, Hb|].
  split; [apply Part000Facts.p0_buttonStep_stay,
            ButtonExtra.p0_table_bounce, Hb|].
  split; [apply ButtonExtra.p1_buttonStep_stay,
            ButtonExtra.p1_table_bounce, Hb|].
  auto.
Qed.

(** X2 on a release 20 ms after the press, from Off. *)
Lemma X2_short_release_ignored_witness :
  Jrt.buttonStep 0 620 false pressed_again
  = Some (Common.rememberButton 620 false pressed_again)
  /\ mode (Common.rememberButton 620 false pressed_again) = MODE_OFF.
Proof.
  assert (Hb : bounce 620 pressed_again).
  { left. split; [reflexivity|]. vm_compute. discriminate. }
  destruct (X2_short_release_ignored 0%nat 620 pressed_again Hb)
    as (H1 & _ & _ & H4 & _).
  split; [exact H1|exact H4].
Defined.

(** X3.  Brightness cycle of the oldest revision, on a release edge: from
    Off, held more than 20 ms and more than 2500 ms after the last mode
    change, the mode becomes [lastOnMode]; from Low (Medium), held more
    than 50 ms, it becomes Medium (High) up to 5000 ms after the last
    change and Off later; from High it becomes Off. *)
Theorem X3_old_brightness_cycle :
  forall (time : Z) (s : State),
    btnDown s = true ->
    (mode s = MODE_OFF -> elapsed time (btnTime s) > 20 ->
     elapsed time (lastModeTime s) > 2500 ->
     mode (Part001.buttonStep time false s) = lastOnMode s)
    /\ (mode s = MODE_LOW -> elapsed time (btnTime s) > 50 ->
        mode (Part001.buttonStep time false s)
        = if elapsed time (lastModeTime s) >? 5000
          then MODE_OFF else MODE_MED)
    /\ (mode s = MODE_MED -> elapsed time (btnTime s) > 50 ->
        mode (Part001.buttonStep time false s)
        = if elapsed time (lastModeTime s) >? 5000
          then MODE_OFF else MODE_HIGH)
    /\ (mode s = MODE_HIGH -> elapsed time (btnTime s) > 50 ->
        mode (Part001.buttonStep time false s) = MODE_OFF).
Proof.
  intros time s Hb. repeat apply conj; intros Hm Hh;
    [intros Hd|..]; rewrite Part001Facts.p1_buttonStep_mode;
    unfold Part001.checkModeChange; rewrite Hm, Hb; cbn;
    rewrite ?(gtb_true _ _ Hh); cbn.
  - rewrite (gtb_true _ _ Hd). reflexivity.
  - destruct (_ >? _); reflexivity.
  - destruct (_ >? _); reflexivity.
  - reflexivity.
Qed.

(** X3 on the oldest revision in Medium: a release 500 ms after switching
    on gives High, one 6 s after gives Off. *)
Lemma X3_old_brightness_cycle_witness :
  mode (Part001.buttonStep 3500 false (set_btnDown true old_medium))
  = MODE_HIGH
  /\ mode (Part001.buttonStep 9000 false (set_btnDown true old_medium))
     = MODE_OFF.
Proof.
  destruct (X3_old_brightness_cycle 3500 (set_btnDown true old_medium)
              eq_refl) as (_ & _ & H1 & _).
  destruct (X3_old_brightness_cycle 9000 (set_btnDown true old_medium)
              eq_refl) as (_ & _ & H2 & _).
  split.
  - rewrite H1; [vm_compute; reflexivity|reflexivity|reflexivity].
  - rewrite H2; [vm_compute; reflexivity|reflexivity|reflexivity].
Defined.

(** * Further properties: a pass of [loop] in hexbright_jrt.ino *)

Module PassExtra.
Import Common Jrt.

Ltac ifs :=
  repeat match goal with
         | |- context [if ?b then _ else _] => destruct b
         end.

Lemma to_ulong_range (x : Z) : 0 <= to_ulong x < 2 ^ 32.
Proof. unfold to_ulong, wrap_unsigned. apply Z.mod_pos_bound. lia. Qed.

Lemma to_ulong_add (a b : Z) : to_ulong (to_ulong a + b) = to_ulong (a + b).
Proof. unfold to_ulong, wrap_unsigned. apply Zplus_mod_idemp_l. Qed.

Lemma checkChargeState_view (inp : Inputs) (s : State) :
  view (checkChargeState inp s) = view s
  /\ lastModeTime (checkChargeState inp s) = lastModeTime s.
Proof. unfold checkChargeState. ifs; split; reflexivity. Qed.

Lemma blinkOutput_view (time : Z) (s : State) :
  view (blinkOutput time s) = view s.
Proof. unfold blinkOutput. ifs; reflexivity. Qed.

Lemma checkAccel_view (inp : Inputs) (s : State) :
  view (checkAccel inp s) = view s.
Proof. unfold checkAccel. ifs; reflexivity. Qed.

Lemma jrt_setLight_view (fuel : nat) (m : Z) (s s' : State) :
  setLight fuel m s = Some s' ->
  btnDown s' = btnDown s /\ btnTime s' = btnTime s /\ clock s' = clock s.
Proof.
  intros H. apply JrtFacts.jrt_setLight_spec in H. destruct H as [[] _].
  auto.
Qed.

Lemma jrt_overheatBlink_clock (fuel n : nat) :
  forall s s',
    overheatBlink fuel n s = Some s' ->
    btnDown s' = btnDown s /\ btnTime s' = btnTime s
    /\ to_ulong (clock s') = to_ulong (clock s + 200 * Z.of_nat n)
    /\ (n <> O -> 0 <= clock s' < 2 ^ 32).
Proof.
  induction n as [|n IH]; intros s s' H; cbn [overheatBlink] in H.
  - inversion H; subst. change (200 * Z.of_nat 0) with 0.
    rewrite Z.add_0_r.
    split; [reflexivity|]. split; [reflexivity|]. split; [reflexivity|].
    intros N. contradiction.
  - destruct (setLightLow fuel s) as [s1|] eqn:H1; [|discriminate].
    cbn [bind] in H.
    destruct (setLightHigh fuel (delay 100 s1)) as [s2|] eqn:H2;
      [|discriminate].
    cbn [bind] in H.
    apply jrt_setLight_view in H1. destruct H1 as (B1 & T1 & C1).
    apply jrt_setLight_view in H2. destruct H2 as (B2 & T2 & C2).
    destruct (IH _ _ H) as (B3 & T3 & C3 & R3).
    cbn [btnDown btnTime clock delay emit set_trace set_clock]
      in B2, T2, C2, B3, T3, C3.
    split; [congruence|]. split; [congruence|]. split.
    + rewrite C3, C2, C1. rewrite to_ulong_add, <- Z.add_assoc, to_ulong_add.
      f_equal. lia.
    + intros _. destruct n as [|n'].
      * cbn in H. inversion H; subst. cbn. apply to_ulong_range.
      * apply R3. discriminate.
Qed.

(** Buttons and clock across [checkTemperature]. *)
Lemma jrt_checkTemperature_clock (fuel : nat) (inp : Inputs) (s s' : State) :
  0 <= clock s < 2 ^ 32 ->
  checkTemperature fuel inp s = Some s' ->
  btnDown s' = btnDown s /\ btnTime s' = btnTime s
  /\ clock s' = if (in_temp inp >? OVERTEMP) && negb (mode s =? MODE_OFF)
                then to_ulong (clock s + 1200) else clock s.
Proof.
  intros Hr. unfold checkTemperature.
  destruct ((in_temp inp >? OVERTEMP) && negb (mode s =? MODE_OFF)).
  - destruct (overheatBlink fuel 6 s) as [s1|] eqn:H1; [|discriminate].
    cbn [bind]. intros H2.
    apply jrt_overheatBlink_clock in H1. destruct H1 as (B1 & T1 & C1 & R1).
    apply jrt_setLight_view in H2. destruct H2 as (B2 & T2 & C2).
    split; [congruence|]. split; [congruence|].
    rewrite C2. rewrite <- (to_ulong_small (clock s1)) by (apply R1; discriminate).
    rewrite C1. reflexivity.
  - intros H. inversion H; subst. auto.
Qed.

Lemma jrt_oneSecondLoop_clock (fuel : nat) (inp : Inputs) (s s' : State) :
  0 <= clock s < 2 ^ 32 ->
  oneSecondLoop fuel inp s = Some s' ->
  btnDown s' = btnDown s /\ btnTime s' = btnTime s
  /\ clock s' = if overheats inp s then to_ulong (clock s + 1200)
                else clock s.
Proof.
  intros Hr. unfold oneSecondLoop, overheats.
  destruct (elapsed (millis s) (oneSecondLoopTime s) <? 1000).
  - intros H. inversion H; subst. auto.
  - cbn [negb andb].
    destruct (checkTemperature fuel inp _) as [s1|] eqn:H1; [|discriminate].
    cbn [bind]. intros H2.
    apply jrt_checkTemperature_clock in H1; [|exact Hr].
    cbn in H1. destruct H1 as (B1 & T1 & C1).
    unfold checkNoMotion in H2.
    match type of H2 with
    | context [checkAccel inp ?x] =>
      pose proof (checkAccel_view inp x) as V; set (s2 := checkAccel inp x) in *
    end.
    assert (Vb : btnDown s2 = btnDown s1
                 /\ btnTime s2 = btnTime s1 /\ clock s2 = clock s1).
    { unfold view in V. injection V. cbn. auto. }
    destruct Vb as (Vb & Vt & Vc).
    destruct (_ && _) in H2.
    + apply jrt_setLight_view in H2. destruct H2 as (B2 & T2 & C2).
      split; [congruence|]. split; [congruence|]. congruence.
    + inversion H2; subst s'.
      split; [congruence|]. split; [congruence|]. congruence.
Qed.

(** Buttons and clock across the button-driven part. *)
Lemma jrt_buttonStep_clock (fuel : nat) (time : Z) (nb : bool) (s s' : State) :
  buttonStep fuel time nb s = Some s' ->
  btnDown s' = nb
  /\ btnTime s' = (if negb (Bool.eqb nb (btnDown s)) then time else btnTime s)
  /\ clock s' = (if negb (Bool.eqb nb (btnDown s))
                 then to_ulong (clock s + 50) else clock s).
Proof.
  unfold buttonStep.
  pose proof (JrtFacts.jrt_checkModeChange_frame time nb s) as Hf.
  destruct (checkModeChange time nb s) as [newMode s1]. cbn in Hf.
  destruct Hf as (_ & _ & Fb & Ft & Fc & _).
  destruct (doModeTransition fuel time newMode s1) as [s2|] eqn:H2;
    [|discriminate].
  cbn [bind]. intros H. inversion H; subst s'; clear H.
  assert (V : btnDown s2 = btnDown s /\ btnTime s2 = btnTime s
              /\ clock s2 = clock s).
  { unfold doModeTransition in H2.
    destruct (negb (newMode =? mode s1));
      [|inversion H2; subst; auto].
    repeat match type of H2 with
           | context [if ?b then _ else _] => destruct b
           end;
      try (apply jrt_setLight_view in H2; cbn in H2;
           destruct H2 as (A & B & C); repeat split; congruence).
    inversion H2; subst. cbn. auto. }
  destruct V as (Vb & Vt & Vc).
  unfold rememberButton. rewrite Vb.
  destruct (negb (Bool.eqb nb (btnDown s))) eqn:E; cbn.
  - rewrite Vc. auto.
  - apply negb_false_iff in E. apply Bool.eqb_prop in E.
    repeat split; congruence.
Qed.

(** The three lines [setLight] settles. *)
Lemma jrt_setLight_lines (fuel : nat) (m : Z) (s s' : State) :
  0 <= m <= 5 -> valid_lastOn (lastOnMode s) ->
  setLight fuel m s = Some s' ->
  driver_lines (if MODE_BLINKING <=? m then lastOnMode s else m)
  = Some (drv_mode s', drv_en s')
  /\ poweringOffTime s'
     = (if m =? MODE_OFF then to_ulong (millis s + 6000) else 0)
  /\ pwr s' = (if m =? MODE_OFF then pwr s else true).
Proof.
  intros Hr [Hl Hh] H. unfold MODE_LOW, MODE_HIGH in *.
  destruct fuel as [|fuel]; [discriminate|].
  assert (m = 0 \/ m = 1 \/ m = 2 \/ m = 3 \/ m = 4 \/ m = 5) as Hc by lia.
  assert (lastOnMode s = 1 \/ lastOnMode s = 2 \/ lastOnMode s = 3)
    as Hv by lia.
  destruct Hc as [E|[E|[E|[E|[E|E]]]]]; subst m.
  1-4: cbn in H; inversion H; subst s'; repeat split; reflexivity.
  all: cbn [setLight] in H; cbn in H;
    destruct fuel as [|fuel]; [discriminate|];
    destruct Hv as [E|[E|E]]; rewrite E in *; cbn in H;
    inversion H; subst s'; repeat split; reflexivity.
Qed.

End PassExtra.

Module PassExtra2.
Import Common Jrt PassExtra.

Lemma view_eq (a b : State) :
  view a = view b ->
  btnDown a = btnDown b /\ btnTime a = btnTime b /\ clock a = clock b
  /\ oneSecondLoopTime a = oneSecondLoopTime b /\ mode a = mode b.
Proof. unfold view. intros V. injection V. auto. Qed.

Lemma overheats_view (inp : Inputs) (s1 s : State) :
  view s1 = view s -> overheats inp s1 = overheats inp s.
Proof.
  intros V. apply view_eq in V. destruct V as (_ & _ & Vc & Vg & Vm).
  unfold overheats, millis. rewrite Vc, Vg, Vm. reflexivity.
Qed.

Lemma jrt_loop_timing (fuel : nat) (inp : Inputs) (s s' : State) :
  0 <= clock s < 2 ^ 32 ->
  powerOffDue (millis s) s = false ->
  loop fuel inp s = Some s' ->
  clock s' = to_ulong (clock s + pause inp s)
  /\ btnDown s' = in_button inp
  /\ btnTime s' = (if edge inp s then millis s else btnTime s).
Proof.
  intros Hr Hd. unfold loop. rewrite Hd.
  destruct (checkChargeState_view inp s) as [V0 _].
  destruct (view_eq _ _ V0) as (Vb & Vt & Vc & _).
  destruct (oneSecondLoop fuel inp (checkChargeState inp s)) as [s1|] eqn:H1;
    [|discriminate].
  cbn [bind]. intros H2.
  apply jrt_oneSecondLoop_clock in H1; [|rewrite Vc; exact Hr].
  rewrite (overheats_view _ _ _ V0) in H1.
  destruct H1 as (B1 & T1 & C1).
  apply jrt_buttonStep_clock in H2.
  destruct (view_eq _ _ (blinkOutput_view (millis s) s1))
    as (Wb & Wt & Wc & _).
  rewrite Wb, Wt, Wc in H2. destruct H2 as (B2 & T2 & C2).
  rewrite B1, Vb in T2, C2. rewrite T1, Vt in T2. rewrite C1, Vc in C2.
  unfold pause, edge.
  split; [|split; assumption].
  rewrite C2.
  destruct (overheats inp s);
    destruct (negb (Bool.eqb (in_button inp) (btnDown s)));
    rewrite ?to_ulong_add; try reflexivity.
  - f_equal. lia.
  - change (0 + 0) with 0. rewrite Z.add_0_r. symmetry.
    apply to_ulong_small. exact Hr.
Qed.

End PassExtra2.

(** X4.  [setLight] of hexbright_jrt.ino, called with a mode in 0..5 while
    [lastOnMode] is in Low..High, returns within two levels of the
    recursion and leaves the driver lines of that mode (of the stored
    brightness for the two blinking values).  For Off it schedules the
    power-off 6000 ms ahead on the 32-bit clock and leaves the power latch
    as it was; for every other mode it cancels the schedule and latches
    power. *)
Theorem X4_setLight_lines_and_schedule :
  forall (fuel : nat) (m : Z) (s : State),
    0 <= m <= 5 -> valid_lastOn (lastOnMode s) ->
    exists s',
      Jrt.setLight (S (S fuel)) m s = Some s'
      /\ driver_lines (if MODE_BLINKING <=? m then lastOnMode s else m)
         = Some (drv_mode s', drv_en s')
      /\ poweringOffTime s'
         = (if m =? MODE_OFF then to_ulong (millis s + 6000) else 0)
      /\ pwr s' = (if m =? MODE_OFF then pwr s else true).
Proof.
  intros fuel m s Hr Hv.
  destruct (JrtFacts.jrt_setLight_returns fuel m s Hv) as [s' Hs].
  exists s'. split; [exact Hs|].
  apply (PassExtra.jrt_setLight_lines _ _ _ _ Hr Hv Hs).
Qed.

(** X4 on a light in High asked to blink, and asked to go off. *)
Lemma X4_setLight_lines_and_schedule_witness :
  (exists s', Jrt.setLight 2 MODE_BLINKING jrt_high = Some s'
              /\ drv_mode s' = HIGH /\ poweringOffTime s' = 0)
  /\ (exists s', Jrt.setLight 2 MODE_OFF jrt_high = Some s'
                 /\ drv_en s' = 0 /\ poweringOffTime s' = 6210).
Proof.
  assert (Hv : valid_lastOn (lastOnMode jrt_high)) by (split; discriminate).
  destruct (X4_setLight_lines_and_schedule 0%nat MODE_BLINKING jrt_high)
    as (s1 & H1 & L1 & P1 & _); [split; discriminate|exact Hv|].
  destruct (X4_setLight_lines_and_schedule 0%nat MODE_OFF jrt_high)
    as (s2 & H2 & L2 & P2 & _); [split; discriminate|exact Hv|].
  split.
  - exists s1. split; [exact H1|]. cbn in L1, P1. inversion L1. auto.
  - exists s2. split; [exact H2|]. cbn in L2, P2. inversion L2. auto.
Defined.

(** X5.  A pass of [loop] in hexbright_jrt.ino from a well-formed state
    that does not run the power-off returns (two levels of [setLight]
    suffice) and blocks for exactly 1200 ms if the overtemperature
    sequence runs, plus 50 ms if the sampled button level differs from
    the tracked one, and for no time otherwise (32-bit clock).  It ends
    with the sampled level tracked, and stamps [btnTime] with the time
    read at the head of the pass exactly when the level changed. *)
Theorem X5_pass_pauses_and_button_tracking :
  forall (fuel : nat) (inp : Inputs) (s : State),
    well_formed s ->
    0 <= clock s < 2 ^ 32 ->
    Jrt.powerOffDue (millis s) s = false ->
    exists s',
      Jrt.loop (S (S fuel)) inp s = Some s'
      /\ clock s' = to_ulong (clock s + pause inp s)
      /\ btnDown s' = in_button inp
      /\ btnTime s' = (if edge inp s then millis s else btnTime s).
Proof.
  intros fuel inp s Hwf Hc Hd.
  destruct (JrtInv.jrt_loop_returns fuel inp s Hwf) as [s' Hs].
  exists s'. split; [exact Hs|].
  apply (PassExtra2.jrt_loop_timing _ inp s s' Hc Hd Hs).
Qed.

(** X5 on a light in High, one second on, with a hot sample and the
    button pressed: the pass takes 1250 ms. *)
Lemma X5_pass_pauses_and_button_tracking_witness :
  exists s',
    Jrt.loop 2 (hot true) (tick 1000 jrt_high) = Some s'
    /\ clock s' = 2460 /\ btnDown s' = true /\ btnTime s' = 1210.
Proof.
  destruct (X5_pass_pauses_and_button_tracking 0%nat (hot true)
              (tick 1000 jrt_high)) as (s' & Hs & C & B & T).
  - split; [split|split]; vm_compute; discriminate.
  - split; vm_compute; [discriminate|reflexivity].
  - vm_compute. reflexivity.
  - exists s'. split; [exact Hs|].
    rewrite C, B, T. split; [|split]; vm_compute; reflexivity.
Defined.

(** * Further properties: invariants of hexbright_jrt.ino *)

Module SteadyExtra.
Import Common Jrt Frame.

Ltac ifs :=
  repeat match goal with
         | |- context [if ?b then _ else _] => destruct b
         end.

Lemma light_eq (a b : State) :
  light a = light b ->
  mode a = mode b /\ lastOnMode a = lastOnMode b
  /\ poweringOffTime a = poweringOffTime b
  /\ drv_mode a = drv_mode b /\ drv_en a = drv_en b /\ pwr a = pwr b.
Proof. unfold light. intros V. injection V. auto 10. Qed.

Lemma steady_same (s s' : State) : light s' = light s -> steady s -> steady s'.
Proof.
  intros V. apply light_eq in V.
  destruct V as (Vm & Vl & Vp & Vd & Ve & Vw).
  unfold steady, well_formed, output_matches_mode.
  rewrite Vm, Vl, Vp, Vd, Ve, Vw. auto.
Qed.

Lemma light_checkChargeState (inp : Inputs) (s : State) :
  light (checkChargeState inp s) = light s.
Proof. unfold checkChargeState. ifs; reflexivity. Qed.

Lemma light_checkAccel (inp : Inputs) (s : State) :
  light (checkAccel inp s) = light s.
Proof. unfold checkAccel. ifs; reflexivity. Qed.

Lemma light_rememberButton (time : Z) (nb : bool) (s : State) :
  light (rememberButton time nb s) = light s.
Proof. unfold rememberButton. ifs; reflexivity. Qed.

Lemma light_table (time : Z) (nb : bool) (s : State) :
  light (snd (checkModeChange time nb s)) = light s.
Proof. unfold checkModeChange. ifs; reflexivity. Qed.

Lemma jrt_setLight_steady (fuel : nat) (m : Z) (s s' : State) :
  0 <= m <= 5 -> well_formed s -> setLight fuel m s = Some s' -> steady s'.
Proof.
  intros Hr Hwf H.
  pose proof (JrtInv.jrt_setLight_keeps fuel m s s' Hr H) as (K & _).
  destruct (PassExtra.jrt_setLight_lines fuel m s s' Hr (proj1 Hwf) H)
    as (L & P & W).
  apply JrtFacts.jrt_setLight_spec in H. destruct H as [[] _].
  unfold steady. split; [apply K, Hwf|]. split.
  - intros Hm. rewrite P, W.
    destruct (m =? MODE_OFF) eqn:E; [|split; reflexivity].
    apply Z.eqb_eq in E. subst m. rewrite sl_mode0 in Hm.
    exfalso. apply Hm. reflexivity.
  - intros Hm. unfold output_matches_mode. rewrite <- L, sl_mode0.
    rewrite sl_mode0 in Hm. unfold collapse, MODE_HIGH, MODE_BLINKING,
      MODE_BLINKING_PREVIEW in *.
    destruct (m =? 5) eqn:E5; [lia|].
    replace (4 <=? m) with false; [reflexivity|].
    symmetry. apply Z.leb_gt. lia.
Qed.

Lemma jrt_overheatBlink_steady (fuel n : nat) :
  forall s s', steady s -> overheatBlink fuel n s = Some s' -> steady s'.
Proof.
  induction n as [|n IH]; intros s s' Hs H; cbn [overheatBlink] in H.
  - inversion H; subst; exact Hs.
  - destruct (setLightLow fuel s) as [s1|] eqn:H1; [|discriminate].
    cbn [bind] in H.
    destruct (setLightHigh fuel (delay 100 s1)) as [s2|] eqn:H2;
      [|discriminate].
    cbn [bind] in H.
    apply jrt_setLight_steady in H1; [|unfold MODE_LOW; lia|apply Hs].
    assert (S1 : steady (delay 100 s1))
      by (apply (steady_same s1); [reflexivity|exact H1]).
    apply jrt_setLight_steady in H2; [|unfold MODE_HIGH; lia|apply S1].
    apply (IH (delay 100 s2)); [|exact H].
    apply (steady_same s2); [reflexivity|exact H2].
Qed.

Lemma jrt_checkTemperature_steady (fuel : nat) (inp : Inputs) (s s' : State) :
  steady s -> checkTemperature fuel inp s = Some s' -> steady s'.
Proof.
  intros Hs. unfold checkTemperature.
  destruct ((in_temp inp >? OVERTEMP) && negb (mode s =? MODE_OFF)).
  - destruct (overheatBlink fuel 6 s) as [s1|] eqn:H1; [|discriminate].
    cbn [bind]. apply jrt_setLight_steady; [unfold MODE_LOW; lia|].
    apply (jrt_overheatBlink_steady _ _ _ _ Hs H1).
  - intros H; inversion H; subst; exact Hs.
Qed.

Lemma jrt_oneSecondLoop_steady (fuel : nat) (inp : Inputs) (s s' : State) :
  steady s -> oneSecondLoop fuel inp s = Some s' -> steady s'.
Proof.
  intros Hs. unfold oneSecondLoop.
  destruct (elapsed (millis s) (oneSecondLoopTime s) <? 1000).
  - intros H; inversion H; subst; exact Hs.
  - destruct (checkTemperature fuel inp _) as [s1|] eqn:H1; [|discriminate].
    cbn [bind].
    apply jrt_checkTemperature_steady in H1;
      [|apply (steady_same s); [reflexivity|exact Hs]].
    match goal with
    | |- context [checkAccel inp ?x] =>
      assert (S2 : steady (checkAccel inp x))
        by (apply (steady_same s1);
            [rewrite light_checkAccel; reflexivity|exact H1]);
        set (s2 := checkAccel inp x) in *
    end.
    unfold checkNoMotion. destruct (_ && _).
    + apply jrt_setLight_steady; [unfold MODE_OFF; lia|apply S2].
    + intros H; inversion H; subst; exact S2.
Qed.

Lemma jrt_buttonStep_steady (fuel : nat) (time : Z) (nb : bool)
      (s s' : State) :
  steady s -> buttonStep fuel time nb s = Some s' -> steady s'.
Proof.
  intros Hs.
  pose proof (JrtInv.jrt_table_range time nb s (proj1 Hs)) as Hr.
  pose proof (light_table time nb s) as Hl.
  unfold buttonStep.
  destruct (checkModeChange time nb s) as [newMode s1]. cbn in Hr, Hl.
  assert (S1 : steady s1) by (apply (steady_same s); assumption).
  destruct (doModeTransition fuel time newMode s1) as [s2|] eqn:H2;
    [|discriminate].
  cbn [bind]. intros H. inversion H; subst s'; clear H.
  apply (steady_same s2); [apply light_rememberButton|].
  destruct (Z.eq_dec newMode (mode s1)) as [E|E].
  - subst newMode. rewrite JrtFacts.jrt_doModeTransition_same in H2.
    inversion H2; subst. exact S1.
  - rewrite JrtFacts.jrt_doModeTransition_change in H2 by assumption.
    apply jrt_setLight_steady in H2; [exact H2|exact Hr|].
    apply (steady_same s1); [reflexivity|exact S1].
Qed.

Lemma jrt_blinkOutput_steady (time : Z) (s : State) :
  steady s -> steady (blinkOutput time s).
Proof.
  intros (Hwf & Hp & Ho). unfold blinkOutput.
  destruct ((mode s =? MODE_BLINKING) || (mode s =? MODE_BLINKING_PREVIEW))
    eqn:E; [|exact (conj Hwf (conj Hp Ho))].
  split; [exact Hwf|]. split; [exact Hp|].
  cbn. intros Hm. exfalso.
  apply orb_true_iff in E. destruct E as [E|E]; apply Z.eqb_eq in E;
    rewrite E in Hm;
    unfold MODE_BLINKING, MODE_BLINKING_PREVIEW, MODE_HIGH in Hm; lia.
Qed.

(** A power-off that is due finds the light Off. *)
Lemma jrt_due_is_off (time : Z) (s : State) :
  steady s -> powerOffDue time s = true -> mode s = MODE_OFF.
Proof.
  intros (_ & Hp & _) Hd. unfold powerOffDue in Hd.
  apply andb_true_iff in Hd. destruct Hd as [Hd _].
  apply gtb_true_inv in Hd.
  destruct (Z.eq_dec (mode s) MODE_OFF) as [E|E]; [exact E|].
  rewrite (proj1 (Hp E)) in Hd. lia.
Qed.

Lemma jrt_powerOff_steady (time : Z) (s : State) :
  steady s -> powerOffDue time s = true -> steady (powerOff s).
Proof.
  intros Hs Hd. pose proof (jrt_due_is_off time s Hs Hd) as Hm.
  destruct Hs as (Hwf & Hp & _).
  assert (V : mode (powerOff s) = mode s
              /\ lastOnMode (powerOff s) = lastOnMode s
              /\ poweringOffTime (powerOff s) = poweringOffTime s
              /\ drv_mode (powerOff s) = LOW /\ drv_en (powerOff s) = 0).
  { unfold powerOff. ifs; repeat split; reflexivity. }
  destruct V as (Vm & Vl & Vp & Vd & Ve).
  unfold steady, well_formed, output_matches_mode.
  rewrite Vm, Vl, Vp, Vd, Ve, Hm.
  split; [rewrite <- Hm; exact Hwf|]. split; [intros N; contradiction|].
  reflexivity.
Qed.

Lemma jrt_loop_steady (fuel : nat) (inp : Inputs) (s s' : State) :
  steady s -> loop fuel inp s = Some s' -> steady s'.
Proof.
  intros Hs. unfold loop.
  destruct (powerOffDue (millis s) s) eqn:Hd.
  - intros H; inversion H; subst.
    apply (jrt_powerOff_steady (millis s)); assumption.
  - destruct (oneSecondLoop fuel inp _) as [s1|] eqn:H1; [|discriminate].
    cbn [bind]. intros H2.
    apply jrt_oneSecondLoop_steady in H1;
      [|apply (steady_same s); [apply light_checkChargeState|exact Hs]].
    apply (jrt_buttonStep_steady _ _ _ _ _
             (jrt_blinkOutput_steady (millis s) s1 H1) H2).
Qed.

Lemma jrt_boot_steady (rom t0 : Z) (inp : Inputs) :
  steady (boot rom t0 inp).
Proof.
  split; [apply JrtInv.jrt_boot_well_formed|].
  unfold boot, setup. cbn.
  destruct (_ || _); split; intros H; try reflexivity;
    exfalso; apply H; reflexivity.
Qed.

Lemma jrt_run_reachable (fuel : nat) (script : list (Z * Inputs)) :
  forall s s', reachable s -> run fuel script s = Some s' -> reachable s'.
Proof.
  induction script as [|[dt inp] rest IH]; intros s s' Hr H; cbn [run] in H.
  - inversion H; subst; exact Hr.
  - destruct (loop fuel inp (tick dt s)) as [s1|] eqn:H1; [|discriminate].
    cbn [bind] in H. apply (IH s1); [|exact H].
    apply (reach_loop (tick dt s) fuel inp s1); [|exact H1].
    apply reach_tick. exact Hr.
Qed.

Lemma jrt_high_reachable : reachable jrt_high.
Proof.
  apply (jrt_run_reachable 2 [(10, quiet true); (100, quiet false)]
           (boot MODE_HIGH 0 (quiet true))).
  - apply reach_boot.
  - exact jrt_high_run.
Qed.

Lemma jrt_reachable_steady (s : State) : reachable s -> steady s.
Proof.
  induction 1 as [rom t0 inp | s dt _ IH | s fuel inp s' _ IH Hl].
  - apply jrt_boot_steady.
  - apply (steady_same s); [reflexivity|exact IH].
  - eapply jrt_loop_steady; eassumption.
Qed.

End SteadyExtra.

(** X6.  In hexbright_jrt.ino the delayed power-off never comes due while
    the light is on: in every state reached from boot with a mode other
    than Off nothing is scheduled and the power latch is held, so whatever
    the clock shows the next pass of [loop] is not the power-off. *)
Theorem X6_no_power_off_while_on :
  forall (s : State) (time : Z),
    Jrt.reachable s -> mode s <> MODE_OFF ->
    poweringOffTime s = 0 /\ pwr s = true
    /\ Jrt.powerOffDue time s = false.
Proof.
  intros s time Hr Hm.
  destruct (SteadyExtra.jrt_reachable_steady s Hr) as (_ & Hp & _).
  destruct (Hp Hm) as [P W]. split; [exact P|]. split; [exact W|].
  unfold Jrt.powerOffDue. rewrite P. reflexivity.
Qed.

(** X6 on the light switched on in High. *)
Lemma X6_no_power_off_while_on_witness :
  poweringOffTime jrt_high = 0 /\ pwr jrt_high = true
  /\ Jrt.powerOffDue 4000000 jrt_high = false.
Proof.
  apply (X6_no_power_off_while_on jrt_high 4000000
           SteadyExtra.jrt_high_reachable).
  discriminate.
Defined.

(** X7.  In hexbright_jrt.ino, in every state reached from boot whose mode
    is Off, Low, Medium or High, the driver-mode level and the enable duty
    are the ones [setLight] writes for that mode. *)
Theorem X7_driver_lines_follow_mode :
  forall (s : State),
    Jrt.reachable s -> mode s <= MODE_HIGH -> output_matches_mode s.
Proof.
  intros s Hr Hm.
  destruct (SteadyExtra.jrt_reachable_steady s Hr) as (_ & _ & Ho).
  apply Ho. exact Hm.
Qed.

(** X7 on the light switched on in High. *)
Lemma X7_driver_lines_follow_mode_witness : output_matches_mode jrt_high.
Proof.
  apply (X7_driver_lines_follow_mode jrt_high SteadyExtra.jrt_high_reachable).
  discriminate.
Defined.

(** * Further properties: power-off, rest, and the hot pass *)

Module RunExtra.
Import Common Jrt.

Ltac ifs :=
  repeat match goal with
         | |- context [if ?b then _ else _] => destruct b
         end.

Lemma span_nonneg (script : list (Z * Inputs)) :
  Forall (fun p => 0 <= fst p) script -> 0 <= span script.
Proof.
  induction 1 as [|[dt inp] rest Hd _ IH]; cbn in *; lia.
Qed.

Lemma jrt_powerOff_keeps (s : State) :
  mode (powerOff s) = mode s /\ lastOnMode (powerOff s) = lastOnMode s
  /\ poweringOffTime (powerOff s) = poweringOffTime s
  /\ clock (powerOff s) = clock s.
Proof. unfold powerOff. ifs; repeat split; reflexivity. Qed.

(** Once the power-off is due it stays due and nothing else runs. *)
Lemma jrt_power_off_final (fuel : nat) (script : list (Z * Inputs)) :
  forall s,
    valid_lastOn (lastOnMode s) ->
    0 < poweringOffTime s < clock s ->
    Forall (fun p => 0 <= fst p) script ->
    clock s + span script < 2 ^ 32 ->
    exists s',
      run fuel script s = Some s'
      /\ mode s' = mode s /\ lastOnMode s' = lastOnMode s
      /\ clock s' = clock s + span script
      /\ (eeprom s = lastOnMode s ->
          eeprom s' = eeprom s /\ eeprom_writes s' = eeprom_writes s)
      /\ (eeprom_writes s' <= S (eeprom_writes s))%nat
      /\ (script <> [] -> eeprom s' = lastOnMode s).
Proof.
  induction script as [|[dt inp] rest IH]; intros s Hv Hp Hf Hw.
  - exists s. cbn. rewrite Z.add_0_r.
    repeat (split; [auto|]). intros N. exfalso. apply N. reflexivity.
  - inversion Hf as [|p l Hdt Hrest]; subst. cbn in Hdt. cbn [span] in Hw.
    assert (Hc : clock (tick dt s) = clock s + dt).
    { cbn. apply to_ulong_small. pose proof (span_nonneg rest Hrest).
      lia. }
    assert (Hd : powerOffDue (millis (tick dt s)) (tick dt s) = true).
    { unfold powerOffDue, millis. rewrite Hc. cbn.
      rewrite !gtb_true by lia. reflexivity. }
    cbn [run]. unfold loop. rewrite Hd. cbn [bind].
    set (s1 := powerOff (tick dt s)).
    destruct (jrt_powerOff_keeps (tick dt s)) as (Km & Kl & Kp & Kc).
    fold s1 in Km, Kl, Kp, Kc. cbn in Km, Kl, Kp. rewrite Hc in Kc.
    destruct (MemoryFacts.jrt_powerOff_store (tick dt s)) as [Seq Sne].
    fold s1 in Seq, Sne. cbn in Seq, Sne.
    pose proof (MemoryFacts.jrt_powerOff_saves (tick dt s) Hv) as Ssave.
    fold s1 in Ssave. cbn in Ssave.
    destruct (IH s1) as (s' & Hrun & Rm & Rl & Rc & Req & Rle & _).
    + rewrite Kl. exact Hv.
    + rewrite Kp, Kc. clear - Hp Hdt. lia.
    + exact Hrest.
    + rewrite Kc. clear - Hw. lia.
    + destruct Req as [Re Rw]; [rewrite Kl; exact Ssave|].
      exists s'. split; [exact Hrun|].
      split; [congruence|]. split; [congruence|].
      split; [rewrite Rc, Kc; cbn [span]; lia|].
      split.
      * intros E. destruct (Seq E) as [E1 E2]. split; congruence.
      * split.
        -- rewrite Rw. destruct (Z.eq_dec (eeprom s) (lastOnMode s)) as [E|E].
           ++ destruct (Seq E) as [_ E2]. rewrite E2. lia.
           ++ destruct (Sne E) as [_ E2]. rewrite E2. lia.
        -- intros _. rewrite Re. exact Ssave.
Qed.

(** The once-per-second pass when nothing calls for action. *)
Lemma jrt_oneSecondLoop_calm (fuel : nat) (inp : Inputs) (s : State) :
  in_temp inp <= OVERTEMP \/ mode s = MODE_OFF ->
  classified inp = false ->
  millis s <= noAccelShutoffTime s \/ mode s = MODE_OFF ->
  exists s', oneSecondLoop fuel inp s = Some s'
             /\ light s' = light s /\ view s' = 
                (btnDown s, btnTime s, clock s, oneSecondLoopTime s', mode s)
             /\ noAccelShutoffTime s' = noAccelShutoffTime s.
Proof.
  intros Ht Hc Hd. unfold oneSecondLoop.
  destruct (elapsed (millis s) (oneSecondLoopTime s) <? 1000).
  - exists s. repeat split; reflexivity.
  - rewrite MotionFacts.jrt_checkTemperature_cool by exact Ht.
    cbn [bind]. rewrite MotionFacts.jrt_checkAccel_quiet by exact Hc.
    eexists. split.
    + unfold checkNoMotion. cbn.
      destruct Hd as [Hd|Hd].
      * rewrite (gtb_false _ _ Hd). reflexivity.
      * rewrite Hd. cbn. rewrite andb_false_r. reflexivity.
    + repeat split; reflexivity.
Qed.

(** Fields the indicator and the blink output leave alone. *)
Lemma calm_checkChargeState (inp : Inputs) (s : State) :
  let s' := checkChargeState inp s in
  noAccelShutoffTime s' = noAccelShutoffTime s
  /\ lastModeTime s' = lastModeTime s.
Proof. unfold checkChargeState. ifs; split; reflexivity. Qed.

Lemma calm_blinkOutput (time : Z) (s : State) :
  let s' := blinkOutput time s in
  mode s' = mode s /\ lastOnMode s' = lastOnMode s
  /\ poweringOffTime s' = poweringOffTime s
  /\ noAccelShutoffTime s' = noAccelShutoffTime s
  /\ lastModeTime s' = lastModeTime s /\ btnDown s' = btnDown s.
Proof. unfold blinkOutput. ifs; repeat split; reflexivity. Qed.

Lemma jrt_loop_rest (fuel : nat) (inp : Inputs) (s : State) :
  powerOffDue (millis s) s = false -> btnDown s = false ->
  in_temp inp <= OVERTEMP \/ mode s = MODE_OFF ->
  classified inp = false ->
  millis s <= noAccelShutoffTime s \/ mode s = MODE_OFF ->
  exists s', loop fuel inp s = Some s'
             /\ mode s' = mode s /\ lastOnMode s' = lastOnMode s
             /\ poweringOffTime s' = poweringOffTime s
             /\ noAccelShutoffTime s' = noAccelShutoffTime s
             /\ lastModeTime s' = lastModeTime s.
Proof.
  intros Hd Hb Ht Hc Hn. unfold loop. rewrite Hd.
  set (s0 := checkChargeState inp s).
  destruct (SteadyExtra.light_eq _ _ (SteadyExtra.light_checkChargeState inp s))
    as (Lm & Ll & Lp & _).
  destruct (PassExtra2.view_eq _ _ (proj1 (PassExtra.checkChargeState_view inp s)))
    as (Vb & _ & Vc & _).
  destruct (calm_checkChargeState inp s) as (Cd & Ct).
  fold s0 in Lm, Ll, Lp, Vb, Vc, Cd, Ct.
  destruct (jrt_oneSecondLoop_calm fuel inp s0) as (s1 & H1 & L1 & V1 & D1).
  { rewrite Lm. exact Ht. }
  { exact Hc. }
  { unfold millis. rewrite Vc, Cd, Lm. exact Hn. }
  rewrite H1. cbn [bind].
  destruct (SteadyExtra.light_eq _ _ L1) as (Mm & Ml & Mp & _).
  assert (Mb : btnDown s1 = btnDown s0).
  { unfold view in V1. injection V1. auto. }
  assert (Mt : lastModeTime s1 = lastModeTime s0).
  { revert H1. unfold oneSecondLoop.
    destruct (elapsed (millis s0) (oneSecondLoopTime s0) <? 1000).
    - intros H; inversion H; reflexivity.
    - rewrite MotionFacts.jrt_checkTemperature_cool
        by (cbn; rewrite Lm; exact Ht).
      cbn [bind]. rewrite MotionFacts.jrt_checkAccel_quiet by exact Hc.
      unfold checkNoMotion. destruct (_ && _).
      + intros H. apply JrtFacts.jrt_setLight_spec in H.
        destruct H as [[] _]. assumption.
      + intros H; inversion H; reflexivity. }
  destruct (calm_blinkOutput (millis s) s1) as (Bm & Bl & Bp & Bd & Bt & Bb).
  set (s2 := blinkOutput (millis s) s1) in *.
  assert (Hidle : btnDown s2 = false) by congruence.
  rewrite (JrtFacts.jrt_buttonStep_stay fuel (millis s) (in_button inp) s2
             (ButtonExtra.jrt_table_idle _ _ _ Hidle)).
  eexists. split; [reflexivity|].
  destruct (rememberButton_frame (millis s) (in_button inp) s2)
    as (Rm & Rl & Rt & Rd & _).
  destruct (SteadyExtra.light_eq _ _
              (SteadyExtra.light_rememberButton (millis s) (in_button inp) s2))
    as (_ & _ & Rp & _).
  repeat split; congruence.
Qed.

(** The hot pass: the sequence runs, the deadline moves. *)
Lemma jrt_checkTemperature_deadline (fuel : nat) (inp : Inputs)
      (s s' : State) :
  in_temp inp > OVERTEMP -> mode s <> MODE_OFF ->
  checkTemperature fuel inp s = Some s' ->
  noAccelShutoffTime s' = to_ulong (clock s' + noAccelShutoffMilliseconds).
Proof.
  intros Ht Hm. unfold checkTemperature.
  rewrite (gtb_true _ _ Ht). apply Z.eqb_neq in Hm. rewrite Hm.
  cbn [andb negb].
  destruct (overheatBlink fuel 6 s) as [s1|]; [|discriminate].
  cbn [bind]. intros H. apply JrtFacts.jrt_setLight_spec in H.
  destruct H as [[] _]. rewrite sl_deadline0, sl_clock0. reflexivity.
Qed.

Lemma jrt_hot_pass (fuel : nat) (inp : Inputs) (s : State) :
  elapsed (millis s) (oneSecondLoopTime s) >= 1000 ->
  in_temp inp > OVERTEMP -> mode s <> MODE_OFF ->
  classified inp = false ->
  0 <= clock s ->
  clock s + 1200 + noAccelShutoffMilliseconds < 2 ^ 32 ->
  exists s', oneSecondLoop (S fuel) inp s = Some s'
             /\ mode s' = MODE_LOW
             /\ noAccelShutoffTime s'
                = clock s + 1200 + noAccelShutoffMilliseconds.
Proof.
  intros Hg Ht Hm Hc H0 Hw. rewrite noAccelShutoffMilliseconds_value in *.
  unfold oneSecondLoop.
  replace (elapsed (millis s) (oneSecondLoopTime s) <? 1000) with false
    by (symmetry; apply Z.ltb_ge; lia).
  set (s0 := set_oneSecondLoopTime (millis s) s).
  destruct (ThermalFacts.jrt_overheat fuel inp s0 Ht Hm)
    as (s1 & H1 & _ & M1 & _).
  rewrite H1. cbn [bind].
  rewrite MotionFacts.jrt_checkAccel_quiet by exact Hc.
  pose proof (jrt_checkTemperature_deadline (S fuel) inp s0 s1 Ht Hm H1)
    as D1.
  rewrite noAccelShutoffMilliseconds_value in D1.
  apply PassExtra.jrt_checkTemperature_clock in H1; [|cbn; lia].
  destruct H1 as (_ & _ & C1). cbn in C1.
  rewrite (gtb_true _ _ Ht) in C1. apply Z.eqb_neq in Hm. rewrite Hm in C1.
  cbn in C1. rewrite to_ulong_small in C1 by lia.
  rewrite C1 in D1. rewrite to_ulong_small in D1 by lia.
  exists (pinMode DPIN_RLED_SW INPUT (pinMode DPIN_RLED_SW OUTPUT s1)).
  split; [|split; [exact M1|exact D1]].
  apply MotionFacts.jrt_checkNoMotion_waits. cbn. rewrite D1.
  unfold millis. lia.
Qed.

Lemma jrt_loop_eeprom (fuel : nat) (inp : Inputs) (s s' : State) :
  well_formed s -> loop fuel inp s = Some s' ->
  eeprom s' = eeprom s \/ valid_lastOn (eeprom s').
Proof.
  intros Hwf H. destruct (powerOffDue (millis s) s) eqn:Hd.
  - unfold loop in H. rewrite Hd in H. inversion H; subst s'.
    right. rewrite MemoryFacts.jrt_powerOff_saves; apply Hwf.
  - left. apply (MemoryFacts.jrt_loop_store fuel inp s s' Hwf Hd H).
Qed.

Lemma jrt_run_eeprom (fuel : nat) (script : list (Z * Inputs)) :
  forall s s',
    well_formed s -> run fuel script s = Some s' ->
    eeprom s' = eeprom s \/ valid_lastOn (eeprom s').
Proof.
  induction script as [|[dt inp] rest IH]; intros s s' Hwf H; cbn [run] in H.
  - inversion H; subst. left. reflexivity.
  - destruct (loop fuel inp (tick dt s)) as [s1|] eqn:H1; [|discriminate].
    cbn [bind] in H.
    assert (W0 : well_formed (tick dt s)) by exact Hwf.
    pose proof (JrtInv.jrt_loop_well_formed _ _ _ _ W0 H1) as W1.
    destruct (IH s1 s' W1 H) as [E|V]; [|right; exact V].
    destruct (jrt_loop_eeprom _ _ _ _ W0 H1) as [E1|V1].
    + left. rewrite E, E1. reflexivity.
    + right. rewrite E. exact V1.
Qed.

End RunExtra.

(** * The once-per-second work in closed form, and the counter's wrap *)

Module WrapFacts.
Import Common Jrt.

Lemma checkAccel_rest (inp : Inputs) (s : State) :
  clock (checkAccel inp s) = clock s /\ mode (checkAccel inp s) = mode s.
Proof.
  unfold checkAccel.
  repeat match goal with
         | |- context [if ?b then _ else _] => destruct b
         end; split; reflexivity.
Qed.

(** [checkTemperature], whichever way it goes. *)
Lemma jrt_temperature_stage (fuel : nat) (inp : Inputs) (s : State) :
  0 <= clock s < 2 ^ 32 ->
  exists s1,
    checkTemperature (S fuel) inp s = Some s1
    /\ clock s1 = to_ulong (clock s + pass_pause inp s)
    /\ mode s1 = pass_mode inp s
    /\ noAccelShutoffTime s1
       = (if runs_hot inp s
          then to_ulong (clock s + pass_pause inp s
                         + noAccelShutoffMilliseconds)
          else noAccelShutoffTime s).
Proof.
  intros Hr. unfold pass_pause, pass_mode.
  destruct (runs_hot inp s) eqn:Eh.
  - pose proof Eh as Eh2. unfold runs_hot in Eh2.
    pose proof Eh2 as Eh3.
    apply andb_true_iff in Eh3. destruct Eh3 as [Et Em].
    apply gtb_true_inv in Et. apply negb_true_iff in Em.
    apply Z.eqb_neq in Em.
    destruct (ThermalFacts.jrt_overheat fuel inp s Et Em)
      as (s1 & H1 & _ & M1 & _).
    exists s1. split; [exact H1|].
    pose proof (RunExtra.jrt_checkTemperature_deadline _ inp s s1 Et Em H1)
      as D1.
    destruct (PassExtra.jrt_checkTemperature_clock _ inp s s1 Hr H1)
      as (_ & _ & C1).
    rewrite Eh2 in C1.
    split; [exact C1|]. split; [exact M1|].
    rewrite D1, C1. apply PassExtra.to_ulong_add.
  - exists s. split.
    + apply MotionFacts.jrt_checkTemperature_cool.
      unfold runs_hot in Eh. apply andb_false_iff in Eh.
      destruct Eh as [E|E].
      * left. apply gtb_false_inv. exact E.
      * right. apply negb_false_iff in E. apply Z.eqb_eq. exact E.
    + rewrite Z.add_0_r, to_ulong_small by exact Hr.
      split; [reflexivity|]. split; reflexivity.
Qed.

(** The whole of [oneSecondLoop] once a second has gone by. *)
Lemma jrt_oneSecondLoop_law (fuel : nat) (inp : Inputs) (s : State) :
  elapsed (millis s) (oneSecondLoopTime s) >= 1000 ->
  0 <= clock s < 2 ^ 32 ->
  exists s',
    oneSecondLoop (S fuel) inp s = Some s'
    /\ clock s' = to_ulong (clock s + pass_pause inp s)
    /\ mode s' = (if shutoff_fires inp s then MODE_OFF else pass_mode inp s)
    /\ noAccelShutoffTime s'
       = (if shutoff_fires inp s
          then to_ulong (clock s + pass_pause inp s
                         + noAccelShutoffMilliseconds)
          else pass_deadline inp s).
Proof.
  intros Hg Hr. unfold oneSecondLoop.
  replace (elapsed (millis s) (oneSecondLoopTime s) <? 1000) with false
    by (symmetry; apply Z.ltb_ge; lia).
  destruct (jrt_temperature_stage fuel inp
              (set_oneSecondLoopTime (millis s) s) Hr)
    as (s1 & H1 & C1 & M1 & D1).
  change (runs_hot inp (set_oneSecondLoopTime (millis s) s))
    with (runs_hot inp s) in D1.
  change (pass_pause inp (set_oneSecondLoopTime (millis s) s))
    with (pass_pause inp s) in C1, D1.
  change (pass_mode inp (set_oneSecondLoopTime (millis s) s))
    with (pass_mode inp s) in M1.
  change (clock (set_oneSecondLoopTime (millis s) s)) with (clock s)
    in C1, D1.
  rewrite H1. cbn [bind].
  set (s2 := pinMode DPIN_RLED_SW INPUT (pinMode DPIN_RLED_SW OUTPUT s1)).
  assert (C2 : clock s2 = clock s1) by reflexivity.
  assert (M2 : mode s2 = mode s1) by reflexivity.
  assert (D2 : noAccelShutoffTime s2 = noAccelShutoffTime s1) by reflexivity.
  destruct (checkAccel_rest inp s2) as (C3 & M3).
  assert (D3 : noAccelShutoffTime (checkAccel inp s2) = pass_deadline inp s).
  { unfold pass_deadline. destruct (classified inp) eqn:Ec.
    - rewrite orb_true_r.
      destruct (MotionFacts.jrt_checkAccel_resets inp s2 Ec) as (D & _).
      rewrite D. unfold millis. rewrite C2, C1.
      apply PassExtra.to_ulong_add.
    - rewrite orb_false_r.
      rewrite (MotionFacts.jrt_checkAccel_quiet inp s2 Ec), D2. exact D1. }
  set (s3 := checkAccel inp s2) in *.
  assert (F : (millis s >? noAccelShutoffTime s3)
              && negb (mode s3 =? MODE_OFF) = shutoff_fires inp s).
  { unfold shutoff_fires, millis. rewrite D3, M3, M2, M1. reflexivity. }
  unfold checkNoMotion. rewrite F.
  destruct (shutoff_fires inp s).
  - destruct (JrtFacts.jrt_setLight_returns_direct fuel MODE_OFF s3)
      as [s4 H4]; try discriminate.
    exists s4. split; [exact H4|].
    apply JrtFacts.jrt_setLight_spec in H4. destruct H4 as [[] _].
    rewrite sl_clock0, sl_mode0, sl_deadline0, C3, C2, C1.
    split; [reflexivity|]. split; [reflexivity|].
    apply PassExtra.to_ulong_add.
  - exists s3. split; [reflexivity|].
    rewrite C3, C2, M3, M2. split; [exact C1|]. split; [exact M1|exact D3].
Qed.

(** The new deadline against the time the test compares it with: ahead
    while the sum fits 32 bits, behind once it wraps. *)
Lemma deadline_cases (c p : Z) :
  0 <= c < 2 ^ 32 -> 0 <= p <= 1200 ->
  (c + p + noAccelShutoffMilliseconds < 2 ^ 32 ->
   (c >? to_ulong (c + p + noAccelShutoffMilliseconds)) = false)
  /\ (2 ^ 32 <= c + p + noAccelShutoffMilliseconds ->
      (c >? to_ulong (c + p + noAccelShutoffMilliseconds)) = true).
Proof.
  intros Hc Hp. rewrite noAccelShutoffMilliseconds_value. split; intros H.
  - rewrite to_ulong_small by lia. apply gtb_false. lia.
  - assert (E : to_ulong (c + p + 30528) = c + p + 30528 - 2 ^ 32).
    { unfold to_ulong, wrap_unsigned.
      symmetry. apply (Z.mod_unique _ _ 1); lia. }
    rewrite E. apply gtb_true. lia.
Qed.

Lemma pass_pause_range (inp : Inputs) (s : State) :
  0 <= pass_pause inp s <= 1200.
Proof. unfold pass_pause. destruct (runs_hot inp s); lia. Qed.

(** A pass that classifies a tap or a shake. *)
Lemma jrt_pass_tap_law (fuel : nat) (inp : Inputs) (s : State) :
  elapsed (millis s) (oneSecondLoopTime s) >= 1000 ->
  classified inp = true ->
  0 <= clock s < 2 ^ 32 ->
  exists s',
    oneSecondLoop (S fuel) inp s = Some s'
    /\ noAccelShutoffTime s'
       = to_ulong (clock s + pass_pause inp s + noAccelShutoffMilliseconds)
    /\ (clock s + pass_pause inp s + noAccelShutoffMilliseconds < 2 ^ 32 ->
        mode s' = pass_mode inp s)
    /\ (2 ^ 32 <= clock s + pass_pause inp s + noAccelShutoffMilliseconds ->
        mode s' = MODE_OFF).
Proof.
  intros Hg Hc Hr.
  destruct (jrt_oneSecondLoop_law fuel inp s Hg Hr) as (s' & H & _ & M & D).
  destruct (deadline_cases (clock s) (pass_pause inp s) Hr
              (pass_pause_range inp s)) as (Lo & Hi).
  assert (Pd : pass_deadline inp s
               = to_ulong (clock s + pass_pause inp s
                           + noAccelShutoffMilliseconds)).
  { unfold pass_deadline. rewrite Hc, orb_true_r. reflexivity. }
  exists s'. split; [exact H|]. split; [|split].
  - rewrite D, Pd. destruct (shutoff_fires inp s); reflexivity.
  - intros Hn. rewrite M. unfold shutoff_fires. rewrite Pd, (Lo Hn).
    reflexivity.
  - intros Hw. rewrite M. unfold shutoff_fires. rewrite Pd, (Hi Hw).
    cbn [andb]. destruct (pass_mode inp s =? MODE_OFF) eqn:E;
      [|reflexivity].
    cbn [negb]. apply Z.eqb_eq. exact E.
Qed.

(** The hot pass without tap or shake. *)
Lemma jrt_hot_pass_law (fuel : nat) (inp : Inputs) (s : State) :
  elapsed (millis s) (oneSecondLoopTime s) >= 1000 ->
  in_temp inp > OVERTEMP -> mode s <> MODE_OFF ->
  0 <= clock s < 2 ^ 32 ->
  exists s',
    oneSecondLoop (S fuel) inp s = Some s'
    /\ clock s' = to_ulong (clock s + 1200)
    /\ noAccelShutoffTime s'
       = to_ulong (clock s + 1200 + noAccelShutoffMilliseconds)
    /\ mode s' = (if clock s + 1200 + noAccelShutoffMilliseconds <? 2 ^ 32
                  then MODE_LOW else MODE_OFF).
Proof.
  intros Hg Ht Hm Hr.
  destruct (jrt_oneSecondLoop_law fuel inp s Hg Hr) as (s' & H & C & M & D).
  assert (Eh : runs_hot inp s = true).
  { unfold runs_hot. rewrite (gtb_true _ _ Ht).
    apply Z.eqb_neq in Hm. rewrite Hm. reflexivity. }
  assert (Hp : 0 <= 1200 <= 1200) by lia.
  destruct (deadline_cases (clock s) 1200 Hr Hp) as (Lo & Hi).
  unfold shutoff_fires, pass_deadline, pass_mode, pass_pause in *.
  rewrite Eh in *. cbn [orb] in *.
  exists s'. split; [exact H|]. split; [exact C|]. split.
  - rewrite D.
    match goal with
    | |- context [if ?b then _ else _] => destruct b
    end; reflexivity.
  - rewrite M.
    destruct (clock s + 1200 + noAccelShutoffMilliseconds <? 2 ^ 32) eqn:E.
    + apply Z.ltb_lt in E. rewrite (Lo E). reflexivity.
    + apply Z.ltb_ge in E. rewrite (Hi E). reflexivity.
Qed.

End WrapFacts.

(** C4. hexbright_jrt.ino.  (1) The inactivity test of the once-per-second
    pass, reached with its time past [noAccelShutoffTime] and the mode not
    Off, returns with the mode Off; so does the whole pass when a second
    has gone by since the last one, the temperature is not above the
    threshold and no tap or shake is classified.  The test sits in
    [oneSecondLoop], outside the transition table.  (2) A classified tap
    or shake, every returning [setLight], and so every button-driven mode
    change from a well-formed state, set [noAccelShutoffTime] to the clock
    plus [noAccelShutoffMilliseconds] as an unsigned 32-bit sum.  (3) The
    test compares the absolute time read at the head of the pass with that
    sum.  A pass that classifies a tap or a shake, whatever the
    temperature and the old deadline, returns with the deadline moved;
    while the sum fits 32 bits the mode is the one the temperature check
    left (the shutoff is suppressed); once the sum wraps, the pass itself
    forces the mode to Off.  (4) No test at or before the deadline changes
    anything.  (5) From boot: a light switched on in High 40 s before the
    counter wraps and tapped 15 s later is Off after that pass with the
    deadline at 5728, while the same run without the tap is still in
    High. *)
Theorem C4_motion_auto_shutoff :
  (forall fuel time s,
      time > noAccelShutoffTime s -> mode s <> MODE_OFF ->
      exists s', Jrt.checkNoMotion (S fuel) time s = Some s'
                 /\ mode s' = MODE_OFF)
  /\ (forall fuel inp s,
         elapsed (millis s) (oneSecondLoopTime s) >= 1000 ->
         in_temp inp <= OVERTEMP -> classified inp = false ->
         millis s > noAccelShutoffTime s -> mode s <> MODE_OFF ->
         exists s', Jrt.oneSecondLoop (S fuel) inp s = Some s'
                    /\ mode s' = MODE_OFF)
  /\ (forall inp s,
         classified inp = true ->
         noAccelShutoffTime (Common.checkAccel inp s)
         = to_ulong (millis s + Common.noAccelShutoffMilliseconds))
  /\ (forall fuel m s s',
         Jrt.setLight fuel m s = Some s' ->
         noAccelShutoffTime s'
         = to_ulong (millis s + Common.noAccelShutoffMilliseconds))
  /\ (forall fuel time nb s s',
         well_formed s -> Jrt.buttonStep fuel time nb s = Some s' ->
         mode s' <> mode s ->
         noAccelShutoffTime s'
         = to_ulong (millis s + Common.noAccelShutoffMilliseconds))
  /\ (forall fuel inp s,
         elapsed (millis s) (oneSecondLoopTime s) >= 1000 ->
         classified inp = true ->
         0 <= clock s < 2 ^ 32 ->
         exists s',
           Jrt.oneSecondLoop (S fuel) inp s = Some s'
           /\ noAccelShutoffTime s'
              = to_ulong (clock s + pass_pause inp s
                          + Common.noAccelShutoffMilliseconds)
           /\ (clock s + pass_pause inp s
               + Common.noAccelShutoffMilliseconds < 2 ^ 32 ->
               mode s' = pass_mode inp s)
           /\ (2 ^ 32 <= clock s + pass_pause inp s
                         + Common.noAccelShutoffMilliseconds ->
               mode s' = MODE_OFF))
  /\ (forall fuel time s,
         time <= noAccelShutoffTime s ->
         Jrt.checkNoMotion fuel time s = Some s)
  /\ (exists s0 s1 s2,
         Jrt.run 2 before_wrap (Jrt.boot MODE_HIGH 0 (quiet false)) = Some s0
         /\ mode s0 = MODE_HIGH
         /\ clock s0 = 2 ^ 32 - 39800
         /\ noAccelShutoffTime s0 = 2 ^ 32 - 9322
         /\ Jrt.run 2 [(15000, tap false)] s0 = Some s1
         /\ mode s1 = MODE_OFF /\ noAccelShutoffTime s1 = 5728
         /\ Jrt.run 2 [(15000, quiet false)] s0 = Some s2
         /\ mode s2 = MODE_HIGH).
Proof.
  split; [|split; [|split; [|split; [|split; [|split; [|split]]]]]].
  - apply MotionFacts.jrt_checkNoMotion_fires.
  - apply MotionFacts.jrt_pass_shuts_off.
  - intros inp s H. apply (MotionFacts.jrt_checkAccel_resets inp s H).
  - intros fuel m s s' H. apply JrtFacts.jrt_setLight_spec in H.
    destruct H as [[] _]. exact sl_deadline0.
  - apply MotionFacts.jrt_transition_resets.
  - apply WrapFacts.jrt_pass_tap_law.
  - apply MotionFacts.jrt_checkNoMotion_waits.
  - destruct (Jrt.run 2 before_wrap (Jrt.boot MODE_HIGH 0 (quiet false)))
      as [s0|] eqn:E0; [|vm_compute in E0; discriminate].
    vm_compute in E0. inversion E0 as [E]; clear E0.
    eexists. eexists. eexists.
    split; [reflexivity|].
    split; [vm_compute; reflexivity|].
    split; [vm_compute; reflexivity|].
    split; [vm_compute; reflexivity|].
    split; [vm_compute; reflexivity|].
    split; [vm_compute; reflexivity|].
    split; [vm_compute; reflexivity|].
    split; vm_compute; reflexivity.
Qed.

(** C4 on a light in High left alone for 31 seconds, without and with a
    tap in the pass. *)
Lemma C4_motion_auto_shutoff_witness :
  (exists s', Jrt.checkNoMotion 1 31210 idle_high = Some s'
              /\ mode s' = MODE_OFF)
  /\ (exists s', Jrt.oneSecondLoop 1 (quiet false) idle_high = Some s'
                 /\ mode s' = MODE_OFF)
  /\ noAccelShutoffTime (Common.checkAccel (tap false) idle_high)
     = to_ulong (millis idle_high + Common.noAccelShutoffMilliseconds)
  /\ (exists s', Jrt.oneSecondLoop 1 (tap false) idle_high = Some s'
                 /\ mode s' = mode idle_high)
  /\ Jrt.checkNoMotion 1 200 jrt_high = Some jrt_high.
Proof.
  destruct C4_motion_auto_shutoff as (H1 & H2 & H3 & _ & _ & H6 & H7 & _).
  split; [apply H1; [reflexivity|discriminate]|].
  split; [apply H2; try reflexivity; discriminate|].
  split; [apply H3; reflexivity|].
  split.
  - destruct (H6 0%nat (tap false) idle_high) as (s' & Hs & _ & Hn & _).
    + vm_compute. discriminate.
    + reflexivity.
    + split; vm_compute; [discriminate|reflexivity].
    + exists s'. split; [exact Hs|]. apply Hn. vm_compute. reflexivity.
  - apply H7. discriminate.
Defined.

(** X8.  In hexbright_jrt.ino, once a scheduled power-off is past due,
    every later pass of [loop] is the power-off and nothing else, whatever
    the button and the sensors show: over any script of passes (clock not
    wrapped) the mode and the stored brightness stay as they were, the
    EEPROM byte ends up equal to [lastOnMode], and [EEPROM.write] is called
    at most once, not at all when the byte already matched. *)
Theorem X8_power_off_is_final :
  forall (fuel : nat) (script : list (Z * Inputs)) (s : State),
    valid_lastOn (lastOnMode s) ->
    0 < poweringOffTime s < clock s ->
    Forall (fun p => 0 <= fst p) script ->
    clock s + span script < 2 ^ 32 ->
    exists s',
      Jrt.run fuel script s = Some s'
      /\ mode s' = mode s /\ lastOnMode s' = lastOnMode s
      /\ clock s' = clock s + span script
      /\ (eeprom s = lastOnMode s ->
          eeprom s' = eeprom s /\ eeprom_writes s' = eeprom_writes s)
      /\ (eeprom_writes s' <= S (eeprom_writes s))%nat
      /\ (script <> [] -> eeprom s' = lastOnMode s).
Proof. intros fuel script. apply RunExtra.jrt_power_off_final. Qed.

(** X8 on the light whose power-off is due, with the button pressed and
    released again: it stays Off and High is stored. *)
Lemma X8_power_off_is_final_witness :
  exists s',
    Jrt.run 0 [(100, quiet true); (100, quiet false)] due_off = Some s'
    /\ mode s' = MODE_OFF /\ eeprom s' = MODE_HIGH
    /\ (eeprom_writes s' <= 1)%nat.
Proof.
  destruct (X8_power_off_is_final 0%nat
              [(100, quiet true); (100, quiet false)] due_off)
    as (s' & Hrun & Hm & _ & _ & _ & Hw & He).
  - split; discriminate.
  - split; reflexivity.
  - repeat constructor; discriminate.
  - reflexivity.
  - exists s'. split; [exact Hrun|]. split; [exact Hm|].
    split; [apply He; discriminate|exact Hw].
Defined.

(** X9.  Rest is stable in hexbright_jrt.ino: with the tracked button up,
    no power-off due, no sample above the threshold while the light is on,
    no tap or shake, and the inactivity deadline not passed while the light
    is on, a pass of [loop] returns (whatever the fuel and the button
    sample) with the mode, the stored brightness, the power-off schedule,
    the inactivity deadline and [lastModeTime] unchanged. *)
Theorem X9_rest_is_stable :
  forall (fuel : nat) (inp : Inputs) (s : State),
    Jrt.powerOffDue (millis s) s = false -> btnDown s = false ->
    in_temp inp <= OVERTEMP \/ mode s = MODE_OFF ->
    classified inp = false ->
    millis s <= noAccelShutoffTime s \/ mode s = MODE_OFF ->
    exists s', Jrt.loop fuel inp s = Some s'
               /\ mode s' = mode s /\ lastOnMode s' = lastOnMode s
               /\ poweringOffTime s' = poweringOffTime s
               /\ noAccelShutoffTime s' = noAccelShutoffTime s
               /\ lastModeTime s' = lastModeTime s.
Proof. apply RunExtra.jrt_loop_rest. Qed.

(** X9 on the light in High, 100 ms later, the button pressed again. *)
Lemma X9_rest_is_stable_witness :
  exists s', Jrt.loop 0 (quiet true) (tick 100 jrt_high) = Some s'
             /\ mode s' = MODE_HIGH /\ lastOnMode s' = MODE_HIGH.
Proof.
  destruct (X9_rest_is_stable 0%nat (quiet true) (tick 100 jrt_high))
    as (s' & Hs & Hm & Hl & _).
  - vm_compute. reflexivity.
  - reflexivity.
  - left. discriminate.
  - reflexivity.
  - left. vm_compute. discriminate.
  - exists s'. split; [exact Hs|]. split; [exact Hm|exact Hl].
Defined.

(** X10.  In hexbright_jrt.ino a hot once-per-second pass overrides the
    inactivity shutoff: when a second has gone by, the sample is above the
    threshold and the light is on, the pass holds 1200 ms and moves the
    deadline to the clock at the head of the pass plus 1200 ms plus the
    inactivity window, as an unsigned 32-bit sum.  While that sum fits 32
    bits the pass returns in Low, not Off, even if the old deadline had
    already passed; once the sum wraps, the pass returns in Off. *)
Theorem X10_hot_pass_defers_shutoff :
  forall (fuel : nat) (inp : Inputs) (s : State),
    elapsed (millis s) (oneSecondLoopTime s) >= 1000 ->
    in_temp inp > OVERTEMP -> mode s <> MODE_OFF ->
    0 <= clock s < 2 ^ 32 ->
    exists s',
      Jrt.oneSecondLoop (S fuel) inp s = Some s'
      /\ clock s' = to_ulong (clock s + 1200)
      /\ noAccelShutoffTime s'
         = to_ulong (clock s + 1200 + Common.noAccelShutoffMilliseconds)
      /\ mode s'
         = (if clock s + 1200 + Common.noAccelShutoffMilliseconds <? 2 ^ 32
            then MODE_LOW else MODE_OFF).
Proof. apply WrapFacts.jrt_hot_pass_law. Qed.

(** X10 on the light in High left alone for 31 s, past its deadline, and
    on the same light 1000 ms before the counter wraps. *)
Lemma X10_hot_pass_defers_shutoff_witness :
  millis idle_high > noAccelShutoffTime idle_high
  /\ (exists s', Jrt.oneSecondLoop 1 (hot false) idle_high = Some s'
                 /\ mode s' = MODE_LOW /\ noAccelShutoffTime s' = 62938)
  /\ (exists s',
         Jrt.oneSecondLoop 1 (hot false) (set_clock (2 ^ 32 - 1000) jrt_high)
         = Some s'
         /\ mode s' = MODE_OFF /\ noAccelShutoffTime s' = 30728).
Proof.
  split; [reflexivity|]. split.
  - destruct (X10_hot_pass_defers_shutoff 0%nat (hot false) idle_high)
      as (s' & Hs & _ & Hd & Hm).
    + vm_compute. discriminate.
    + reflexivity.
    + discriminate.
    + split; vm_compute; [discriminate|reflexivity].
    + exists s'. split; [exact Hs|]. rewrite Hm, Hd.
      split; vm_compute; reflexivity.
  - destruct (X10_hot_pass_defers_shutoff 0%nat (hot false)
                (set_clock (2 ^ 32 - 1000) jrt_high))
      as (s' & Hs & _ & Hd & Hm).
    + vm_compute. discriminate.
    + reflexivity.
    + discriminate.
    + split; vm_compute; [discriminate|reflexivity].
    + exists s'. split; [exact Hs|]. rewrite Hm, Hd.
      split; vm_compute; reflexivity.
Defined.

(** X11.  Over any run of hexbright_jrt.ino from a well-formed state the
    EEPROM byte is either the one the run started with or one of Low,
    Medium, High: the firmware never stores anything else. *)
Theorem X11_eeprom_holds_a_brightness :
  forall (fuel : nat) (script : list (Z * Inputs)) (s s' : State),
    well_formed s -> Jrt.run fuel script s = Some s' ->
    eeprom s' = eeprom s \/ valid_lastOn (eeprom s').
Proof. intros fuel script. apply RunExtra.jrt_run_eeprom. Qed.

(** X11 on a boot from the byte 9, the light switched on, switched off
    three seconds later, and left until the power-off has run. *)
Lemma X11_eeprom_holds_a_brightness_witness :
  exists s',
    Jrt.run 2 [(10, quiet true); (100, quiet false); (3000, quiet true);
               (100, quiet false); (7000, quiet false)]
      (Jrt.boot 9 0 (quiet true)) = Some s'
    /\ (eeprom s' = 9 \/ valid_lastOn (eeprom s')).
Proof.
  destruct (Jrt.run 2 [(10, quiet true); (100, quiet false); (3000, quiet true);
                       (100, quiet false); (7000, quiet false)]
              (Jrt.boot 9 0 (quiet true))) as [s'|] eqn:E;
    [|vm_compute in E; discriminate].
  exists s'. split; [reflexivity|].
  apply (X11_eeprom_holds_a_brightness _ _ _ _
           (JrtInv.jrt_boot_well_formed 9 0 (quiet true)) E).
Defined.

(** * Further properties: charge indicator and axis read *)

Module MiscExtra.
Import Common.

Lemma land_bit8 (t : Z) : (Z.land t 256 =? 0) = negb (Z.testbit t 8).
Proof.
  assert (H : Z.land t 256 = if Z.testbit t 8 then 256 else 0).
  { apply Z.bits_inj'. intros n Hn. rewrite Z.land_spec.
    change 256 with (2 ^ 8) at 1. rewrite Z.pow2_bits_eqb by lia.
    destruct (Z.eqb_spec 8 n) as [<-|N].
    - rewrite andb_true_r. destruct (Z.testbit t 8); reflexivity.
    - rewrite andb_false_r. destruct (Z.testbit t 8).
      + change 256 with (2 ^ 8). rewrite Z.pow2_bits_eqb by lia.
        symmetry. apply Z.eqb_neq. exact N.
      + symmetry. apply Z.bits_0. }
  rewrite H. destruct (Z.testbit t 8); reflexivity.
Qed.

Lemma bit8_flips (t : Z) : Z.testbit (t + 256) 8 = negb (Z.testbit t 8).
Proof.
  rewrite !Z.testbit_odd, !Z.shiftr_div_pow2 by lia.
  change (2 ^ 8) with 256.
  replace (t + 256) with (t + 1 * 256) by lia.
  rewrite Z.div_add by lia.
  rewrite Z.add_1_r, Z.odd_succ, <- Z.negb_odd. reflexivity.
Qed.

Lemma checkChargeState_gled (inp : Inputs) (s : State) :
  gled (checkChargeState inp s)
  = if in_charge inp <? 128 then negb (Z.testbit (millis s) 8)
    else in_charge inp >? 768.
Proof.
  unfold checkChargeState.
  destruct (in_charge inp <? 128).
  - rewrite land_bit8. destruct (Z.testbit (millis s) 8); reflexivity.
  - destruct (in_charge inp >? 768); reflexivity.
Qed.

Lemma store_length (i : nat) (v : Z) :
  forall acc, length (Accel.store i v acc) = length acc.
Proof.
  induction i as [|i IH]; intros [|h t]; cbn; try reflexivity.
  rewrite IH. reflexivity.
Qed.

Lemma store_other (i : nat) (v : Z) :
  forall acc j, j <> i -> nth j (Accel.store i v acc) 0 = nth j acc 0.
Proof.
  induction i as [|i IH]; intros [|h t] [|j] Hj; cbn; try reflexivity.
  - contradiction.
  - apply IH. intros E. apply Hj. f_equal. exact E.
Qed.

(** The [for] loop writes only entries [i .. i + length rx - 1]. *)
Lemma forAxes_frame (n : nat) :
  forall i rx acc,
    length (snd (Accel.forAxes n i rx acc)) = length acc
    /\ forall j, (j < i \/ i + length rx <= j)%nat ->
                 nth j (snd (Accel.forAxes n i rx acc)) 0 = nth j acc 0.
Proof.
  induction n as [|n IH]; intros i rx acc; cbn [Accel.forAxes].
  - split; [reflexivity|]. intros; reflexivity.
  - destruct rx as [|b rx'].
    + destruct (IH (S i) [] acc) as [L F]. split; [exact L|].
      intros j Hj. reflexivity || (apply F; cbn in *; lia).
    + match goal with
      | |- context [if ?c then _ else _] => destruct c
      end.
      * destruct (IH (S i) rx' (Accel.store i (to_char b) acc)) as [L F].
        split; [rewrite L; apply store_length|].
        intros j Hj. rewrite F by (cbn in Hj; lia).
        apply store_other. cbn in Hj. lia.
      * match goal with
        | |- context [Accel.forAxes n (S i) rx' ?a] =>
          destruct (IH (S i) rx' a) as [L F]; set (acc2 := a) in *
        end.
        assert (L2 : length acc2 = length acc).
        { unfold acc2. destruct (negb _); rewrite ?store_length;
            reflexivity. }
        assert (F2 : forall j, j <> i -> nth j acc2 0 = nth j acc 0).
        { intros j Hj. unfold acc2.
          destruct (negb _); rewrite ?store_other by exact Hj; reflexivity. }
        split; [rewrite L; exact L2|].
        intros j Hj. rewrite F by (cbn in Hj; lia).
        apply F2. cbn in Hj. lia.
Qed.

Lemma axis6_decodes (v : Z) :
  0 <= v < 64 -> Accel.failed v = false /\ Accel.signExtend v = axis6 v.
Proof.
  intros Hv.
  assert (H : (if v <? 64
               then negb (Accel.failed v) && (Accel.signExtend v =? axis6 v)
               else true) = true).
  { apply (AccelFacts.byte_cases
             (fun v => if v <? 64
                       then negb (Accel.failed v)
                            && (Accel.signExtend v =? axis6 v)
                       else true));
      [vm_compute; reflexivity|lia]. }
  replace (v <? 64) with true in H by (symmetry; apply Z.ltb_lt; lia).
  apply andb_true_iff in H. destruct H as [A B].
  apply negb_true_iff in A. apply Z.eqb_eq in B. auto.
Qed.

End MiscExtra.

(** X12.  Charge indicator (the same function in the three revisions): a
    reading above 768 lights the status LED, a reading from 128 to 768
    puts it out, and a reading below 128 shows the complement of bit 8 of
    the millisecond clock: lit while the bit is 0, dark while it is 1.
    While charging the LED is therefore in the opposite state 256 ms
    later, also across the wrap of the 32-bit counter.  The call touches
    neither the mode, the stored brightness, the power-off schedule, the
    driver lines, the power latch nor the EEPROM. *)
Theorem X12_charge_indicator :
  forall (inp : Inputs) (s : State),
    (in_charge inp > 768 -> gled (Common.checkChargeState inp s) = true)
    /\ (128 <= in_charge inp <= 768 ->
        gled (Common.checkChargeState inp s) = false)
    /\ (in_charge inp < 128 ->
        gled (Common.checkChargeState inp s)
        = negb (Z.testbit (millis s) 8)
        /\ gled (Common.checkChargeState inp (tick 256 s))
           = negb (gled (Common.checkChargeState inp s)))
    /\ light (Common.checkChargeState inp s) = light s
    /\ untouched s (Common.checkChargeState inp s).
Proof.
  intros inp s.
  split; [|split; [|split; [|split]]].
  - intros H. rewrite MiscExtra.checkChargeState_gled.
    replace (in_charge inp <? 128) with false
      by (symmetry; apply Z.ltb_ge; lia).
    apply gtb_true. exact H.
  - intros H. rewrite MiscExtra.checkChargeState_gled.
    replace (in_charge inp <? 128) with false
      by (symmetry; apply Z.ltb_ge; lia).
    apply gtb_false. lia.
  - intros H. rewrite !MiscExtra.checkChargeState_gled.
    replace (in_charge inp <? 128) with true
      by (symmetry; apply Z.ltb_lt; lia).
    split; [reflexivity|].
    unfold millis. cbn [clock tick set_clock].
    unfold to_ulong, wrap_unsigned.
    rewrite Z.mod_pow2_bits_low by lia.
    rewrite MiscExtra.bit8_flips. reflexivity.
  - apply SteadyExtra.light_checkChargeState.
  - apply Frame.untouched_checkChargeState.
Qed.

(** X12 on the three bands at the clock of [jrt_high] (210: bit 8 is 0),
    and on a charging reading 100 ms before the counter wraps. *)
Lemma X12_charge_indicator_witness :
  gled (Common.checkChargeState (mkInputs false 900 300 true 0) jrt_high)
  = true
  /\ gled (Common.checkChargeState (quiet false) jrt_high) = false
  /\ gled (Common.checkChargeState (mkInputs false 50 300 true 0) jrt_high)
     = true
  /\ gled (Common.checkChargeState (mkInputs false 50 300 true 0)
             (tick 256 (set_clock (2 ^ 32 - 100) jrt_high)))
     = negb (gled (Common.checkChargeState (mkInputs false 50 300 true 0)
                     (set_clock (2 ^ 32 - 100) jrt_high))).
Proof.
  destruct (X12_charge_indicator (mkInputs false 900 300 true 0) jrt_high)
    as (H1 & _).
  destruct (X12_charge_indicator (quiet false) jrt_high) as (_ & H2 & _).
  destruct (X12_charge_indicator (mkInputs false 50 300 true 0) jrt_high)
    as (_ & _ & H3 & _).
  destruct (X12_charge_indicator (mkInputs false 50 300 true 0)
              (set_clock (2 ^ 32 - 100) jrt_high)) as (_ & _ & H4 & _).
  split; [apply H1; reflexivity|].
  split; [apply H2; split; discriminate|].
  split.
  - rewrite (proj1 (H3 eq_refl)). vm_compute. reflexivity.
  - apply (proj2 (H4 eq_refl)).
Defined.

(** X13.  [readAccel] on a full, well-formed answer: three bytes that each
    hold a six-bit sample (0..63) are returned as their two's-complement
    values, 0..31 unchanged and 32..63 as -32..-1, after one request. *)
Theorem X13_readAccel_decodes_six_bit :
  forall (a b c x y z : Z) (rest : list (list Z)),
    0 <= a < 64 -> 0 <= b < 64 -> 0 <= c < 64 ->
    Accel.readAccel ([a; b; c] :: rest) [x; y; z]
    = Some ([axis6 a; axis6 b; axis6 c], rest)
    /\ -32 <= axis6 a <= 31 /\ -32 <= axis6 b <= 31 /\ -32 <= axis6 c <= 31.
Proof.
  intros a b c x y z rest Ha Hb Hc.
  destruct (MiscExtra.axis6_decodes a Ha) as [Fa Ea].
  destruct (MiscExtra.axis6_decodes b Hb) as [Fb Eb].
  destruct (MiscExtra.axis6_decodes c Hc) as [Fc Ec].
  split.
  - rewrite AccelFacts.readAccel_clean_agrees by (assumption || lia).
    cbn [Accel.readAccel_spec firstn existsb map].
    rewrite Fa, Fb, Fc. cbn [orb]. rewrite Ea, Eb, Ec. reflexivity.
  - unfold axis6.
    destruct (a <? 32) eqn:A; destruct (b <? 32) eqn:B;
      destruct (c <? 32) eqn:C;
      rewrite ?Z.ltb_lt, ?Z.ltb_ge in *; lia.
Qed.

(** X13 on the answer 05 3F 20 (hex). *)
Lemma X13_readAccel_decodes_six_bit_witness :
  Accel.readAccel [[5; 63; 32]] [0; 0; 0] = Some ([5; -1; -32], []).
Proof.
  apply (X13_readAccel_decodes_six_bit 5 63 32 0 0 0 []); lia.
Defined.

(** X14.  [readAccel] on a short answer: it still returns after one
    request, the buffer keeps its length, and the entries for which no
    byte arrived keep whatever the caller's buffer held; with an empty
    answer the buffer is returned as it was. *)
Theorem X14_readAccel_short_answer :
  forall (sample : list Z) (rest : list (list Z)) (acc : list Z),
    exists acc',
      Accel.readAccel (sample :: rest) acc = Some (acc', rest)
      /\ length acc' = length acc
      /\ (forall j, (length sample <= j)%nat -> nth j acc' 0 = nth j acc 0)
      /\ (sample = [] -> acc' = acc).
Proof.
  intros sample rest acc.
  exists (snd (Accel.forAxes 3 0 (firstn 3 sample) acc)).
  split; [apply AccelFacts.readAccel_one_request|].
  destruct (MiscExtra.forAxes_frame 3 0 (firstn 3 sample) acc) as [L F].
  split; [exact L|]. split.
  - intros j Hj. apply F. right.
    assert (length (firstn 3 sample) <= length sample)%nat
      by (rewrite length_firstn; apply Nat.le_min_r).
    lia.
  - intros E. subst sample. reflexivity.
Qed.

(** * Further properties: the revisions without EEPROM, and the strobe *)

Module OldExtra.
Import Common Frame.

Ltac ifs :=
  repeat match goal with
         | |- context [if ?b then _ else _] => destruct b
         end.

(** ** The [setLight] revision without EEPROM *)

Lemma p0_setLight_lines (fuel : nat) (m : Z) (s s' : State) :
  0 <= m <= 5 -> valid_lastOn (lastOnMode s) ->
  Part000.setLight fuel m s = Some s' ->
  driver_lines (if MODE_BLINKING <=? m then lastOnMode s else m)
  = Some (drv_mode s', drv_en s')
  /\ pwr s' = negb (m =? MODE_OFF).
Proof.
  intros Hr [Hl Hh] H. unfold MODE_LOW, MODE_HIGH in *.
  destruct fuel as [|fuel]; [discriminate|].
  assert (m = 0 \/ m = 1 \/ m = 2 \/ m = 3 \/ m = 4 \/ m = 5) as Hc by lia.
  assert (lastOnMode s = 1 \/ lastOnMode s = 2 \/ lastOnMode s = 3)
    as Hv by lia.
  destruct Hc as [E|[E|[E|[E|[E|E]]]]]; subst m.
  1-4: cbn in H; inversion H; subst s'; split; reflexivity.
  all: cbn [Part000.setLight] in H; cbn in H;
    destruct fuel as [|fuel]; [discriminate|];
    destruct Hv as [E|[E|E]]; rewrite E in *; cbn in H;
    inversion H; subst s'; split; reflexivity.
Qed.

Lemma latched_same (s s' : State) :
  light s' = light s -> latched s -> latched s'.
Proof.
  intros V. apply SteadyExtra.light_eq in V.
  destruct V as (Vm & Vl & Vp & Vd & Ve & Vw).
  unfold latched, well_formed, output_matches_mode.
  rewrite Vm, Vl, Vd, Ve, Vw. auto.
Qed.

Lemma p0_setLight_latched (fuel : nat) (m : Z) (s s' : State) :
  0 <= m <= 5 -> well_formed s ->
  Part000.setLight fuel m s = Some s' -> latched s'.
Proof.
  intros Hr Hwf H.
  pose proof (Part000Inv.p0_setLight_keeps fuel m s s' Hr H) as (K & _).
  destruct (p0_setLight_lines fuel m s s' Hr (proj1 Hwf) H) as (L & W).
  apply Part000Facts.p0_setLight_spec in H. destruct H as [[] _].
  assert (m = 0 \/ m = 1 \/ m = 2 \/ m = 3 \/ m = 4 \/ m = 5) as Hc by lia.
  unfold latched. split; [apply K, Hwf|]. split.
  - rewrite W, sl_mode0.
    destruct Hc as [E|[E|[E|[E|[E|E]]]]]; subst m; reflexivity.
  - intros Hm. unfold output_matches_mode. rewrite <- L, sl_mode0.
    rewrite sl_mode0 in Hm.
    destruct Hc as [E|[E|[E|[E|[E|E]]]]]; subst m;
      try reflexivity; vm_compute in Hm; exfalso; apply Hm; reflexivity.
Qed.

Lemma p0_overheatBlink_latched (fuel n : nat) :
  forall s s',
    latched s -> Part000.overheatBlink fuel n s = Some s' -> latched s'.
Proof.
  induction n as [|n IH]; intros s s' Hs H; cbn [Part000.overheatBlink] in H.
  - inversion H; subst; exact Hs.
  - destruct (Part000.setLightLow fuel s) as [s1|] eqn:H1; [|discriminate].
    cbn [bind] in H.
    destruct (Part000.setLightHigh fuel (delay 100 s1)) as [s2|] eqn:H2;
      [|discriminate].
    cbn [bind] in H.
    apply p0_setLight_latched in H1; [|unfold MODE_LOW; lia|apply Hs].
    assert (S1 : latched (delay 100 s1))
      by (apply (latched_same s1); [reflexivity|exact H1]).
    apply p0_setLight_latched in H2; [|unfold MODE_HIGH; lia|apply S1].
    apply (IH (delay 100 s2)); [|exact H].
    apply (latched_same s2); [reflexivity|exact H2].
Qed.

Lemma p0_checkTemperature_latched (fuel : nat) (inp : Inputs) (s s' : State) :
  latched s -> Part000.checkTemperature fuel inp s = Some s' -> latched s'.
Proof.
  intros Hs. unfold Part000.checkTemperature.
  destruct ((in_temp inp >? OVERTEMP) && negb (mode s =? MODE_OFF)).
  - destruct (Part000.overheatBlink fuel 6 s) as [s1|] eqn:H1;
      [|discriminate].
    cbn [bind]. apply p0_setLight_latched; [unfold MODE_LOW; lia|].
    apply (p0_overheatBlink_latched _ _ _ _ Hs H1).
  - intros H; inversion H; subst; exact Hs.
Qed.

Lemma p0_oneSecondLoop_latched (fuel : nat) (inp : Inputs) (s s' : State) :
  latched s -> Part000.oneSecondLoop fuel inp s = Some s' -> latched s'.
Proof.
  intros Hs. unfold Part000.oneSecondLoop.
  destruct (elapsed (millis s) (oneSecondLoopTime s) <? 1000).
  - intros H; inversion H; subst; exact Hs.
  - destruct (Part000.checkTemperature fuel inp _) as [s1|] eqn:H1;
      [|discriminate].
    cbn [bind].
    apply p0_checkTemperature_latched in H1;
      [|apply (latched_same s); [reflexivity|exact Hs]].
    match goal with
    | |- context [checkAccel inp ?x] =>
      assert (S2 : latched (checkAccel inp x))
        by (apply (latched_same s1);
            [rewrite SteadyExtra.light_checkAccel; reflexivity|exact H1]);
        set (s2 := checkAccel inp x) in *
    end.
    unfold Part000.checkNoMotion. destruct (_ && _).
    + apply p0_setLight_latched; [unfold MODE_OFF; lia|apply S2].
    + intros H; inversion H; subst; exact S2.
Qed.

Lemma p0_light_table (time : Z) (nb : bool) (s : State) :
  light (snd (Part000.checkModeChange time nb s)) = light s.
Proof. unfold Part000.checkModeChange. ifs; reflexivity. Qed.

Lemma p0_buttonStep_latched (fuel : nat) (time : Z) (nb : bool)
      (s s' : State) :
  latched s -> Part000.buttonStep fuel time nb s = Some s' -> latched s'.
Proof.
  intros Hs.
  pose proof (Part000Inv.p0_table_range time nb s (proj1 Hs)) as Hr.
  pose proof (p0_light_table time nb s) as Hl.
  unfold Part000.buttonStep.
  destruct (Part000.checkModeChange time nb s) as [newMode s1].
  cbn in Hr, Hl.
  assert (S1 : latched s1) by (apply (latched_same s); assumption).
  destruct (Part000.doModeTransition fuel time newMode s1) as [s2|] eqn:H2;
    [|discriminate].
  cbn [bind]. intros H. inversion H; subst s'; clear H.
  apply (latched_same s2); [apply SteadyExtra.light_rememberButton|].
  destruct (Z.eq_dec newMode (mode s1)) as [E|E].
  - subst newMode. rewrite Part000Facts.p0_doModeTransition_same in H2.
    inversion H2; subst. exact S1.
  - rewrite Part000Facts.p0_doModeTransition_change in H2 by assumption.
    destruct (Part000.setLight fuel newMode (set_lastModeTime time s1))
      as [s3|] eqn:H3; [|discriminate].
    cbn [bind] in H2. inversion H2; subst s2; clear H2.
    apply p0_setLight_latched in H3;
      [|exact Hr|apply (latched_same s1); [reflexivity|exact S1]].
    destruct H3 as ((Hv & Hm) & Hp & Ho).
    split; [split; [apply remembered_valid; exact Hv|exact Hm]|].
    split; [exact Hp|exact Ho].
Qed.

Lemma blinkOutput_latched (time : Z) (s : State) :
  latched s -> latched (blinkOutput time s).
Proof.
  intros (Hwf & Hp & Ho). unfold blinkOutput.
  destruct ((mode s =? MODE_BLINKING) || (mode s =? MODE_BLINKING_PREVIEW))
    eqn:E; [|exact (conj Hwf (conj Hp Ho))].
  split; [exact Hwf|]. split; [exact Hp|].
  cbn. intros Hm. exfalso.
  apply orb_true_iff in E. destruct E as [E|E]; apply Z.eqb_eq in E;
    rewrite E in Hm;
    unfold MODE_BLINKING, MODE_BLINKING_PREVIEW, MODE_HIGH in Hm; lia.
Qed.

Lemma p0_loop_latched (fuel : nat) (inp : Inputs) (s s' : State) :
  latched s -> Part000.loop fuel inp s = Some s' -> latched s'.
Proof.
  intros Hs. unfold Part000.loop.
  destruct (Part000.oneSecondLoop fuel inp _) as [s1|] eqn:H1;
    [|discriminate].
  cbn [bind]. intros H2.
  apply p0_oneSecondLoop_latched in H1;
    [|apply (latched_same s);
      [apply SteadyExtra.light_checkChargeState|exact Hs]].
  apply (p0_buttonStep_latched _ _ _ _ _
           (blinkOutput_latched (millis s) s1 H1) H2).
Qed.

Lemma p0_boot_latched (fuel : nat) (t0 : Z) (inp : Inputs) (s : State) :
  Part000.boot fuel t0 inp = Some s -> latched s.
Proof.
  unfold Part000.boot, Part000.setup.
  destruct (Part000.setLightOff fuel _) as [s1|] eqn:H1; [|discriminate].
  cbn [bind]. intros H. inversion H; subst s; clear H.
  apply p0_setLight_latched in H1.
  - apply (latched_same s1); [reflexivity|exact H1].
  - unfold MODE_OFF; lia.
  - split; [split|split]; vm_compute; discriminate.
Qed.

Lemma p0_reachable_latched (s : State) : Part000.reachable s -> latched s.
Proof.
  induction 1 as [fuel t0 inp s Hb | s dt _ IH | s fuel inp s' _ IH Hl].
  - eapply p0_boot_latched; eassumption.
  - apply (latched_same s); [reflexivity|exact IH].
  - eapply p0_loop_latched; eassumption.
Qed.

Lemma p0_run_reachable (fuel : nat) (script : list (Z * Inputs)) :
  forall s s',
    Part000.reachable s -> Part000.run fuel script s = Some s' ->
    Part000.reachable s'.
Proof.
  induction script as [|[dt inp] rest IH]; intros s s' Hr H;
    cbn [Part000.run] in H.
  - inversion H; subst; exact Hr.
  - destruct (Part000.loop fuel inp (tick dt s)) as [s1|] eqn:H1;
      [|discriminate].
    cbn [bind] in H. apply (IH s1); [|exact H].
    apply (Part000.reach_loop (tick dt s) fuel inp s1); [|exact H1].
    apply Part000.reach_tick. exact Hr.
Qed.

Lemma p0_high_reachable : Part000.reachable p0_high.
Proof.
  destruct (Part000.boot 1 0 (quiet true)) as [s0|] eqn:Hb;
    [|vm_compute in Hb; discriminate].
  apply (p0_run_reachable 2 [(1100, quiet false)] s0).
  - apply (Part000.reach_boot 1%nat 0 (quiet true)). exact Hb.
  - vm_compute in Hb. inversion Hb; subst s0. vm_compute. reflexivity.
Qed.

(** The stored brightness through the once-per-second work. *)
Lemma p0_overheatBlink_lastOn (fuel n : nat) :
  forall s s',
    Part000.overheatBlink fuel n s = Some s' -> lastOnMode s' = lastOnMode s.
Proof.
  induction n as [|n IH]; intros s s' H; cbn [Part000.overheatBlink] in H.
  - inversion H; subst; reflexivity.
  - destruct (Part000.setLightLow fuel s) as [s1|] eqn:H1; [|discriminate].
    cbn [bind] in H.
    destruct (Part000.setLightHigh fuel (delay 100 s1)) as [s2|] eqn:H2;
      [|discriminate].
    cbn [bind] in H.
    apply Part000Facts.p0_setLight_spec in H1. destruct H1 as [_ L1].
    apply Part000Facts.p0_setLight_spec in H2. destruct H2 as [_ L2].
    apply IH in H. rewrite H. cbn. rewrite L2. cbn. exact L1.
Qed.

Lemma p0_oneSecondLoop_lastOn (fuel : nat) (inp : Inputs) (s s' : State) :
  Part000.oneSecondLoop fuel inp s = Some s' -> lastOnMode s' = lastOnMode s.
Proof.
  unfold Part000.oneSecondLoop.
  destruct (elapsed (millis s) (oneSecondLoopTime s) <? 1000).
  { intros H; inversion H; subst; reflexivity. }
  destruct (Part000.checkTemperature fuel inp _) as [s1|] eqn:H1;
    [|discriminate].
  cbn [bind].
  assert (L1 : lastOnMode s1 = lastOnMode s).
  { revert H1. unfold Part000.checkTemperature.
    destruct (_ && _).
    - destruct (Part000.overheatBlink fuel 6 _) as [s0|] eqn:H0;
        [|discriminate].
      cbn [bind]. intros H.
      apply Part000Facts.p0_setLight_spec in H. destruct H as [_ L].
      apply p0_overheatBlink_lastOn in H0. rewrite L, H0. reflexivity.
    - intros H; inversion H; subst; reflexivity. }
  match goal with
  | |- context [checkAccel inp ?x] =>
    assert (L2 : lastOnMode (checkAccel inp x) = lastOnMode s1)
      by (destruct (untouched_checkAccel inp x) as (_ & L & _);
          rewrite L; reflexivity);
      set (s2 := checkAccel inp x) in *
  end.
  unfold Part000.checkNoMotion. destruct (_ && _).
  - intros H. apply Part000Facts.p0_setLight_spec in H.
    destruct H as [_ L]. rewrite L, L2. exact L1.
  - intros H; inversion H; subst. rewrite L2. exact L1.
Qed.

Lemma p0_buttonStep_lastOn (fuel : nat) (time : Z) (nb : bool)
      (s s' : State) :
  well_formed s -> Part000.buttonStep fuel time nb s = Some s' ->
  lastOnMode s' = lastOnMode s \/ lastOnMode s' = mode s'.
Proof.
  intros Hwf.
  pose proof (Part000Inv.p0_table_range time nb s Hwf) as Hr.
  pose proof (p0_light_table time nb s) as Hl.
  unfold Part000.buttonStep.
  destruct (Part000.checkModeChange time nb s) as [newMode s1].
  cbn in Hr, Hl. apply SteadyExtra.light_eq in Hl.
  destruct Hl as (Vm & Vl & _).
  destruct (Part000.doModeTransition fuel time newMode s1) as [s2|] eqn:H2;
    [|discriminate].
  cbn [bind]. intros H. inversion H; subst s'; clear H.
  destruct (rememberButton_frame time nb s2) as (Rm & Rl & _).
  rewrite Rm, Rl.
  destruct (Z.eq_dec newMode (mode s1)) as [E|E].
  - subst newMode. rewrite Part000Facts.p0_doModeTransition_same in H2.
    inversion H2; subst. left. exact Vl.
  - rewrite Part000Facts.p0_doModeTransition_change in H2 by assumption.
    destruct (Part000.setLight fuel newMode (set_lastModeTime time s1))
      as [s3|] eqn:H3; [|discriminate].
    cbn [bind] in H2. inversion H2; subst s2; clear H2.
    apply Part000Facts.p0_setLight_spec in H3. destruct H3 as [[] L3].
    cbn. rewrite sl_mode0, L3. cbn. rewrite Vl.
    unfold remembered, collapse, MODE_LOW, MODE_HIGH, MODE_BLINKING_PREVIEW.
    destruct ((1 <=? newMode) && (newMode <=? 3)) eqn:B; [|left; reflexivity].
    right. apply andb_true_iff in B. destruct B as [B1 B2].
    apply Z.leb_le in B1, B2.
    replace (newMode =? 5) with false; [reflexivity|].
    symmetry. apply Z.eqb_neq. lia.
Qed.

(** ** The strobe after [setLight] *)

Lemma blinkOutput_strobe (t : Z) (s : State) :
  mode s = MODE_BLINKING ->
  drv_en (blinkOutput t s) = (if t mod 600 <? 450 then 255 else 0)
  /\ drv_mode (blinkOutput t s) = drv_mode s.
Proof.
  intros Hm. unfold blinkOutput. rewrite Hm. cbn.
  destruct (t mod 600 <? 450); split; reflexivity.
Qed.

(** ** The oldest revision left alone *)

Lemma p1_buttonStep_idle (time : Z) (s : State) :
  btnDown s = false -> Part001.buttonStep time false s = s.
Proof.
  intros Hb. unfold Part001.buttonStep.
  rewrite ButtonExtra.p1_table_idle by exact Hb.
  rewrite ButtonExtra.p1_doModeTransition_same.
  unfold rememberButton. rewrite Hb. reflexivity.
Qed.

Lemma p1_oneSecondLoop_rest (inp : Inputs) (s : State) :
  btnDown (Part001.oneSecondLoop inp s) = btnDown s
  /\ pwr (Part001.oneSecondLoop inp s) = pwr s
  /\ (mode s <> MODE_OFF -> mode (Part001.oneSecondLoop inp s) <> MODE_OFF).
Proof.
  unfold Part001.oneSecondLoop.
  destruct (elapsed (millis s) (oneSecondLoopTime s) >? 1000);
    [|repeat split; auto].
  destruct ((in_temp inp >? OVERTEMP) && negb (_ =? MODE_OFF)).
  - unfold Part001.overheat. cbn.
    split; [reflexivity|]. split; [reflexivity|].
    intros _. discriminate.
  - repeat split; auto.
Qed.

Lemma p1_loop_idle (inp : Inputs) (s : State) :
  btnDown s = false -> in_button inp = false ->
  btnDown (Part001.loop inp s) = false
  /\ pwr (Part001.loop inp s) = pwr s
  /\ (mode s <> MODE_OFF -> mode (Part001.loop inp s) <> MODE_OFF).
Proof.
  intros Hb Hi. unfold Part001.loop. rewrite Hi.
  destruct (p1_oneSecondLoop_rest inp (checkChargeState inp s))
    as (B1 & P1 & M1).
  set (s1 := Part001.oneSecondLoop inp (checkChargeState inp s)) in *.
  assert (B0 : btnDown (checkChargeState inp s) = btnDown s)
    by (unfold checkChargeState; ifs; reflexivity).
  assert (P0 : pwr (checkChargeState inp s) = pwr s)
    by (unfold checkChargeState; ifs; reflexivity).
  assert (M0 : mode (checkChargeState inp s) = mode s)
    by (unfold checkChargeState; ifs; reflexivity).
  assert (F : btnDown (blinkOutput (millis s) (Part001.checkAccel inp s1))
              = btnDown s1
              /\ pwr (blinkOutput (millis s) (Part001.checkAccel inp s1))
                 = pwr s1
              /\ mode (blinkOutput (millis s) (Part001.checkAccel inp s1))
                 = mode s1).
  { unfold blinkOutput, Part001.checkAccel. ifs; repeat split. }
  destruct F as (B2 & P2 & M2).
  rewrite p1_buttonStep_idle by (rewrite B2, B1, B0; exact Hb).
  rewrite B2, P2, M2, B1, P1, B0, P0.
  split; [exact Hb|]. split; [reflexivity|].
  intros Hm. apply M1. rewrite M0. exact Hm.
Qed.

Lemma p1_run_idle (script : list (Z * Inputs)) :
  forall s,
    btnDown s = false ->
    Forall (fun p => in_button (snd p) = false) script ->
    btnDown (Part001.run script s) = false
    /\ pwr (Part001.run script s) = pwr s
    /\ (mode s <> MODE_OFF -> mode (Part001.run script s) <> MODE_OFF).
Proof.
  induction script as [|[dt inp] rest IH]; intros s Hb Hf;
    cbn [Part001.run].
  - repeat split; auto.
  - inversion Hf as [|p l Hi Hr]; subst. cbn in Hi.
    destruct (p1_loop_idle inp (tick dt s) Hb Hi) as (B & P & M).
    destruct (IH (Part001.loop inp (tick dt s)) B Hr) as (B' & P' & M').
    split; [exact B'|]. split; [rewrite P', P; reflexivity|].
    intros Hm. apply M', M. exact Hm.
Qed.

End OldExtra.

(** X15.  The strobe in the two [setLight] revisions.  Entering Blinking
    (or the preview) writes the driver lines of the stored brightness, so
    the enable duty is 64 for Low and 255 otherwise; the first strobe
    write of [loop] then replaces the duty by 255 or 0 (on for the first
    450 ms of every 600 ms), keeping only the driver-mode level.  A strobe
    remembered at Low is therefore driven exactly like one at Medium. *)
Theorem X15_strobe_drops_low_duty :
  forall (fuel : nat) (m t : Z) (s : State),
    MODE_BLINKING <= m <= MODE_BLINKING_PREVIEW ->
    valid_lastOn (lastOnMode s) ->
    (exists s',
        Jrt.setLight (S (S fuel)) m s = Some s'
        /\ mode s' = MODE_BLINKING
        /\ drv_en s' = (if lastOnMode s =? MODE_LOW then 64 else 255)
        /\ drv_mode s' = (lastOnMode s =? MODE_HIGH)
        /\ drv_en (Common.blinkOutput t s')
           = (if t mod 600 <? 450 then 255 else 0)
        /\ drv_mode (Common.blinkOutput t s') = (lastOnMode s =? MODE_HIGH))
    /\ (exists s',
           Part000.setLight (S (S fuel)) m s = Some s'
           /\ mode s' = MODE_BLINKING
           /\ drv_en s' = (if lastOnMode s =? MODE_LOW then 64 else 255)
           /\ drv_mode s' = (lastOnMode s =? MODE_HIGH)
           /\ drv_en (Common.blinkOutput t s')
              = (if t mod 600 <? 450 then 255 else 0)
           /\ drv_mode (Common.blinkOutput t s')
              = (lastOnMode s =? MODE_HIGH)).
Proof.
  intros fuel m t s Hm Hv.
  assert (Hr : 0 <= m <= 5)
    by (unfold MODE_BLINKING, MODE_BLINKING_PREVIEW in Hm; lia).
  assert (Hb : (MODE_BLINKING <=? m) = true) by (apply Z.leb_le; lia).
  assert (Hc : collapse m = MODE_BLINKING).
  { unfold collapse, MODE_BLINKING, MODE_BLINKING_PREVIEW in *.
    destruct (Z.eqb_spec m 5); [reflexivity|lia]. }
  assert (Hd : forall dm de,
             driver_lines (lastOnMode s) = Some (dm, de) ->
             de = (if lastOnMode s =? MODE_LOW then 64 else 255)
             /\ dm = (lastOnMode s =? MODE_HIGH)).
  { intros dm de. destruct Hv as [Hl Hh]. unfold MODE_LOW, MODE_HIGH in *.
    assert (lastOnMode s = 1 \/ lastOnMode s = 2 \/ lastOnMode s = 3)
      as [E|[E|E]] by lia; rewrite E; cbn; intros H; inversion H;
      split; reflexivity. }
  split.
  - destruct (JrtFacts.jrt_setLight_returns fuel m s Hv) as [s' H].
    exists s'. split; [exact H|].
    destruct (PassExtra.jrt_setLight_lines _ m s s' Hr Hv H) as (L & _).
    rewrite Hb in L. destruct (Hd _ _ L) as (De & Dm).
    apply JrtFacts.jrt_setLight_spec in H. destruct H as [[] _].
    rewrite Hc in sl_mode0.
    destruct (OldExtra.blinkOutput_strobe t s' sl_mode0) as (Se & Sm).
    rewrite Se, Sm. auto 6.
  - destruct (Part000Facts.p0_setLight_returns fuel m s Hv) as [s' H].
    exists s'. split; [exact H|].
    destruct (OldExtra.p0_setLight_lines _ m s s' Hr Hv H) as (L & _).
    rewrite Hb in L. destruct (Hd _ _ L) as (De & Dm).
    apply Part000Facts.p0_setLight_spec in H. destruct H as [[] _].
    rewrite Hc in sl_mode0.
    destruct (OldExtra.blinkOutput_strobe t s' sl_mode0) as (Se & Sm).
    rewrite Se, Sm. auto 6.
Qed.

(** X15 on hexbright_jrt.ino with Low stored, 100 ms into a strobe
    period. *)
Lemma X15_strobe_drops_low_duty_witness :
  exists s',
    Jrt.setLight 2 MODE_BLINKING (set_lastOnMode MODE_LOW jrt_high) = Some s'
    /\ drv_en s' = 64
    /\ drv_en (Common.blinkOutput 100 s') = 255
    /\ drv_mode (Common.blinkOutput 100 s') = false.
Proof.
  destruct (X15_strobe_drops_low_duty 0 MODE_BLINKING 100
              (set_lastOnMode MODE_LOW jrt_high))
    as ((s' & H & _ & E & _ & S1 & S2) & _).
  - split; discriminate.
  - split; discriminate.
  - exists s'. split; [exact H|]. split; [exact E|].
    split; [exact S1|exact S2].
Defined.

(** X16.  The oldest revision has no inactivity shutoff: with the button
    released and left alone, no run of [loop], whatever the clock, the
    temperature and the accelerometer show, switches a lit light off or
    touches the power latch. *)
Theorem X16_old_revision_never_times_out :
  forall (script : list (Z * Inputs)) (s : State),
    btnDown s = false ->
    Forall (fun p => in_button (snd p) = false) script ->
    mode s <> MODE_OFF ->
    mode (Part001.run script s) <> MODE_OFF
    /\ pwr (Part001.run script s) = pwr s
    /\ btnDown (Part001.run script s) = false.
Proof.
  intros script s Hb Hf Hm.
  destruct (OldExtra.p1_run_idle script s Hb Hf) as (B & P & M).
  split; [apply M; exact Hm|]. split; [exact P|exact B].
Qed.

(** X16 on the light in Medium, left for an hour and then for two more
    with an overheating pass in between. *)
Lemma X16_old_revision_never_times_out_witness :
  mode (Part001.run [(3600000, quiet false); (3600000, hot false);
                     (3600000, tap false)] old_medium) <> MODE_OFF.
Proof.
  apply (X16_old_revision_never_times_out
           [(3600000, quiet false); (3600000, hot false);
            (3600000, tap false)] old_medium).
  - reflexivity.
  - repeat constructor.
  - discriminate.
Defined.

(** X17.  In the [setLight] revision without EEPROM, in every state
    reached from boot the power latch is held exactly when the mode is
    not Off, and in Off, Low, Medium and High the driver-mode level and
    the enable duty are the ones [setLight] writes for that mode. *)
Theorem X17_latch_and_lines_follow_mode :
  forall (s : State),
    Part000.reachable s ->
    pwr s = negb (mode s =? MODE_OFF)
    /\ (mode s <= MODE_HIGH -> output_matches_mode s).
Proof.
  intros s Hr.
  destruct (OldExtra.p0_reachable_latched s Hr) as (_ & Hp & Ho).
  split; [exact Hp|exact Ho].
Qed.

(** X17 on the light switched on in High. *)
Lemma X17_latch_and_lines_follow_mode_witness :
  pwr p0_high = true /\ output_matches_mode p0_high.
Proof.
  destruct (X17_latch_and_lines_follow_mode p0_high
              OldExtra.p0_high_reachable) as (Hp & Ho).
  split; [exact Hp|]. apply Ho. discriminate.
Defined.

(** X18.  In the [setLight] revision without EEPROM the once-per-second
    work (overtemperature step-down, no-motion shutoff) never changes the
    stored brightness, unlike hexbright_jrt.ino; over a whole pass of
    [loop] from a well-formed state the stored brightness either stays or
    becomes the mode just entered. *)
Theorem X18_housekeeping_keeps_memory :
  (forall (fuel : nat) (inp : Inputs) (s s' : State),
      Part000.oneSecondLoop fuel inp s = Some s' ->
      lastOnMode s' = lastOnMode s)
  /\ (forall (fuel : nat) (inp : Inputs) (s s' : State),
         well_formed s ->
         Part000.loop fuel inp s = Some s' ->
         lastOnMode s' = lastOnMode s \/ lastOnMode s' = mode s').
Proof.
  split.
  - apply OldExtra.p0_oneSecondLoop_lastOn.
  - intros fuel inp s s' Hwf. unfold Part000.loop.
    destruct (Part000.oneSecondLoop fuel inp _) as [s1|] eqn:H1;
      [|discriminate].
    cbn [bind]. intros H2.
    pose proof (OldExtra.p0_oneSecondLoop_lastOn _ _ _ _ H1) as L1.
    assert (W1 : well_formed s1).
    { apply Part000Inv.p0_oneSecondLoop_keeps in H1. apply H1.
      apply (Frame.untouched_keeps _ _
               (Frame.untouched_checkChargeState inp s)).
      exact Hwf. }
    assert (W2 : well_formed (Common.blinkOutput (millis s) s1)).
    { apply (Frame.untouched_keeps _ _
               (Frame.untouched_blinkOutput (millis s) s1)).
      exact W1. }
    destruct (OldExtra.p0_buttonStep_lastOn _ _ _ _ _ W2 H2) as [E|E];
      [left|right; exact E].
    rewrite E.
    destruct (Frame.untouched_blinkOutput (millis s) s1) as (_ & L & _).
    rewrite L, L1.
    destruct (Frame.untouched_checkChargeState inp s) as (_ & L0 & _).
    exact L0.
Qed.

(** X18 on the light in High through an overheating pass: the mode drops
    to Low, High stays stored. *)
Lemma X18_housekeeping_keeps_memory_witness :
  exists s',
    Part000.loop 2 (hot false) (tick 1100 p0_high) = Some s'
    /\ mode s' = MODE_LOW
    /\ (lastOnMode s' = MODE_HIGH \/ lastOnMode s' = mode s').
Proof.
  destruct (Part000.loop 2 (hot false) (tick 1100 p0_high)) as [s'|] eqn:E;
    [|vm_compute in E; discriminate].
  exists s'. split; [reflexivity|].
  split; [vm_compute in E; inversion E; reflexivity|].
  destruct X18_housekeeping_keeps_memory as [_ H].
  apply (H 2%nat (hot false) (tick 1100 p0_high) s'); [|exact E].
  split; [split|split]; vm_compute; discriminate.
Defined.
